(** * The task orchestration engine of the AI Employee vault

    A shallow embedding of the orchestration core (scripts/risk_classifier.py,
    scripts/task_analyzer.py, scripts/event_queue.py,
    scripts/approval_workflow.py, scripts/plan_generator.py,
    scripts/step_executor.py, scripts/orchestrator.py) and the properties
    established about it.

    Conventions of the embedding.
    - Python [str] values are [string]s holding the UTF-8 encoding of the
      text; [lower] is [str.lower] as tests against ASCII keywords and
      lengths observe it, [py_len] counts code points.
    - Wall-clock time ([time.time], [datetime.now]) is one integer clock, in
      seconds, that only [time.sleep] advances.
    - The vault is a finite map from (directory, file name) to files; a file
      is represented by what the code reads out of it.
    - Python exceptions are values of [Exc]; code that may raise lives in a
      state-and-exception monad over the [World]. *)

From Stdlib Require Import ZArith String Ascii DecimalString.
From stdpp Require Import gmap strings list sorting.

Open Scope string_scope.
Open Scope Z_scope.

(* ================================================================== *)
(** * Part I. The embedding *)
(* ================================================================== *)

(** ** Python values, strings and exceptions *)

Record Exc := mkExc { exc_type : string; exc_msg : string }.

Inductive Result (A : Type) : Type :=
| Ok (a : A)
| Raise (e : Exc)
| OutOfFuel.
Arguments Ok {A} a.
Arguments Raise {A} e.
Arguments OutOfFuel {A}.

(** A Python [float]: a finite one is the rational [num / den] that it
    equals. *)
Inductive PyFloat :=
| FFinite (num : Z) (den : positive)
| FInf
| FNegInf
| FNaN.

#[global] Instance PyFloat_eq_dec : EqDecision PyFloat.
Proof. solve_decision. Defined.

(** The values of a metadata dictionary, as [json.load] yields them. A
    float carries its [repr] (the shortest decimal that reads back as the
    same float), which is what an f-string prints. [VOther] is any other
    value, a list or a dictionary, by its type name, its truth value and its
    [repr]. *)
Inductive PyVal :=
| VNone
| VBool (b : bool)
| VInt (z : Z)
| VFloat (f : PyFloat) (repr : string)
| VStr (s : string)
| VOther (type_name : string) (is_true : bool) (repr : string).

#[global] Instance PyVal_eq_dec : EqDecision PyVal.
Proof. solve_decision. Defined.

Definition str_of_Z (z : Z) : string := NilZero.string_of_int (Z.to_int z).

(** [str(v)] as an f-string renders it. *)
Definition py_str (v : PyVal) : string :=
  match v with
  | VNone => "None"
  | VBool true => "True"
  | VBool false => "False"
  | VInt z => str_of_Z z
  | VFloat _ repr => repr
  | VStr s => s
  | VOther _ _ repr => repr
  end.

(** [f > n] for a float [f] and an integer [n]: the comparison is exact;
    every comparison with [nan] is false. *)
Definition float_gt (f : PyFloat) (n : Z) : bool :=
  match f with
  | FFinite num den => n * Z.pos den <? num
  | FInf => true
  | FNegInf => false
  | FNaN => false
  end.

(** Truth value of [if v:]. *)
Definition truthy (v : PyVal) : bool :=
  match v with
  | VNone => false
  | VBool b => b
  | VInt z => negb (z =? 0)
  | VFloat (FFinite num _) _ => negb (num =? 0)
  | VFloat _ _ => true
  | VStr s => negb (String.eqb s "")
  | VOther _ is_true _ => is_true
  end.

Definition type_name (v : PyVal) : string :=
  match v with
  | VNone => "NoneType"
  | VBool _ => "bool"
  | VInt _ => "int"
  | VFloat _ _ => "float"
  | VStr _ => "str"
  | VOther name _ _ => name
  end.

(** [v > n] for an integer literal [n]: numbers compare ([bool] is a
    subtype of [int]), anything else raises [TypeError]. *)
Definition py_gt (v : PyVal) (n : Z) : Result bool :=
  match v with
  | VInt z => Ok (n <? z)
  | VBool b => Ok (n <? (if b then 1 else 0))
  | VFloat f _ => Ok (float_gt f n)
  | _ => Raise (mkExc "TypeError"
           ("'>' not supported between instances of '" +:+ type_name v +:+ "' and 'int'"))
  end.

Definition lower_ascii (c : ascii) : ascii :=
  let n := nat_of_ascii c in
  if ((65 <=? n) && (n <=? 90))%nat then ascii_of_nat (n + 32) else c.

(** [s.lower()] on UTF-8 text. Besides [A]-[Z], two code points have a
    lower-case form that holds an ASCII letter: U+212A KELVIN SIGN (bytes
    226 132 170) lowers to [k], and U+0130 (bytes 196 176) lowers to [i]
    followed by U+0307 (bytes 204 135). Every other code point outside
    ASCII lowers to one code point outside ASCII and is left as it is here:
    no test for an ASCII keyword and no length tells the two apart. *)
Fixpoint lower (s : string) : string :=
  match s with
  | EmptyString => EmptyString
  | String c1 s1 =>
      match s1 with
      | EmptyString => String (lower_ascii c1) EmptyString
      | String c2 s2 =>
          if Ascii.eqb c1 "196" && Ascii.eqb c2 "176"
          then String "i" (String "204" (String "135" (lower s2)))
          else
            match s2 with
            | EmptyString => String (lower_ascii c1) (lower s1)
            | String c3 s3 =>
                if Ascii.eqb c1 "226" && Ascii.eqb c2 "132" && Ascii.eqb c3 "170"
                then String "k" (lower s3)
                else String (lower_ascii c1) (lower s1)
            end
      end
  end.

(** A byte that continues a UTF-8 sequence (128 to 191). *)
Definition continues (c : ascii) : bool :=
  let n := nat_of_ascii c in ((128 <=? n) && (n <=? 191))%nat.

(** [len(s)]: the number of code points, that is of bytes that do not
    continue a sequence. *)
Fixpoint py_len (s : string) : Z :=
  match s with
  | EmptyString => 0
  | String c s' => (if continues c then 0 else 1) + py_len s'
  end.

(** [s[:n]]: the first [n] code points. *)
Fixpoint py_prefix (n : nat) (s : string) : string :=
  match s with
  | EmptyString => EmptyString
  | String c s' =>
      if continues c then String c (py_prefix n s')
      else
        match n with
        | O => EmptyString
        | S n' => String c (py_prefix n' s')
        end
  end.

(** [k in s] on strings: [k] occurs as a contiguous substring of [s]. *)
Fixpoint contains (k s : string) : bool :=
  match s with
  | EmptyString => String.prefix k EmptyString
  | String _ s' => String.prefix k s || contains k s'
  end.

(** [any(k in s for k in ks)] *)
Definition contains_any (ks : list string) (s : string) : bool :=
  existsb (fun k => contains k s) ks.

(** The first keyword of [ks] occurring in [s]: the keyword at which a
    [for k in ks: if k in s: return ...] loop returns. *)
Definition first_keyword (ks : list string) (s : string) : option string :=
  List.find (fun k => contains k s) ks.

(** ** scripts/risk_classifier.py *)

Inductive RiskLevel := low | medium | high.

#[global] Instance RiskLevel_eq_dec : EqDecision RiskLevel.
Proof. solve_decision. Defined.

Definition risk_name (l : RiskLevel) : string :=
  match l with low => "low" | medium => "medium" | high => "high" end.

Module RiskClassifier.

Definition HIGH_RISK_KEYWORDS : list string :=
  [ "payment"; "transfer"; "invoice"; "legal"; "contract";
    "medical"; "health"; "condolence"; "lawsuit"; "terminate";
    "delete"; "remove"; "destroy"; "cancel"; "refund" ].

Definition MEDIUM_RISK_KEYWORDS : list string :=
  [ "email"; "send"; "post"; "publish"; "share"; "reply";
    "new contact"; "unknown"; "first time"; "external";
    "public"; "broadcast"; "announce" ].

Definition SENSITIVE_CONTEXTS : list string :=
  [ "emotional"; "conflict"; "negotiation"; "complaint";
    "dispute"; "disagreement"; "criticism"; "feedback" ].

Definition PAYMENT_THRESHOLD_HIGH : Z := 500.
Definition PAYMENT_THRESHOLD_MEDIUM : Z := 50.

(** The payment branch of [classify]; [None] when no payment rule fires. *)
Definition payment_rules (metadata : gmap string PyVal)
  : Result (option (RiskLevel * string)) :=
  let amount := default (VInt 0) (metadata !! "amount") in
  let new_payee := default (VBool false) (metadata !! "new_payee") in
  match py_gt amount PAYMENT_THRESHOLD_HIGH with
  | Raise e => Raise e
  | OutOfFuel => OutOfFuel
  | Ok true =>
      Ok (Some (high, "Payment amount $" +:+ py_str amount
                      +:+ " exceeds high threshold ($"
                      +:+ str_of_Z PAYMENT_THRESHOLD_HIGH +:+ ")"))
  | Ok false =>
      if truthy new_payee then Ok (Some (high, "New payee requires approval"))
      else
        match py_gt amount PAYMENT_THRESHOLD_MEDIUM with
        | Raise e => Raise e
        | OutOfFuel => OutOfFuel
        | Ok true =>
            Ok (Some (medium, "Payment amount $" +:+ py_str amount
                              +:+ " exceeds medium threshold ($"
                              +:+ str_of_Z PAYMENT_THRESHOLD_MEDIUM +:+ ")"))
        | Ok false => Ok None
        end
  end.

(** The rules below the payment branch, in source order. *)
Definition later_rules (action_type content_lower : string)
    (metadata : gmap string PyVal) : RiskLevel * string :=
  match first_keyword MEDIUM_RISK_KEYWORDS content_lower with
  | Some keyword => (medium, "Contains medium-risk keyword: " +:+ keyword)
  | None =>
    match first_keyword SENSITIVE_CONTEXTS content_lower with
    | Some context => (medium, "Sensitive context detected: " +:+ context)
    | None =>
      if bool_decide (action_type ∈ ["linkedin_post"; "twitter_post"; "facebook_post"])
      then (medium, "Social media post requires approval")
      else if String.eqb action_type "email_send"
              && bool_decide (default (VStr "unknown") (metadata !! "contact_history")
                              = VStr "new")
      then (medium, "Email to new contact requires approval")
      else if String.eqb action_type "file_delete"
      then (high, "File deletion is irreversible and requires approval")
      else (low, "No risk indicators detected")
    end
  end.

Definition classify (action_type content : string) (metadata : gmap string PyVal)
  : Result (RiskLevel * string) :=
  let content_lower := lower content in
  match first_keyword HIGH_RISK_KEYWORDS content_lower with
  | Some keyword => Ok (high, "Contains high-risk keyword: " +:+ keyword)
  | None =>
    if String.eqb action_type "payment" then
      match payment_rules metadata with
      | Raise e => Raise e
      | OutOfFuel => OutOfFuel
      | Ok (Some r) => Ok r
      | Ok None => Ok (later_rules action_type content_lower metadata)
      end
    else Ok (later_rules action_type content_lower metadata)
  end.

Definition requires_approval (risk_level : RiskLevel) : bool :=
  bool_decide (risk_level ∈ [medium; high]).

(** [get_risk_factors]: every keyword found, high-risk ones first, each
    list in its own order. *)
Definition get_risk_factors (content : string) : list string :=
  let content_lower := lower content in
  (List.map (fun keyword => "High-risk keyword: " +:+ keyword)
     (List.filter (fun keyword => contains keyword content_lower) HIGH_RISK_KEYWORDS)
   ++ List.map (fun keyword => "Medium-risk keyword: " +:+ keyword)
        (List.filter (fun keyword => contains keyword content_lower) MEDIUM_RISK_KEYWORDS)
   ++ List.map (fun context => "Sensitive context: " +:+ context)
        (List.filter (fun context => contains context content_lower) SENSITIVE_CONTEXTS))%list.

End RiskClassifier.

(** ** The vault: directories, files, plan document, log *)

Inductive Dir := Needs_Action | Pending_Approval | Approved | Rejected | Done.

#[global] Instance Dir_eq_dec : EqDecision Dir.
Proof. solve_decision. Defined.

Definition Dir_to_nat (d : Dir) : nat :=
  match d with
  | Needs_Action => 0 | Pending_Approval => 1 | Approved => 2
  | Rejected => 3 | Done => 4
  end%nat.

Definition Dir_of_nat (n : nat) : option Dir :=
  match n with
  | 0 => Some Needs_Action | 1 => Some Pending_Approval | 2 => Some Approved
  | 3 => Some Rejected | 4 => Some Done | _ => None
  end%nat.

#[global] Instance Dir_countable : Countable Dir.
Proof.
  apply (inj_countable Dir_to_nat Dir_of_nat).
  intros []; reflexivity.
Defined.

(** The [content] entry of an event: the analyzer expects text, the
    watchers' [normalize_event] writes a dictionary of fields. *)
Inductive Content :=
| CText (s : string)
| CFields (subject body from to : string).

(** An event dictionary, by the keys the core reads. *)
Record Event := mkEvent {
  ev_id : option string;          (* event['id'] *)
  ev_event_id : option string;    (* event['event_id'] *)
  ev_source : option string;      (* event['source'] *)
  ev_type : option string;        (* event['type'] *)
  ev_content : option Content;    (* event['content'] *)
  ev_metadata : gmap string PyVal (* event.get('metadata', {}) *)
}.

(** The type name of a JSON value that is not an object. *)
Module JsonType.
Inductive t := list | str | int | float | bool | NoneType.
#[global] Instance eq_dec : EqDecision t.
Proof. solve_decision. Defined.
Definition name (k : t) : string :=
  match k with
  | list => "list" | str => "str" | int => "int"
  | float => "float" | bool => "bool" | NoneType => "NoneType"
  end.
End JsonType.

(** What [json.load] returns for a queue file: an object is read as an
    event; of any other value the core only meets the type, when it asks
    it for [get]. *)
Inductive Json :=
| JObject (event : Event)
| JOther (type : JsonType.t).

(** [value.get(...)] on a value that is not a dictionary. *)
Definition no_get (type : JsonType.t) : Exc :=
  mkExc "AttributeError"
        ("'" +:+ JsonType.name type +:+ "' object has no attribute 'get'").

(** A file, by what the core reads out of it. [OtherJson] is a file that
    holds valid JSON which is not an object; [Unreadable] stands for content
    that does not parse (or a lock that is not obtained in time). *)
Inductive FileBody :=
| EventJson (ev : Event)
| OtherJson (type : JsonType.t)
| ApprovalDoc (action_id action_type : string) (risk_level : RiskLevel)
              (created_at : Z) (expires_at : option Z)
| EscalationDoc (event_id step_id description error : string)
| Unreadable.

Record File := mkFile { body : FileBody; mtime : Z }.

Module Step.
Inductive status := pending | in_progress | completed | failed.
#[global] Instance status_eq_dec : EqDecision status.
Proof. solve_decision. Defined.
Definition name (s : status) : string :=
  match s with
  | pending => "pending" | in_progress => "in_progress"
  | completed => "completed" | failed => "failed"
  end.
End Step.

Inductive PlanState := Active | Completed (outcome : string).

(** Plan.md: its status line, the related event and the status marker of
    every step line (free-text sections are left out). *)
Record Plan := mkPlan {
  plan_state : PlanState;
  plan_event : option string;
  plan_steps : list (string * Step.status)
}.

Record LogEntry := mkLog {
  log_time : Z;
  log_level : string;
  log_component : string;
  log_action : string;
  log_actor : string;
  log_target : string;
  log_status : string;
  log_details : list (string * PyVal)
}.

Record Store := mkStore {
  clock : Z;
  fs : gmap (Dir * string) File;
  plan : option Plan;
  log : list LogEntry
}.

(** A step's action: a callable without arguments that acts on the store
    and returns ([None]) or raises ([Some e]). *)
Definition StepFn := Store -> option Exc * Store.

(** What the executor did, in order: each call of a step's action with the
    exception it raised (if any), each [time.sleep], each status written
    through [update_step_status]. *)
Inductive TraceItem :=
| TCall (raised : option Exc)
| TSleep (seconds : Z)
| TMark (step_id : string) (status : Step.status) (notes : string).

Record World := mkWorld { store : Store; trace : list TraceItem }.

(** The surroundings: how [strftime('%Y%m%d_%H%M%S')] renders the clock,
    and what other actors (a human approver, watchers) do to the vault
    while the process sleeps until a given time. *)
Record Env := mkEnv {
  strftime : Z -> string;
  human : Z -> gmap (Dir * string) File -> gmap (Dir * string) File
}.

(** ** The state-and-exception monad *)

Definition M (A : Type) : Type := World -> Result A * World.

Definition ret {A} (a : A) : M A := fun w => (Ok a, w).

Definition bind {A B} (m : M A) (f : A -> M B) : M B :=
  fun w =>
    match m w with
    | (Ok a, w') => f a w'
    | (Raise e, w') => (Raise e, w')
    | (OutOfFuel, w') => (OutOfFuel, w')
    end.

Definition raise {A} (e : Exc) : M A := fun w => (Raise e, w).

(** [try: m  except Exception as e: handler e] *)
Definition try_except {A} (m : M A) (handler : Exc -> M A) : M A :=
  fun w =>
    match m w with
    | (Raise e, w') => handler e w'
    | r => r
    end.

Definition lift_result {A} (r : Result A) : M A := fun w => (r, w).

Definition gets {A} (f : Store -> A) : M A := fun w => (Ok (f (store w)), w).

Definition modify (f : Store -> Store) : M unit :=
  fun w => (Ok tt, mkWorld (f (store w)) (trace w)).

Definition record (t : TraceItem) : M unit :=
  fun w => (Ok tt, mkWorld (store w) (trace w ++ [t])).

#[global] Instance M_ret : MRet M := @ret.
#[global] Instance M_bind : MBind M := fun A B f m => bind m f.

Definition set_fs (f : gmap (Dir * string) File) (s : Store) : Store :=
  mkStore (clock s) f (plan s) (log s).
Definition set_plan (p : option Plan) (s : Store) : Store :=
  mkStore (clock s) (fs s) p (log s).
Definition set_clock (t : Z) (s : Store) : Store :=
  mkStore t (fs s) (plan s) (log s).
Definition add_log (e : LogEntry) (s : Store) : Store :=
  mkStore (clock s) (fs s) (plan s) (log s ++ [e]).

(** [time.sleep(seconds)]: the clock advances and the other actors have had
    their turn on the vault. *)
Definition sleep (env : Env) (seconds : Z) : M unit :=
  if seconds <? 0 then
    raise (mkExc "ValueError" "sleep length must be non-negative")
  else
    record (TSleep seconds);;
    modify (fun s =>
      let t := clock s + seconds in
      set_fs (human env t (fs s)) (set_clock t s)).

(** ** scripts/logger.py *)

Module Logger.

Definition entry (level component action actor target status : string)
    (details : list (string * PyVal)) (s : Store) : Store :=
  add_log (mkLog (clock s) level component action actor target status details) s.

Definition info (component action actor target : string)
    (details : list (string * PyVal)) : Store -> Store :=
  entry "info" component action actor target "success" details.

Definition warning (component action actor target : string)
    (details : list (string * PyVal)) : Store -> Store :=
  entry "warning" component action actor target "pending" details.

Definition error (component action actor target : string)
    (details : list (string * PyVal)) : Store -> Store :=
  entry "error" component action actor target "failure" details.

End Logger.

(** ** scripts/task_analyzer.py *)

Module Category.
Inductive t := sales | support | complaint | general | routine.
#[global] Instance eq_dec : EqDecision t.
Proof. solve_decision. Defined.
Definition name (c : t) : string :=
  match c with
  | sales => "sales" | support => "support" | complaint => "complaint"
  | general => "general" | routine => "routine"
  end.
End Category.

Module Priority.
Inductive t := low | medium | high | urgent.
#[global] Instance eq_dec : EqDecision t.
Proof. solve_decision. Defined.
Definition name (p : t) : string :=
  match p with
  | low => "low" | medium => "medium" | high => "high" | urgent => "urgent"
  end.
End Priority.

Module Complexity.
Inductive t := simple | complex | routine | critical.
#[global] Instance eq_dec : EqDecision t.
Proof. solve_decision. Defined.
Definition name (c : t) : string :=
  match c with
  | simple => "simple" | complex => "complex"
  | routine => "routine" | critical => "critical"
  end.
End Complexity.

Record Analysis := mkAnalysis {
  complexity : Complexity.t;
  category : Category.t;
  priority : Priority.t;
  requires_plan : bool;
  suggested_actions : list string;
  estimated_steps : Z;
  source : string;
  event_type : string
}.

Module TaskAnalyzer.

Definition urgent_keywords : list string :=
  [ "urgent"; "asap"; "immediately"; "critical"; "emergency";
    "important"; "priority"; "deadline"; "time-sensitive" ].

Definition sales_keywords : list string :=
  [ "pricing"; "quote"; "proposal"; "interested"; "purchase";
    "buy"; "cost"; "demo"; "trial"; "consultation"; "meeting" ].

Definition support_keywords : list string :=
  [ "help"; "issue"; "problem"; "error"; "bug"; "not working";
    "broken"; "question"; "how to"; "support"; "assistance" ].

Definition complaint_keywords : list string :=
  [ "complaint"; "unhappy"; "disappointed"; "frustrated"; "angry";
    "unacceptable"; "poor"; "terrible"; "worst"; "refund" ].

Definition routine_keywords : list string :=
  [ "weekly"; "daily"; "monthly"; "scheduled"; "regular";
    "recurring"; "automated"; "routine"; "periodic" ].

Definition _classify_category (content : string) (metadata : gmap string PyVal)
  : Category.t :=
  if contains_any routine_keywords content then Category.routine
  else if contains_any complaint_keywords content then Category.complaint
  else if contains_any sales_keywords content then Category.sales
  else if contains_any support_keywords content then Category.support
  else Category.general.

Definition _classify_priority (content : string) (metadata : gmap string PyVal)
    (category : Category.t) : Priority.t :=
  if contains_any urgent_keywords content then Priority.urgent
  else
    match category with
    | Category.complaint => Priority.high
    | Category.sales => Priority.high
    | Category.support => Priority.medium
    | Category.routine => Priority.low
    | Category.general =>
        if bool_decide (metadata !! "priority" = Some (VStr "high"))
        then Priority.high
        else Priority.medium
    end.

Definition _classify_complexity (content : string) (metadata : gmap string PyVal)
    (category : Category.t) (priority : Priority.t) : Complexity.t :=
  if bool_decide (priority = Priority.urgent) then Complexity.critical
  else
    match category with
    | Category.complaint => Complexity.complex
    | Category.sales => Complexity.complex
    | Category.routine => Complexity.routine
    | Category.support =>
        if 500 <? py_len content
        then Complexity.complex else Complexity.simple
    | Category.general =>
        if 300 <? py_len content
        then Complexity.complex else Complexity.simple
    end.

Definition _generate_suggested_actions (source event_type : string)
    (category : Category.t) (complexity : Complexity.t)
    (metadata : gmap string PyVal) : list string :=
  let actions :=
    match category with
    | Category.sales =>
        [ "Analyze lead quality and intent";
          "Draft personalized response with value proposition";
          "Offer consultation or demo";
          "Schedule follow-up";
          "Log opportunity in CRM" ]
    | Category.complaint =>
        [ "Acknowledge complaint and apologize";
          "Investigate issue details";
          "Propose resolution or compensation";
          "Escalate to human if needed";
          "Follow up to ensure satisfaction" ]
    | Category.support =>
        [ "Understand the issue";
          "Search knowledge base for solution";
          "Provide step-by-step guidance";
          "Offer additional resources";
          "Follow up to confirm resolution" ]
    | Category.routine =>
        [ "Execute predefined workflow";
          "Generate required content";
          "Submit for approval if needed";
          "Publish or send";
          "Log completion" ]
    | Category.general =>
        [ "Analyze request intent";
          "Determine appropriate response";
          "Draft response";
          "Review and send" ]
    end in
  if String.eqb source "gmail" && String.eqb event_type "new_message"
  then "Read and parse email content" :: actions
  else if String.eqb source "linkedin" && String.eqb event_type "connection_request"
  then "Review LinkedIn profile" :: actions
  else if String.eqb source "linkedin" && String.eqb event_type "new_message"
  then "Review conversation history" :: actions
  else actions.

Definition _estimate_steps (complexity : Complexity.t) (category : Category.t)
    (num_actions : Z) : Z :=
  let base_steps :=
    match complexity with
    | Complexity.simple => 2
    | Complexity.routine => 3
    | Complexity.complex => 5
    | Complexity.critical => 7
    end in
  let base_steps :=
    if bool_decide (category ∈ [Category.sales; Category.complaint])
    then base_steps + 2 else base_steps in
  Z.max base_steps num_actions.

(** [event.get('content', '').lower()]: a dictionary has no [lower]. *)
Definition content_lower (event : Event) : Result string :=
  match ev_content event with
  | None => Ok (lower "")
  | Some (CText s) => Ok (lower s)
  | Some (CFields _ _ _ _) =>
      Raise (mkExc "AttributeError" "'dict' object has no attribute 'lower'")
  end.

Definition analyze_event (event : Event) : M Analysis :=
  let source := default "unknown" (ev_source event) in
  let event_type := default "unknown" (ev_type event) in
  content ← lift_result (content_lower event);
  let metadata := ev_metadata event in
  let category := _classify_category content metadata in
  let priority := _classify_priority content metadata category in
  let complexity := _classify_complexity content metadata category priority in
  let requires_plan :=
    bool_decide (complexity ∈ [Complexity.complex; Complexity.critical]) in
  let suggested_actions :=
    _generate_suggested_actions source event_type category complexity metadata in
  let estimated_steps :=
    _estimate_steps complexity category (Z.of_nat (length suggested_actions)) in
  let analysis :=
    mkAnalysis complexity category priority requires_plan
               suggested_actions estimated_steps source event_type in
  modify (Logger.info "reasoning" "event_analyzed" "task_analyzer"
            (default "unknown" (ev_id event))
            [ ("complexity", VStr (Complexity.name complexity));
              ("category", VStr (Category.name category));
              ("priority", VStr (Priority.name priority));
              ("requires_plan", VBool requires_plan) ]);;
  mret analysis.

(** [str.title()] on the two category names it is applied to. *)
Definition category_title (c : Category.t) : string :=
  match c with
  | Category.sales => "Sales"
  | Category.complaint => "Complaint"
  | Category.support => "Support"
  | Category.general => "General"
  | Category.routine => "Routine"
  end.

Definition should_create_plan (event : Event) : M (bool * string) :=
  analysis ← analyze_event event;
  if bool_decide (complexity analysis = Complexity.critical) then
    mret (true, "Critical priority requires structured planning")
  else if bool_decide (complexity analysis = Complexity.complex) then
    mret (true, "Complex task requires multi-step planning")
  else if bool_decide (category analysis ∈ [Category.sales; Category.complaint]) then
    mret (true, category_title (category analysis) +:+ " requires careful planning")
  else if 4 <? estimated_steps analysis then
    mret (true, "Multi-step task requires planning")
  else mret (false, "Simple task can be handled without formal plan").

End TaskAnalyzer.

(** ** Paths *)

Abbreviation Path := (Dir * string)%type.

Definition exists_ (p : Path) (s : Store) : bool :=
  bool_decide (is_Some (fs s !! p)).

(** [Path.rename(target)]: the source must exist, an existing target is
    replaced. *)
Definition rename (src dst : Path) : M unit :=
  fun w =>
    match fs (store w) !! src with
    | None =>
        (Raise (mkExc "FileNotFoundError" ("No such file or directory: " +:+ src.2)), w)
    | Some f =>
        (Ok tt, mkWorld (set_fs (<[dst := f]> (delete src (fs (store w)))) (store w))
                        (trace w))
    end.

(** [atomic_write]: the file appears whole under its final name. *)
Definition atomic_write (p : Path) (b : FileBody) (s : Store) : Store :=
  set_fs (<[p := mkFile b (clock s)]> (fs s)) s.

Fixpoint ends_with (suffix s : string) : bool :=
  String.eqb suffix s ||
  match s with
  | EmptyString => false
  | String _ s' => ends_with suffix s'
  end.

Definition str_le (a b : string) : Prop := String.leb a b = true.

#[global] Instance str_le_dec : RelDecision str_le.
Proof. intros a b. unfold str_le. apply _. Defined.

(** [sorted(dir.glob('*' + suffix))], as file names. *)
Definition glob (d : Dir) (suffix : string) (f : gmap (Dir * string) File)
  : list string :=
  List.filter (ends_with suffix)
    (omap (fun kv : (Dir * string) * File =>
             if bool_decide (kv.1.1 = d) then Some kv.1.2 else None)
          (map_to_list f)).

Definition sorted (l : list string) : list string := merge_sort str_le l.

(** ** scripts/event_queue.py *)

Module EventQueue.

Definition queue_dir : Dir := Needs_Action.

(** [json.load] on the content of a file: [None] when it raises. *)
Definition json_load (f : File) : option Json :=
  match body f with
  | EventJson event => Some (JObject event)
  | OtherJson type => Some (JOther type)
  | _ => None
  end.

(** Reading never changes the vault: [pop] leaves the file where it is.
    Whatever JSON value the first file holds is returned. *)
Definition pop (s : Store) : option (Json * Path) :=
  match sorted (glob queue_dir ".json" (fs s)) with
  | [] => None
  | name :: _ =>
      let event_file := (queue_dir, name) in
      match fs s !! event_file with
      | Some file =>
          match json_load file with
          | Some event => Some (event, event_file)
          | None => None
          end
      | None => None
      end
  end.

Definition peek (s : Store) : option Json :=
  match pop s with
  | Some result => Some result.1
  | None => None
  end.

Definition move_to_done (event_file : Path) : M unit :=
  rename event_file (Done, event_file.2).

Definition move_to_pending_approval (event_file : Path) : M unit :=
  rename event_file (Pending_Approval, event_file.2).

Definition get_queue_size (s : Store) : nat :=
  length (glob queue_dir ".json" (fs s)).

(** [push]: an event without [source] is refused; an event without
    [event_id] gets [<timestamp>_<source>_<suffix>], where [suffix] stands
    for [uuid.uuid4().hex[:6]]; the file is written whole under
    [<event_id>.json], replacing a file of that name. ([push] also fills
    in [created_at] and [processed], which are not among the keys that
    [Event] records.) *)
Definition push (env : Env) (suffix : string) (event : Event) : M string :=
  match ev_source event with
  | None => raise (mkExc "ValueError" "Event must contain 'source' field")
  | Some source =>
      now ← gets clock;
      let event_id :=
        default (strftime env now +:+ "_" +:+ source +:+ "_" +:+ suffix)
                (ev_event_id event) in
      let event' :=
        mkEvent (ev_id event) (Some event_id) (ev_source event) (ev_type event)
                (ev_content event) (ev_metadata event) in
      modify (atomic_write (queue_dir, event_id +:+ ".json") (EventJson event'));;
      mret event_id
  end.

(** [get_event]: read without lock; [None] when the file is missing or
    does not parse. *)
Definition get_event (event_id : string) (s : Store) : option Json :=
  match fs s !! (queue_dir, event_id +:+ ".json") with
  | Some file => json_load file
  | None => None
  end.

(** [delete_event]: unlink the file when it exists. *)
Definition delete_event (event_id : string) : M bool :=
  let event_file := (queue_dir, event_id +:+ ".json") in
  is_there ← gets (exists_ event_file);
  if (is_there : bool) then
    modify (fun s => set_fs (delete event_file (fs s)) s);;
    mret true
  else mret false.

End EventQueue.

(** ** scripts/approval_workflow.py *)

Module Approval.
Inductive status := approved | rejected | pending | timeout | not_found.
#[global] Instance status_eq_dec : EqDecision status.
Proof. solve_decision. Defined.
Definition name (s : status) : string :=
  match s with
  | approved => "approved" | rejected => "rejected" | pending => "pending"
  | timeout => "timeout" | not_found => "not_found"
  end.
End Approval.

Record ApprovalWorkflow := mkApprovalWorkflow { timeout_hours : Z }.

Module ApprovalWorkflowM.

Definition pending_dir : Dir := Pending_Approval.
Definition approved_dir : Dir := Approved.
Definition rejected_dir : Dir := Rejected.

(** The marker at which [_is_expired] starts to read the metadata of a
    request. *)
Definition json_fence : string := "```json".

(** [_is_expired] reads the first json fence of the file, and the
    request's own metadata block comes last: a fence in the action type,
    the action id, the description or the printed value of an action detail
    would be read in its place. (The keys of the action details are
    title-cased, which leaves [```J] at best.) *)
Definition fence_ahead (action_id action_type description : string)
    (action_data : gmap string PyVal) : bool :=
  contains json_fence action_type
  || contains json_fence action_id
  || contains json_fence description
  || existsb (fun detail : string * PyVal => contains json_fence (py_str detail.2))
             (map_to_list action_data).

(** The file is written as [_is_expired] reads it back: with the expiry
    of its metadata block, the texts ahead of the block holding no fence of
    their own ([fence_ahead]). *)
Definition request_approval (self : ApprovalWorkflow)
    (action_id action_type description : string) (risk_level : RiskLevel)
    (action_data : gmap string PyVal) : M Path :=
  created_at ← gets clock;
  let expires_at := created_at + 3600 * timeout_hours self in
  let approval_file := (pending_dir, action_id +:+ ".md") in
  modify (atomic_write approval_file
            (ApprovalDoc action_id action_type risk_level created_at (Some expires_at)));;
  modify (Logger.info "approval" "approval_requested" "approval_workflow" action_id
            [ ("action_type", VStr action_type);
              ("risk_level", VStr (risk_name risk_level));
              ("expires_at", VInt expires_at) ]);;
  mret approval_file.

(** The embedded [expires_at] decides when it can be read; otherwise the
    age of the file does. *)
Definition _is_expired (self : ApprovalWorkflow) (approval_file : File) (now : Z)
  : bool :=
  match body approval_file with
  | ApprovalDoc _ _ _ _ (Some expires_at) => expires_at <? now
  | _ => 3600 * timeout_hours self <? now - mtime approval_file
  end.

Definition check_approval_status (self : ApprovalWorkflow) (action_id : string)
  : M (Approval.status * option Path) :=
  let approved_file := (approved_dir, action_id +:+ ".md") in
  let rejected_file := (rejected_dir, action_id +:+ ".md") in
  let pending_file := (pending_dir, action_id +:+ ".md") in
  is_approved ← gets (exists_ approved_file);
  if (is_approved : bool) then
    modify (Logger.info "approval" "approval_granted" "human" action_id
              [ ("status", VStr "approved") ]);;
    mret (Approval.approved, Some approved_file)
  else
    is_rejected ← gets (exists_ rejected_file);
    if (is_rejected : bool) then
      modify (Logger.info "approval" "approval_rejected" "human" action_id
                [ ("status", VStr "rejected") ]);;
      mret (Approval.rejected, Some rejected_file)
    else
      pending_entry ← gets (fun s => fs s !! pending_file);
      match (pending_entry : option File) with
      | Some file =>
          now ← gets clock;
          if _is_expired self file now then
            rename pending_file rejected_file;;
            modify (Logger.warning "approval" "approval_timeout" "system" action_id
                      [ ("status", VStr "timeout");
                        ("timeout_hours", VInt (timeout_hours self)) ]);;
            mret (Approval.timeout, Some rejected_file)
          else mret (Approval.pending, Some pending_file)
      | None => mret (Approval.not_found, None)
      end.

(** Truth value of an [Optional[int]]. *)
Definition truthy_int (o : option Z) : bool :=
  match o with
  | Some z => negb (z =? 0)
  | None => false
  end.

(** [wait_for_approval]: the body of [while True]; every turn takes one
    unit of fuel. *)
Fixpoint wait_for_approval_loop (env : Env) (self : ApprovalWorkflow)
    (action_id : string) (poll_interval : Z) (max_wait_seconds : option Z)
    (start_time : Z) (fuel : nat) : M Approval.status :=
  match fuel with
  | O => lift_result OutOfFuel
  | S fuel' =>
      '(status, _) ← check_approval_status self action_id;
      if bool_decide ((status : Approval.status)
                      ∈ [Approval.approved; Approval.rejected;
                         Approval.timeout; Approval.not_found])
      then mret status
      else
        now ← gets clock;
        if truthy_int max_wait_seconds
           && (default 0 max_wait_seconds <? (now : Z) - start_time)
        then mret Approval.pending
        else
          sleep env poll_interval;;
          wait_for_approval_loop env self action_id poll_interval
                                 max_wait_seconds start_time fuel'
  end.

Definition wait_for_approval (env : Env) (self : ApprovalWorkflow)
    (action_id : string) (poll_interval : Z) (max_wait_seconds : option Z)
    (fuel : nat) : M Approval.status :=
  start_time ← gets clock;
  wait_for_approval_loop env self action_id poll_interval max_wait_seconds
                         start_time fuel.

End ApprovalWorkflowM.

(** ** scripts/plan_generator.py *)

Module PlanGenerator.

Definition create_plan (objective : string) (proposed_actions : list string)
    (risk_level : string) (requires_approval : bool)
    (steps : list (string * Step.status)) (event_id : option string) : M unit :=
  modify (set_plan (Some (mkPlan Active event_id steps)));;
  modify (Logger.info "reasoning" "plan_created" "plan_generator"
            (default "manual" event_id)
            [ ("objective", VStr (py_prefix 100 objective));
              ("risk_level", VStr risk_level);
              ("total_steps", VInt (Z.of_nat (length steps)));
              ("requires_approval", VBool requires_approval) ]).

Definition set_status (step_id : string) (new_status : Step.status)
    (steps : list (string * Step.status)) : list (string * Step.status) :=
  List.map (fun st : string * Step.status =>
              if String.eqb st.1 step_id then (st.1, new_status) else st) steps.

Definition update_step_status (step_id : string) (new_status : Step.status)
    (notes : string) : M unit :=
  record (TMark step_id new_status notes);;
  current ← gets plan;
  match (current : option Plan) with
  | None =>
      modify (Logger.warning "reasoning" "plan_update_failed" "plan_generator" step_id
                [ ("reason", VStr "Plan file does not exist") ])
  | Some p =>
      if existsb (fun st : string * Step.status => String.eqb st.1 step_id)
                 (plan_steps p)
      then
        modify (set_plan (Some (mkPlan (plan_state p) (plan_event p)
                                       (set_status step_id new_status (plan_steps p)))));;
        modify (Logger.info "reasoning" "step_updated" "plan_generator" step_id
                  [ ("new_status", VStr (Step.name new_status));
                    ("notes", VStr notes) ])
      else
        modify (Logger.warning "reasoning" "step_not_found" "plan_generator" step_id
                  [ ("status", VStr (Step.name new_status)) ])
  end.

(** Only an [Active] status line is rewritten. *)
Definition mark_plan_complete (outcome : string) : M unit :=
  current ← gets plan;
  match (current : option Plan) with
  | None => mret tt
  | Some p =>
      let state' :=
        match plan_state p with
        | Active => Completed outcome
        | st => st
        end in
      modify (set_plan (Some (mkPlan state' (plan_event p) (plan_steps p))));;
      modify (Logger.info "reasoning" "plan_completed" "plan_generator" "current_plan"
                [ ("outcome", VStr outcome) ])
  end.

End PlanGenerator.

(** ** scripts/step_executor.py *)

Record StepExecutor := mkStepExecutor {
  max_retries : Z;
  base_retry_delay : Z;
  step_timeout : Z;
  approval_workflow : ApprovalWorkflow
}.

(** [StepExecutor()] next to [ApprovalWorkflow()]: the defaults. *)
Definition default_executor : StepExecutor :=
  mkStepExecutor 3 5 300 (mkApprovalWorkflow 24).

(** A step dictionary of [execute_plan], with the defaults of its
    [step.get] calls filled in. *)
Record PlanStep := mkPlanStep {
  step_id : string;
  step_description : string;
  step_function : StepFn;
  step_requires_risk_check : bool;
  step_action_type : option string;
  step_action_metadata : gmap string PyVal;
  step_blocking : bool
}.

Record Summary := mkSummary {
  total_steps : Z;
  completed : Z;
  failed : Z;
  failed_steps : list (string * string * string);
  duration_ms : Z;
  outcome : string
}.

Module StepExecutorM.

(** Truth value of an [Optional[str]]. *)
Definition truthy_str (o : option string) : bool :=
  match o with
  | Some s => negb (String.eqb s "")
  | None => false
  end.

(** [step_function()] inside [try]: the action runs on the store; what it
    raised, if anything, is handed to the [except] clause. *)
Definition call (step_function : StepFn) : M (option Exc) :=
  fun w =>
    let '(raised, s') := step_function (store w) in
    (Ok raised, mkWorld s' (trace w ++ [TCall raised])).

Definition _check_risk_and_approval (env : Env) (self : StepExecutor)
    (step_id action_type description : string) (metadata : gmap string PyVal)
  : M (bool * option string) :=
  '(risk_level, reason) ← lift_result (RiskClassifier.classify action_type description metadata);
  modify (Logger.info "reasoning" "risk_assessed" "step_executor" step_id
            [ ("action_type", VStr action_type);
              ("risk_level", VStr (risk_name risk_level));
              ("reason", VStr reason) ]);;
  if bool_decide (risk_level ∈ [medium; high]) then
    now ← gets clock;
    let action_id := action_type +:+ "_" +:+ strftime env now in
    ApprovalWorkflowM.request_approval (approval_workflow self)
      action_id action_type description risk_level metadata;;
    PlanGenerator.update_step_status step_id Step.in_progress
      ("Waiting for approval (risk: " +:+ risk_name risk_level +:+ ")");;
    mret (true, Some action_id)
  else mret (false, None).

(** The body of [while (time.time() - start_time) < max_wait]; every turn
    of the loop takes one unit of fuel. *)
Fixpoint wait_loop (env : Env) (self : StepExecutor) (step_id approval_id : string)
    (poll_interval max_wait start_time : Z) (fuel : nat) : M bool :=
  match fuel with
  | O => lift_result OutOfFuel
  | S fuel' =>
      now ← gets clock;
      if (now : Z) - start_time <? max_wait then
        '(status, _) ← ApprovalWorkflowM.check_approval_status
                         (approval_workflow self) approval_id;
        match status with
        | Approval.approved =>
            modify (Logger.info "reasoning" "approval_granted" "step_executor" step_id
                      [ ("approval_id", VStr approval_id) ]);;
            mret true
        | Approval.rejected | Approval.timeout =>
            modify (Logger.warning "reasoning" "approval_denied" "step_executor" step_id
                      [ ("approval_id", VStr approval_id);
                        ("status", VStr (Approval.name status)) ]);;
            mret false
        | _ =>
            sleep env poll_interval;;
            wait_loop env self step_id approval_id poll_interval max_wait
                      start_time fuel'
        end
      else
        modify (Logger.warning "reasoning" "approval_timeout" "step_executor" step_id
                  [ ("approval_id", VStr approval_id);
                    ("max_wait", VInt max_wait) ]);;
        mret false
  end.

Definition _wait_for_approval (env : Env) (self : StepExecutor)
    (step_id approval_id : string) (poll_interval max_wait : Z) (fuel : nat)
  : M bool :=
  start_time ← gets clock;
  wait_loop env self step_id approval_id poll_interval max_wait start_time fuel.

(** Turns of the waiting loop that [execute_step] can need with the
    default [poll_interval = 60] and [max_wait = 3600]. *)
Definition wait_fuel : nat := 61.

(** [for attempt in range(1, self.max_retries + 1)], entered at [attempt]
    with [remaining] iterations to go. *)
Fixpoint retry_loop (env : Env) (self : StepExecutor) (step_id : string)
    (step_function : StepFn) (step_description : string) (start_time : Z)
    (remaining : nat) (attempt : Z) : M (bool * option string) :=
  match remaining with
  | O => mret (false, Some "Unknown error")
  | S remaining' =>
      raised ← call step_function;
      now ← gets clock;
      let duration_ms := ((now : Z) - start_time) * 1000 in
      match (raised : option Exc) with
      | None =>
          modify (Logger.info "reasoning" "step_completed" "step_executor" step_id
                    [ ("description", VStr step_description);
                      ("duration_ms", VInt duration_ms);
                      ("attempts", VInt attempt) ]);;
          PlanGenerator.update_step_status step_id Step.completed
            ("Completed successfully (attempt " +:+ str_of_Z attempt +:+ "/"
             +:+ str_of_Z (max_retries self) +:+ ")");;
          mret (true, None)
      | Some e =>
          let error_msg := exc_msg e in
          if attempt <? max_retries self then
            let retry_delay := base_retry_delay self * 3 ^ (attempt - 1) in
            modify (Logger.warning "reasoning" "step_retry" "step_executor" step_id
                      [ ("error", VStr error_msg);
                        ("attempt", VInt attempt);
                        ("max_retries", VInt (max_retries self));
                        ("retry_delay", VInt retry_delay);
                        ("duration_ms", VInt duration_ms) ]);;
            PlanGenerator.update_step_status step_id Step.in_progress
              ("Retry " +:+ str_of_Z attempt +:+ "/" +:+ str_of_Z (max_retries self)
               +:+ " after error: " +:+ py_prefix 100 error_msg);;
            sleep env retry_delay;;
            retry_loop env self step_id step_function step_description start_time
                       remaining' (attempt + 1)
          else
            modify (Logger.error "reasoning" "step_failed" "step_executor" step_id
                      [ ("error", VStr error_msg);
                        ("attempts", VInt attempt);
                        ("duration_ms", VInt duration_ms) ]);;
            PlanGenerator.update_step_status step_id Step.failed
              ("Failed after " +:+ str_of_Z attempt +:+ " attempts: "
               +:+ py_prefix 200 error_msg);;
            mret (false, Some error_msg)
      end
  end.

(** The opening of [execute_step]: the step is marked in progress and the
    start is logged. *)
Definition begin_step (step_id step_description : string) : M unit :=
  PlanGenerator.update_step_status step_id Step.in_progress
    ("Starting execution: " +:+ step_description);;
  modify (Logger.info "reasoning" "step_started" "step_executor" step_id
            [ ("description", VStr step_description) ]).

(** The risk gate of [execute_step]: [Some r] when the step returns [r]
    without reaching the retry loop. *)
Definition risk_gate (env : Env) (self : StepExecutor) (step_id step_description : string)
    (requires_risk_check : bool) (action_type : option string)
    (action_metadata : gmap string PyVal) (start_time : Z)
  : M (option (bool * option string)) :=
  if requires_risk_check && truthy_str action_type then
    '(approval_needed, approval_id) ←
      _check_risk_and_approval env self step_id (default "" action_type)
                               step_description action_metadata;
    if (approval_needed : bool) then
      approved ← _wait_for_approval env self step_id
                   (default "None" approval_id) 60 3600 wait_fuel;
      if negb approved then
        now ← gets clock;
        modify (Logger.warning "reasoning" "step_blocked" "step_executor" step_id
                  [ ("reason", VStr "Approval rejected or timeout");
                    ("duration_ms", VInt (((now : Z) - start_time) * 1000)) ]);;
        PlanGenerator.update_step_status step_id Step.failed
          "Approval rejected or timeout - step not executed";;
        mret (Some (false, Some "Approval rejected or timeout"))
      else mret None
    else mret None
  else mret None.

Definition execute_step (env : Env) (self : StepExecutor)
    (step_id : string) (step_function : StepFn) (step_description : string)
    (requires_risk_check : bool) (action_type : option string)
    (action_metadata : gmap string PyVal) : M (bool * option string) :=
  start_time ← gets clock;
  begin_step step_id step_description;;
  blocked ← risk_gate env self step_id step_description requires_risk_check
              action_type action_metadata start_time;
  match (blocked : option (bool * option string)) with
  | Some result => mret result
  | None =>
      retry_loop env self step_id step_function step_description start_time
                 (Z.to_nat (max_retries self)) 1
  end.

End StepExecutorM.

Module StepExecutorPlan.
Import StepExecutorM.

(** The [for step in steps] loop of [execute_plan], carrying the tallies;
    [break] on a blocking failure. *)
Fixpoint run_steps (env : Env) (self : StepExecutor) (event_id : option string)
    (steps : list PlanStep) (completed failed : Z)
    (failed_steps : list (string * string * string))
  : M (Z * Z * list (string * string * string)) :=
  match steps with
  | [] => mret (completed, failed, failed_steps)
  | step :: rest =>
      '(success, error) ← execute_step env self (step_id step) (step_function step)
                            (step_description step) (step_requires_risk_check step)
                            (step_action_type step) (step_action_metadata step);
      if (success : bool) then
        run_steps env self event_id rest (completed + 1) failed failed_steps
      else
        let failed := failed + 1 in
        let failed_steps :=
          (failed_steps ++
             [(step_id step, step_description step, default "None" (error : option string))])%list in
        if step_blocking step then
          modify (Logger.error "reasoning" "plan_execution_blocked" "step_executor"
                    (default "manual" event_id)
                    [ ("blocking_step", VStr (step_id step));
                      ("error", VStr (default "None" error));
                      ("completed", VInt completed);
                      ("failed", VInt failed) ]);;
          mret (completed, failed, failed_steps)
        else run_steps env self event_id rest completed failed failed_steps
  end.

Definition execute_plan (env : Env) (self : StepExecutor) (steps : list PlanStep)
    (event_id : option string) : M (bool * Summary) :=
  start_time ← gets clock;
  let total_steps := Z.of_nat (length steps) in
  modify (Logger.info "reasoning" "plan_execution_started" "step_executor"
            (default "manual" event_id) [ ("total_steps", VInt total_steps) ]);;
  '(completed, failed, failed_steps) ← run_steps env self event_id steps 0 0 [];
  now ← gets clock;
  let duration_ms := ((now : Z) - start_time) * 1000 in
  let all_success := (failed : Z) =? 0 in
  let outcome :=
    if all_success then "success"
    else if 0 <? (completed : Z) then "partial" else "failed" in
  let summary :=
    mkSummary total_steps completed failed failed_steps duration_ms outcome in
  modify (Logger.info "reasoning" "plan_execution_completed" "step_executor"
            (default "manual" event_id)
            [ ("total_steps", VInt total_steps);
              ("completed", VInt completed);
              ("failed", VInt failed);
              ("outcome", VStr outcome) ]);;
  PlanGenerator.mark_plan_complete outcome;;
  mret (all_success, summary).

(** [create_escalation_task]: one file, named by the second it is
    written in, quoting the event id and the error. No function of the
    core calls it. *)
Definition create_escalation_task (env : Env) (self : StepExecutor)
    (step_id description error : string) (event_id : option string) : M Path :=
  now ← gets clock;
  let task_file := (Needs_Action, "escalation_" +:+ strftime env now +:+ ".md") in
  modify (atomic_write task_file
            (EscalationDoc (default "Unknown" event_id) step_id description error));;
  modify (Logger.warning "reasoning" "escalation_created" "step_executor" step_id
            [ ("event_id", match event_id with Some i => VStr i | None => VNone end);
              ("error", VStr (py_prefix 200 error));
              ("task_file", VStr ("AI_Employee_Vault/Needs_Action/" +:+ task_file.2)) ]);;
  mret task_file.

End StepExecutorPlan.

(** ** scripts/orchestrator.py *)

Record Orchestrator := mkOrchestrator {
  dry_run : bool;
  step_executor : StepExecutor
}.

Module OrchestratorM.

Definition _determine_action_type (action_description : string) : string :=
  let action_lower := lower action_description in
  if contains "email" action_lower || contains "send" action_lower then "email_send"
  else if contains "linkedin" action_lower || contains "post" action_lower
  then "linkedin_post"
  else if contains "payment" action_lower || contains "pay" action_lower then "payment"
  else if contains "delete" action_lower || contains "remove" action_lower
  then "file_delete"
  else "other".

(** The placeholder action: it only writes a log line. *)
Definition _execute_step_action (self : Orchestrator) (action : string)
    (event : Event) (analysis : Analysis) : StepFn :=
  fun s =>
    if dry_run self then
      (None, Logger.info "orchestrator" "step_simulated" "orchestrator"
                (default "None" (ev_id event))
                [ ("action", VStr action); ("dry_run", VBool true) ] s)
    else
      (None, Logger.info "orchestrator" "step_executed" "orchestrator"
                (default "None" (ev_id event))
                [ ("action", VStr action) ] s).

Definition run_action (f : StepFn) : M unit :=
  fun w =>
    let '(raised, s') := f (store w) in
    (match raised with Some e => Raise e | None => Ok tt end, mkWorld s' (trace w)).

Definition _route_to_skill (event : Event) (analysis : Analysis) : string :=
  let source := default "" (ev_source event) in
  if contains "email" (lower source) then
    if bool_decide (category analysis = Category.sales)
    then "reasoning-loop" else "email-mcp-sender"
  else if contains "linkedin" (lower source) then
    if bool_decide (ev_type event = Some "scheduled_post")
    then "linkedin-post-generator" else "reasoning-loop"
  else if String.eqb source "scheduler" then
    if contains "linkedin" (lower (default "" (ev_type event)))
    then "linkedin-post-generator" else "reasoning-loop"
  else "reasoning-loop".

(** [enumerate(actions)] as ids [step_1], [step_2], ... *)
Fixpoint enumerate_from (i : Z) (actions : list string) : list (string * string) :=
  match actions with
  | [] => []
  | action :: rest => ("step_" +:+ str_of_Z (i + 1), action) :: enumerate_from (i + 1) rest
  end.

(** [Path(f"AI_Employee_Vault/Needs_Action/{event_id}.json")], where
    [event_id] is [event.get('id')]. *)
Definition event_file_of (event_id : option string) : Path :=
  (Needs_Action, default "None" event_id +:+ ".json").

(** [self.event_queue.move_to_done(event_file, status='completed')]:
    [move_to_done] takes no [status]. *)
Definition move_to_done_completed (event_file : Path) : M unit :=
  raise (mkExc "TypeError"
           "EventQueue.move_to_done() got an unexpected keyword argument 'status'").

Definition _execute_with_plan (env : Env) (self : Orchestrator)
    (event : Event) (analysis : Analysis) : M unit :=
  let event_id := ev_id event in
  modify (Logger.info "orchestrator" "event_routed" "task-orchestrator"
            (default "None" event_id)
            [ ("routed_to", VStr "reasoning-loop");
              ("reason", VStr "Complex task requires structured plan");
              ("complexity", VStr (Complexity.name (complexity analysis)));
              ("category", VStr (Category.name (category analysis))) ]);;
  match ev_source event with
  | None => raise (mkExc "KeyError" "'source'")
  | Some event_source =>
      let numbered := enumerate_from 0 (suggested_actions analysis) in
      PlanGenerator.create_plan
        ("Handle " +:+ Category.name (category analysis) +:+ " event from " +:+ event_source)
        (suggested_actions analysis) "medium" false
        (List.map (fun ia : string * string => (ia.1, Step.pending)) numbered)
        event_id;;
      modify (Logger.info "reasoning" "plan_created" "reasoning-loop"
                (default "None" event_id)
                [ ("plan_file", VStr "AI_Employee_Vault/Plan.md");
                  ("steps", VInt (Z.of_nat (length (suggested_actions analysis)))) ]);;
      try_except
        ((* every lambda of the comprehension closes over the one loop
            variable, which holds the last action when they run *)
         let bound_action := List.last (suggested_actions analysis) "" in
         let steps :=
           List.map (fun ia : string * string =>
                       mkPlanStep ia.1 ia.2
                         (_execute_step_action self bound_action event analysis)
                         true (Some (_determine_action_type ia.2))
                         (<["event_id" := match event_id with
                                          | Some i => VStr i | None => VNone end]>
                            (<["category" := VStr (Category.name (category analysis))]> ∅))
                         true)
                    numbered in
         '(success, summary) ← StepExecutorPlan.execute_plan env (step_executor self)
                                  steps event_id;
         if (success : bool) then
           PlanGenerator.mark_plan_complete "success";;
           let event_file := event_file_of event_id in
           is_there ← gets (exists_ event_file);
           (if (is_there : bool) then move_to_done_completed event_file else ret tt);;
           modify (Logger.info "orchestrator" "task_completed" "task-orchestrator"
                     (default "None" event_id) [ ("outcome", VStr "success") ])
         else
           PlanGenerator.mark_plan_complete "failed";;
           modify (Logger.error "orchestrator" "task_failed" "task-orchestrator"
                     (default "None" event_id) [ ("outcome", VStr "failed") ]))
        (fun e =>
           modify (Logger.error "orchestrator" "plan_execution_failed" "reasoning-loop"
                     (default "None" event_id) [ ("error", VStr (exc_msg e)) ]);;
           raise e)
  end.

(** [analysis.get('requires_approval', False)]: the analyzer never sets
    the key. *)
Definition analysis_requires_approval (analysis : Analysis) : bool := false.

Definition _execute_simple (env : Env) (self : Orchestrator)
    (event : Event) (analysis : Analysis) : M unit :=
  let event_id := ev_id event in
  let skill := _route_to_skill event analysis in
  modify (Logger.info "orchestrator" "event_routed" "task-orchestrator"
            (default "None" event_id)
            [ ("routed_to", VStr skill);
              ("reason", VStr "Simple task, direct skill execution");
              ("complexity", VStr (Complexity.name (complexity analysis)));
              ("category", VStr (Category.name (category analysis))) ]);;
  if analysis_requires_approval analysis then
    (* the classifier has no method [classify_risk] *)
    raise (mkExc "AttributeError"
             "'RiskClassifier' object has no attribute 'classify_risk'")
  else
    try_except
      (match suggested_actions analysis with
       | [] => raise (mkExc "IndexError" "list index out of range")
       | action :: _ =>
           run_action (_execute_step_action self action event analysis);;
           let event_file := event_file_of event_id in
           is_there ← gets (exists_ event_file);
           (if (is_there : bool) then move_to_done_completed event_file else ret tt);;
           modify (Logger.info "orchestrator" "task_completed" "task-orchestrator"
                     (default "None" event_id)
                     [ ("skill", VStr skill); ("outcome", VStr "success") ])
       end)
      (fun e =>
         modify (Logger.error "orchestrator" "task_failed" "task-orchestrator"
                   (default "None" event_id)
                   [ ("skill", VStr skill); ("error", VStr (exc_msg e)) ]);;
         raise e).

Definition max_events_per_cycle : Z := 10.

(** [while processed < max_events_per_cycle]; every turn takes one unit
    of fuel. *)
Fixpoint process_loop (env : Env) (self : Orchestrator) (processed : Z) (fuel : nat)
  : M Z :=
  match fuel with
  | O => lift_result OutOfFuel
  | S fuel' =>
      if processed <? max_events_per_cycle then
        result ← gets EventQueue.pop;
        match (result : option (Json * Path)) with
        | None => mret processed
        | Some (JOther type, event_file) =>
            (* [analyze_event] raises at [event.get('source', ...)], and the
               handler raises in its turn at [event.get('id', 'unknown')],
               before anything is logged or moved *)
            try_except (raise (no_get type)) (fun _ => raise (no_get type))
        | Some (JObject event, event_file) =>
            processed' ←
              try_except
                (analysis ← TaskAnalyzer.analyze_event event;
                 (if requires_plan analysis
                  then _execute_with_plan env self event analysis
                  else _execute_simple env self event analysis);;
                 mret (processed + 1))
                (fun e =>
                   modify (Logger.error "orchestrator" "event_processing_failed"
                             "orchestrator" (default "unknown" (ev_id event))
                             [ ("error", VStr (exc_msg e)) ]);;
                   EventQueue.move_to_done event_file;;
                   mret processed);
            process_loop env self processed' fuel'
        end
      else mret processed
  end.

Definition _process_event_queue (env : Env) (self : Orchestrator) (fuel : nat) : M Z :=
  process_loop env self 0 fuel.

End OrchestratorM.

(** ** Reading traces *)

(** The exceptions (or returns) of the action's calls, in order. *)
Definition calls (t : list TraceItem) : list (option Exc) :=
  omap (fun i => match i with TCall o => Some o | _ => None end) t.

(** The delays slept, in order. *)
Definition sleeps (t : list TraceItem) : list Z :=
  omap (fun i => match i with TSleep d => Some d | _ => None end) t.

(** The statuses written for a step, in order. *)
Definition marks (step_id : string) (t : list TraceItem) : list Step.status :=
  omap (fun i => match i with
                 | TMark sid st _ => if String.eqb sid step_id then Some st else None
                 | _ => None
                 end) t.

(** The status of a step in Plan.md, when the plan lists it. *)
Definition plan_status (step_id : string) (s : Store) : option Step.status :=
  match plan s with
  | None => None
  | Some p =>
      match List.find (fun st : string * Step.status => String.eqb st.1 step_id)
                      (plan_steps p) with
      | Some st => Some st.2
      | None => None
      end
  end.

(** The approval files that exist for an action id, over the three
    approval directories. *)
Definition approval_files (action_id : string) (s : Store) : list Path :=
  List.filter (fun p => exists_ p s)
    [ (Pending_Approval, action_id +:+ ".md");
      (Approved, action_id +:+ ".md");
      (Rejected, action_id +:+ ".md") ].

(** The escalation artifacts in the active directory. *)
Definition escalations (s : Store) : list string :=
  omap (fun kv : (Dir * string) * File =>
          match body kv.2 with
          | EscalationDoc _ _ _ _ =>
              if bool_decide (kv.1.1 = Needs_Action) then Some kv.1.2 else None
          | _ => None
          end)
       (map_to_list (fs s)).

(** [check_approval_status] called [n] times in a row; the statuses it
    returned. *)
Fixpoint check_repeatedly (self : ApprovalWorkflow) (action_id : string) (n : nat)
  : M (list Approval.status) :=
  match n with
  | O => mret []
  | S n' =>
      '(status, _) ← ApprovalWorkflowM.check_approval_status self action_id;
      rest ← check_repeatedly self action_id n';
      mret ((status : Approval.status) :: rest)
  end.

(** [pop()] called twice in sequence. *)
Definition pop_twice : M (option (Json * Path) * option (Json * Path)) :=
  first ← gets EventQueue.pop;
  second ← gets EventQueue.pop;
  mret (first, second).

(** The surroundings in which nobody else touches the vault; timestamps
    print as the decimal clock. *)
Definition quiet_env : Env := mkEnv str_of_Z (fun _ f => f).

(** An action that raises the same error at every call. *)
Definition always_raises (msg : string) : StepFn :=
  fun s => (Some (mkExc "RuntimeError" msg), s).

(** The action raises whatever the store it is called on. *)
Definition raises_always (step_function : StepFn) : Prop :=
  forall s, exists e, (step_function s).1 = Some e.

(** The delay slept after the failed attempt number [attempt]. *)
Definition backoff (self : StepExecutor) (attempt : Z) : Z :=
  base_retry_delay self * 3 ^ (attempt - 1).

(* ================================================================== *)
(** * Part II. Properties *)
(* ================================================================== *)

(** ** Keyword matching *)

Lemma first_keyword_None ks s :
  first_keyword ks s = None <-> contains_any ks s = false.
Proof.
  unfold first_keyword, contains_any.
  induction ks as [|k ks IH]; simpl; [tauto|].
  destruct (contains k s); simpl; [split; discriminate|exact IH].
Qed.

Lemma first_keyword_Some ks s k :
  first_keyword ks s = Some k -> contains_any ks s = true.
Proof.
  intros H. destruct (contains_any ks s) eqn:E; [reflexivity|].
  apply first_keyword_None in E. congruence.
Qed.

Lemma contains_any_elem ks s k :
  In k ks -> contains k s = true -> contains_any ks s = true.
Proof.
  intros Hin Hk. unfold contains_any. apply existsb_exists. eauto.
Qed.

(** ** The risk classifier *)

Section Classifier.
Import RiskClassifier.

Lemma classify_high_keyword action_type content metadata :
  contains_any HIGH_RISK_KEYWORDS (lower content) = true ->
  exists reason, classify action_type content metadata = Ok (high, reason).
Proof.
  intros H. unfold classify.
  destruct (first_keyword HIGH_RISK_KEYWORDS (lower content)) eqn:E.
  - eauto.
  - apply first_keyword_None in E. congruence.
Qed.

Lemma later_rules_clean action_type content_lower metadata :
  contains_any MEDIUM_RISK_KEYWORDS content_lower = false ->
  contains_any SENSITIVE_CONTEXTS content_lower = false ->
  later_rules action_type content_lower metadata =
    if bool_decide (action_type ∈ ["linkedin_post"; "twitter_post"; "facebook_post"])
    then (medium, "Social media post requires approval")
    else if String.eqb action_type "email_send"
            && bool_decide (default (VStr "unknown") (metadata !! "contact_history")
                            = VStr "new")
    then (medium, "Email to new contact requires approval")
    else if String.eqb action_type "file_delete"
    then (high, "File deletion is irreversible and requires approval")
    else (low, "No risk indicators detected").
Proof.
  intros Hm Hs. unfold later_rules.
  apply first_keyword_None in Hm, Hs. rewrite Hm, Hs. reflexivity.
Qed.

(** C7, as stated, fails: keywords are looked for in the lower-cased
    content, so a payment of 10 to a known payee whose content holds none of
    the configured keywords as written, but one of them in capitals, is
    classified [medium]. *)
Lemma classify_small_payment_capital_keyword :
  let content := "Settle with the UNKNOWN vendor" in
  let metadata : gmap string PyVal :=
    <["amount" := VInt 10]> (<["new_payee" := VBool false]> ∅) in
  contains_any (HIGH_RISK_KEYWORDS ++ MEDIUM_RISK_KEYWORDS ++ SENSITIVE_CONTEXTS)%list
               content = false
  /\ classify "payment" content metadata
     = Ok (medium, "Contains medium-risk keyword: unknown").
Proof. cbv zeta. split; vm_compute; reflexivity. Qed.

(** C7, amended. A payment whose [amount], an integer or a float,
    exceeds the high threshold of 500 is classified [high] whatever the
    content and the rest of the metadata; a payment of 10 (the integer or
    the float) to a known payee ([new_payee] false) whose lower-cased content
    holds none of the configured keywords is classified [low]. *)
Theorem classify_payment_thresholds (content : string) (metadata : gmap string PyVal) :
  (forall amount : Z,
      metadata !! "amount" = Some (VInt amount) ->
      PAYMENT_THRESHOLD_HIGH < amount ->
      exists reason, classify "payment" content metadata = Ok (high, reason))
  /\
  (forall (amount : PyFloat) (repr : string),
      metadata !! "amount" = Some (VFloat amount repr) ->
      float_gt amount PAYMENT_THRESHOLD_HIGH = true ->
      exists reason, classify "payment" content metadata = Ok (high, reason))
  /\
  ((metadata !! "amount" = Some (VInt 10)
    \/ exists repr, metadata !! "amount" = Some (VFloat (FFinite 10 1) repr)) ->
   metadata !! "new_payee" = Some (VBool false) ->
   contains_any HIGH_RISK_KEYWORDS (lower content) = false ->
   contains_any MEDIUM_RISK_KEYWORDS (lower content) = false ->
   contains_any SENSITIVE_CONTEXTS (lower content) = false ->
   classify "payment" content metadata = Ok (low, "No risk indicators detected")).
Proof.
  split; [|split].
  - intros amount Ha Hgt.
    destruct (contains_any HIGH_RISK_KEYWORDS (lower content)) eqn:Hk.
    + now apply classify_high_keyword.
    + apply first_keyword_None in Hk.
      unfold classify. rewrite Hk. simpl.
      unfold payment_rules. rewrite Ha. simpl.
      assert (Hlt : (PAYMENT_THRESHOLD_HIGH <? amount) = true) by now apply Z.ltb_lt.
      rewrite Hlt. eauto.
  - intros amount repr Ha Hgt.
    destruct (contains_any HIGH_RISK_KEYWORDS (lower content)) eqn:Hk.
    + now apply classify_high_keyword.
    + apply first_keyword_None in Hk.
      unfold classify. rewrite Hk. simpl.
      unfold payment_rules. rewrite Ha.
      change (py_gt (default (VInt 0) (Some (VFloat amount repr))) PAYMENT_THRESHOLD_HIGH)
        with (Ok (A:=bool) (float_gt amount PAYMENT_THRESHOLD_HIGH)).
      rewrite Hgt. eauto.
  - intros Ha Hp Hh Hm Hs.
    apply first_keyword_None in Hh.
    unfold classify. rewrite Hh. simpl.
    unfold payment_rules.
    destruct Ha as [Ha | [repr Ha]]; rewrite Ha, Hp; simpl;
      now rewrite later_rules_clean.
Qed.

(** C7 on three concrete payments: 600 and 600.5 with no keyword in
    sight, and 10 to a known payee. *)
Lemma classify_payment_thresholds_witness :
  (exists reason,
      classify "payment" "Settle the quarterly balance with Acme"
               (<["amount" := VInt 600]> ∅) = Ok (high, reason))
  /\ (exists reason,
      classify "payment" "Settle the quarterly balance with Acme"
               (<["amount" := VFloat (FFinite 1201 2) "600.5"]> ∅) = Ok (high, reason))
  /\ classify "payment" "Settle the balance with Acme"
              (<["amount" := VInt 10]> (<["new_payee" := VBool false]> ∅))
     = Ok (low, "No risk indicators detected").
Proof.
  split; [|split].
  - apply (proj1 (classify_payment_thresholds
                    "Settle the quarterly balance with Acme"
                    (<["amount" := VInt 600]> ∅)) 600);
      [reflexivity | reflexivity].
  - apply (proj1 (proj2 (classify_payment_thresholds
                    "Settle the quarterly balance with Acme"
                    (<["amount" := VFloat (FFinite 1201 2) "600.5"]> ∅)))
                 (FFinite 1201 2) "600.5");
      [reflexivity | reflexivity].
  - apply (proj2 (proj2 (classify_payment_thresholds
                    "Settle the balance with Acme"
                    (<["amount" := VInt 10]> (<["new_payee" := VBool false]> ∅)))));
      [left; reflexivity | reflexivity ..].
Defined.

(** C8, as stated, fails: a file deletion whose content holds a
    medium-risk keyword and no high-risk keyword is classified [medium],
    because the keyword rules come before the deletion rule. *)
Lemma classify_file_delete_not_always_high :
  classify "file_delete" "Share the old archive" ∅
    = Ok (medium, "Contains medium-risk keyword: share")
  /\ ~ (forall content metadata,
          exists reason, classify "file_delete" content metadata = Ok (high, reason)).
Proof.
  split; [reflexivity|].
  intros H. destruct (H "Share the old archive" ∅) as [reason Hr].
  vm_compute in Hr. discriminate.
Qed.

(** C8, amended. For action type [file_delete], [classify] returns
    [high] when the lower-cased content holds a high-risk keyword or
    holds no medium-risk and no sensitive-context keyword, and [medium]
    otherwise; so a file deletion is never [low] and always requires
    approval. *)
Theorem classify_file_delete (content : string) (metadata : gmap string PyVal) :
  exists reason,
    classify "file_delete" content metadata =
      Ok (if contains_any HIGH_RISK_KEYWORDS (lower content) then high
          else if contains_any MEDIUM_RISK_KEYWORDS (lower content)
                  || contains_any SENSITIVE_CONTEXTS (lower content)
          then medium else high, reason)
    /\ forall level, classify "file_delete" content metadata = Ok (level, reason) ->
                     requires_approval level = true.
Proof.
  destruct (contains_any HIGH_RISK_KEYWORDS (lower content)) eqn:Hh.
  - destruct (classify_high_keyword "file_delete" content metadata Hh) as [r Hr].
    exists r. split; [exact Hr|]. intros level Hl. rewrite Hr in Hl. now inversion Hl.
  - pose proof Hh as Hh'. apply first_keyword_None in Hh'.
    unfold classify. rewrite Hh'.
    change (String.eqb "file_delete" "payment") with false. cbv iota.
    unfold later_rules.
    destruct (first_keyword MEDIUM_RISK_KEYWORDS (lower content)) eqn:Hm.
    + apply first_keyword_Some in Hm. rewrite Hm.
      eexists. split; [reflexivity|]. intros level Hl. now inversion Hl.
    + apply first_keyword_None in Hm. rewrite Hm.
      destruct (first_keyword SENSITIVE_CONTEXTS (lower content)) eqn:Hs.
      * apply first_keyword_Some in Hs. rewrite Hs.
        eexists. split; [reflexivity|]. intros level Hl. now inversion Hl.
      * apply first_keyword_None in Hs. rewrite Hs.
        eexists. split; [reflexivity|]. intros level Hl. now inversion Hl.
Qed.

End Classifier.

(** ** Running monadic code *)

Ltac unfold_m :=
  unfold mbind, M_bind, mret, M_ret, bind, ret, gets, modify, record,
         lift_result, raise in *.

Lemma bind_ok {A B} (m : M A) (f : A -> M B) w a w' :
  m w = (Ok a, w') -> (m ≫= f) w = f a w'.
Proof. intros H. unfold mbind, M_bind, bind. now rewrite H. Qed.

Lemma bind_raise {A B} (m : M A) (f : A -> M B) w e w' :
  m w = (Raise e, w') -> (m ≫= f) w = (Raise e, w').
Proof. intros H. unfold mbind, M_bind, bind. now rewrite H. Qed.

Lemma bind_modify {B} (f : Store -> Store) (k : unit -> M B) (w : World) :
  (modify f ≫= k) w = k tt (mkWorld (f (store w)) (trace w)).
Proof. reflexivity. Qed.

Lemma bind_gets {A B} (f : Store -> A) (k : A -> M B) (w : World) :
  (gets f ≫= k) w = k (f (store w)) w.
Proof. reflexivity. Qed.

Lemma bind_assoc_run {A B C} (m : M A) (f : A -> M B) (g : B -> M C) (w : World) :
  (m ≫= (fun a => f a ≫= g)) w = ((m ≫= f) ≫= g) w.
Proof.
  unfold mbind, M_bind, bind. destruct (m w) as [[a|e|] w']; reflexivity.
Qed.

Lemma bind_mret {A B} (a : A) (k : A -> M B) (w : World) :
  (mret a ≫= k) w = k a w.
Proof. reflexivity. Qed.

(** ** The task analyzer *)

Section Analyzer.
Import TaskAnalyzer.

Lemma classify_category_sales content metadata :
  contains_any routine_keywords content = false ->
  contains_any complaint_keywords content = false ->
  contains_any sales_keywords content = true ->
  _classify_category content metadata = Category.sales.
Proof.
  intros Hr Hc Hs. unfold _classify_category. now rewrite Hr, Hc, Hs.
Qed.

(** C9, as stated, fails: the analyzer looks for its keywords in the
    lower-cased content, so an enquiry that holds "pricing" and none of the
    routine, complaint or urgent keywords as written, but the routine
    keyword "weekly" in capitals, is analyzed as routine, priority low, with
    no plan required. *)
Lemma analyze_event_pricing_capital_keyword :
  let text := "pricing for the WEEKLY plan" in
  let event := mkEvent None (Some "20240101_100000_gmail_abc123") (Some "gmail")
                       (Some "new_email") (Some (CText text)) ∅ in
  contains "pricing" text = true
  /\ contains_any (routine_keywords ++ complaint_keywords ++ urgent_keywords)%list text
     = false
  /\ exists analysis w',
       analyze_event event (mkWorld (mkStore 0 ∅ None []) []) = (Ok analysis, w')
       /\ category analysis = Category.routine
       /\ priority analysis = Priority.low
       /\ complexity analysis = Complexity.routine
       /\ requires_plan analysis = false.
Proof.
  cbv zeta. split; [vm_compute; reflexivity|]. split; [vm_compute; reflexivity|].
  eexists. eexists. split; [vm_compute; reflexivity|]. repeat split.
Qed.

(** C9, amended. An event whose textual content, once lower-cased, holds
    the sales keyword "pricing" and none of the routine, complaint or urgent
    keywords is analyzed as category sales, priority high, complexity
    complex, with [requires_plan] true; the analysis returns without
    raising. *)
Theorem analyze_event_pricing (event : Event) (text : string) (w : World) :
  ev_content event = Some (CText text) ->
  contains "pricing" (lower text) = true ->
  contains_any routine_keywords (lower text) = false ->
  contains_any complaint_keywords (lower text) = false ->
  contains_any urgent_keywords (lower text) = false ->
  exists analysis w',
    analyze_event event w = (Ok analysis, w')
    /\ category analysis = Category.sales
    /\ priority analysis = Priority.high
    /\ complexity analysis = Complexity.complex
    /\ requires_plan analysis = true.
Proof.
  intros Hc Hp Hr Hcm Hu.
  assert (Hs : contains_any sales_keywords (lower text) = true).
  { apply (contains_any_elem _ _ "pricing"); [now left | exact Hp]. }
  unfold analyze_event, content_lower. rewrite Hc.
  unfold_m. cbv beta iota.
  rewrite (classify_category_sales _ _ Hr Hcm Hs).
  unfold _classify_priority. rewrite Hu.
  eexists. eexists. split; [reflexivity|].
  repeat split.
Qed.

(** C9 on a concrete enquiry; the upper-case P is lowered before matching. *)
Lemma analyze_event_pricing_witness :
  exists analysis w',
    analyze_event
      (mkEvent None (Some "20240101_100000_gmail_abc123") (Some "gmail")
               (Some "new_email") (Some (CText "Could you send me your Pricing?")) ∅)
      (mkWorld (mkStore 0 ∅ None []) []) = (Ok analysis, w')
    /\ category analysis = Category.sales
    /\ priority analysis = Priority.high
    /\ complexity analysis = Complexity.complex
    /\ requires_plan analysis = true.
Proof.
  apply (analyze_event_pricing _ "Could you send me your Pricing?"); reflexivity.
Defined.

End Analyzer.

(** ** File names in lexicographic order *)

Lemma string_leb_spec s1 s2 : str_le s1 s2 <-> String.compare s1 s2 <> Gt.
Proof.
  unfold str_le, String.leb. destruct (String.compare s1 s2); split; congruence.
Qed.

Lemma string_compare_le_trans s1 : forall s2 s3,
  String.compare s1 s2 <> Gt -> String.compare s2 s3 <> Gt ->
  String.compare s1 s3 <> Gt.
Proof.
  induction s1 as [|c1 s1 IH]; intros [|c2 s2] [|c3 s3]; simpl; try congruence.
  unfold Ascii.compare.
  destruct (N.compare_spec (N_of_ascii c1) (N_of_ascii c2)) as [E12|L12|G12];
    try congruence;
    destruct (N.compare_spec (N_of_ascii c2) (N_of_ascii c3)) as [E23|L23|G23];
    try congruence; intros H12 H23.
  - rewrite E12, E23, N.compare_refl. eauto.
  - rewrite E12. apply N.compare_lt_iff in L23. now rewrite L23.
  - rewrite <- E23. apply N.compare_lt_iff in L12. now rewrite L12.
  - assert (L13 : (N_of_ascii c1 < N_of_ascii c3)%N) by lia.
    apply N.compare_lt_iff in L13. now rewrite L13.
Qed.

#[global] Instance str_le_trans : Transitive str_le.
Proof.
  intros a b c Hab Hbc. apply string_leb_spec in Hab, Hbc.
  apply string_leb_spec. eauto using string_compare_le_trans.
Qed.

#[global] Instance str_le_total : Total str_le.
Proof. intros a b. apply String.leb_total. Qed.

#[global] Instance str_le_antisym : AntiSymm eq str_le.
Proof. intros a b. apply String.leb_antisym. Qed.

(** The head of a sorted listing is its least name. *)
Lemma sorted_head (l : list string) (name : string) :
  name ∈ l -> (forall n, n ∈ l -> str_le name n) ->
  exists rest, sorted l = name :: rest.
Proof.
  intros Hin Hmin. unfold sorted.
  pose proof (merge_sort_Permutation str_le l) as Hperm.
  pose proof (StronglySorted_merge_sort str_le l) as Hsorted.
  destruct (merge_sort str_le l) as [|h t] eqn:E.
  - rewrite <- Hperm in Hin. inversion Hin.
  - exists t. f_equal.
    assert (Hh : h ∈ l) by (rewrite <- Hperm; left).
    apply StronglySorted_inv in Hsorted as [_ Hall].
    rewrite <- Hperm in Hin. apply elem_of_cons in Hin as [->|Ht]; [reflexivity|].
    rewrite Forall_forall in Hall.
    apply (anti_symm str_le); [apply Hall; exact Ht | apply Hmin; exact Hh].
Qed.

Lemma elem_of_glob (d : Dir) (suffix : string) (f : gmap (Dir * string) File)
    (name : string) :
  name ∈ glob d suffix f <-> is_Some (f !! (d, name)) /\ ends_with suffix name = true.
Proof.
  unfold glob. rewrite list_elem_of_In, filter_In, <- list_elem_of_In.
  rewrite list_elem_of_omap. split.
  - intros [[[[d' n'] file] [Hin Hk]] He]. split; [|exact He].
    apply elem_of_map_to_list in Hin. simpl in Hk.
    destruct (bool_decide (d' = d)) eqn:Hd; [|discriminate].
    apply bool_decide_eq_true in Hd. inversion Hk; subst. eauto.
  - intros [[file Hf] He]. split; [|exact He].
    exists ((d, name), file). split; [now apply elem_of_map_to_list|].
    simpl. now rewrite bool_decide_eq_true_2.
Qed.

Lemma ends_with_append (suffix s : string) : ends_with suffix (s +:+ suffix) = true.
Proof.
  induction s as [|c s IH]; simpl.
  - destruct suffix; simpl; [reflexivity|].
    rewrite Ascii.eqb_refl, String.eqb_refl. reflexivity.
  - rewrite IH. apply orb_true_r.
Qed.

Lemma string_app_assoc (a b c : string) : (a +:+ b) +:+ c = a +:+ (b +:+ c).
Proof.
  induction a as [|x a IH]; [reflexivity|].
  change ((String x a +:+ b) +:+ c) with (String x ((a +:+ b) +:+ c)).
  change (String x a +:+ (b +:+ c)) with (String x (a +:+ (b +:+ c))).
  now rewrite IH.
Qed.

(** Among strings of one length the order is decided inside them: what
    follows a strictly smaller prefix does not matter. *)
Lemma str_le_prefix (t1 : string) :
  forall (t2 x y : string),
    String.length t1 = String.length t2 ->
    str_le t1 t2 -> t1 <> t2 ->
    str_le (t1 +:+ x) (t2 +:+ y) /\ t1 +:+ x <> t2 +:+ y.
Proof.
  induction t1 as [|c1 t1 IH]; intros [|c2 t2] x y Hlen Hle Hne;
    try discriminate; [now destruct Hne|].
  apply string_leb_spec in Hle. cbn in Hle.
  rewrite string_leb_spec.
  change (String c1 t1 +:+ x) with (String c1 (t1 +:+ x)).
  change (String c2 t2 +:+ y) with (String c2 (t2 +:+ y)).
  cbn [String.compare].
  destruct (Ascii.compare c1 c2) eqn:Hc.
  - apply Ascii.compare_eq_iff in Hc. subst c2.
    destruct (IH t2 x y) as [Hle' Hne'].
    + simpl in Hlen. congruence.
    + now apply string_leb_spec.
    + intros ->. now destruct Hne.
    + apply string_leb_spec in Hle'. split; [exact Hle'|]. intros [= E]. exact (Hne' E).
  - split; [discriminate|]. intros [= -> _].
    unfold Ascii.compare in Hc. rewrite N.compare_refl in Hc. discriminate.
  - now destruct Hle.
Qed.

(** ** The event queue *)

Section Queue.
Import EventQueue.

(** [pop] returns the event of the least [.json] name of the queue. *)
Lemma pop_least (s : Store) name event m :
  fs s !! (Needs_Action, name) = Some (mkFile (EventJson event) m) ->
  ends_with ".json" name = true ->
  (forall n, is_Some (fs s !! (Needs_Action, n)) -> ends_with ".json" n = true ->
             str_le name n) ->
  pop s = Some (JObject event, (Needs_Action, name)).
Proof.
  intros Hf He Hmin. unfold pop, queue_dir.
  destruct (sorted_head (glob Needs_Action ".json" (fs s)) name) as [rest Hs].
  - apply elem_of_glob. eauto.
  - intros n Hn. apply elem_of_glob in Hn as [? ?]. eauto.
  - rewrite Hs, Hf. reflexivity.
Qed.

Lemma move_to_done_spec (s : Store) (t : list TraceItem) (name : string) (f : File) :
  fs s !! (Needs_Action, name) = Some f ->
  move_to_done (Needs_Action, name) (mkWorld s t)
    = (Ok tt, mkWorld (set_fs (<[(Done, name) := f]> (delete (Needs_Action, name) (fs s))) s) t).
Proof.
  intros H. unfold move_to_done, rename. cbn [store snd fst trace]. now rewrite H.
Qed.

(** With e1 and e2 the only queued events, e1 under the smaller file
    name: [pop] returns e1, again and again, until the caller moves e1's
    file to Done; then it returns e2. *)
Lemma pop_two_queued (s : Store) (t : list TraceItem)
    (n1 n2 : string) (e1 e2 : Event) (m1 m2 : Z) :
  fs s !! (Needs_Action, n1) = Some (mkFile (EventJson e1) m1) ->
  fs s !! (Needs_Action, n2) = Some (mkFile (EventJson e2) m2) ->
  ends_with ".json" n1 = true ->
  ends_with ".json" n2 = true ->
  str_le n1 n2 -> n1 <> n2 ->
  (forall n, is_Some (fs s !! (Needs_Action, n)) -> ends_with ".json" n = true ->
             n = n1 \/ n = n2) ->
  pop_twice (mkWorld s t)
    = (Ok (Some (JObject e1, (Needs_Action, n1)), Some (JObject e1, (Needs_Action, n1))),
       mkWorld s t)
  /\ exists w',
       (move_to_done (Needs_Action, n1);; gets pop) (mkWorld s t)
         = (Ok (Some (JObject e2, (Needs_Action, n2))), w')
       /\ fs (store w') !! (Done, n1) = Some (mkFile (EventJson e1) m1)
       /\ fs (store w') !! (Needs_Action, n1) = None.
Proof.
  intros H1 H2 E1 E2 Hle Hne Honly.
  assert (Hpop : pop s = Some (JObject e1, (Needs_Action, n1))).
  { apply (pop_least s n1 e1 m1 H1 E1).
    intros n Hn En. destruct (Honly n Hn En) as [->| ->]; [|exact Hle].
    destruct (total str_le n1 n1); assumption. }
  split.
  - unfold pop_twice. unfold_m. simpl. now rewrite Hpop.
  - rewrite (bind_ok _ _ _ _ _ (move_to_done_spec s t n1 _ H1)).
    unfold gets. cbn [store].
    eexists. split; [|split].
    + f_equal. f_equal.
      apply (pop_least _ n2 e2 m2).
      * simpl. rewrite lookup_insert_ne by congruence.
        rewrite lookup_delete_ne by congruence. exact H2.
      * exact E2.
      * simpl. intros n Hn En.
        rewrite lookup_insert_ne in Hn by congruence.
        destruct (decide (n = n1)) as [->|Hn1].
        { rewrite lookup_delete_eq in Hn. now destruct Hn. }
        rewrite lookup_delete_ne in Hn by congruence.
        destruct (Honly n Hn En) as [->| ->]; [congruence|].
        destruct (total str_le n2 n2); assumption.
    + simpl. apply lookup_insert_eq.
    + simpl. rewrite lookup_insert_ne by congruence. apply lookup_delete_eq.
Qed.

(** [push] of an event that has a source and no id of its own. *)
Lemma push_new (env : Env) (suffix source : string) (event : Event) (w : World) :
  ev_source event = Some source ->
  ev_event_id event = None ->
  let event_id := strftime env (clock (store w)) +:+ "_" +:+ source +:+ "_" +:+ suffix in
  push env suffix event w
  = (Ok event_id,
     mkWorld (set_fs (<[(Needs_Action, event_id +:+ ".json")
                         := mkFile (EventJson (mkEvent (ev_id event) (Some event_id)
                                                 (ev_source event) (ev_type event)
                                                 (ev_content event) (ev_metadata event)))
                                   (clock (store w))]> (fs (store w)))
                     (store w))
             (trace w)).
Proof.
  intros Hs Hi. unfold push. rewrite Hs, Hi. reflexivity.
Qed.

(** C6, as stated, fails twice. With e1 and e2 queued, two calls of
    [pop] in sequence both return e1, since [pop] leaves e1's file in the
    queue. And the event created earlier need not have the smaller id: of
    two events pushed within one second the random suffix decides, so the
    one pushed later can be the one that [pop] returns. *)
Lemma pop_order_needs_move_and_distinct_seconds :
  let e1 := mkEvent None (Some "20240101_100000_gmail_aaaaaa") (Some "gmail")
                    (Some "new_email") (Some (CText "first")) ∅ in
  let e2 := mkEvent None (Some "20240101_100005_gmail_bbbbbb") (Some "gmail")
                    (Some "new_email") (Some (CText "second")) ∅ in
  let f1 := (Needs_Action, "20240101_100000_gmail_aaaaaa.json") in
  let f2 := (Needs_Action, "20240101_100005_gmail_bbbbbb.json") in
  let w := mkWorld (mkStore 0 (<[f1 := mkFile (EventJson e1) 0]>
                                 (<[f2 := mkFile (EventJson e2) 5]> ∅)) None []) [] in
  let earlier := mkEvent None None (Some "gmail") (Some "new_email")
                         (Some (CText "pushed first")) ∅ in
  let later := mkEvent None None (Some "gmail") (Some "new_email")
                       (Some (CText "pushed second")) ∅ in
  pop_twice w = (Ok (Some (JObject e1, f1), Some (JObject e1, f1)), w)
  /\ (pop_twice w).1 <> Ok (Some (JObject e1, f1), Some (JObject e2, f2))
  /\ ((push quiet_env "ffffff" earlier;; push quiet_env "000000" later;; gets pop)
        (mkWorld (mkStore 1000 ∅ None []) [])).1
     = Ok (Some (JObject (mkEvent None (Some "1000_gmail_000000") (Some "gmail")
                                  (Some "new_email") (Some (CText "pushed second")) ∅),
                 (Needs_Action, "1000_gmail_000000.json"))).
Proof.
  cbv zeta. split; [vm_compute; reflexivity|]. split.
  - intros H. vm_compute in H. discriminate.
  - vm_compute. reflexivity.
Qed.

(** C6, amended. Two events without an id of their own are pushed to an
    empty queue, e1 first and e2 after a pause in which nobody touches the
    vault, and e1's timestamp is the smaller one (the two have one length
    and differ: e1 is created in an earlier second). Then e1's id, hence its
    file name, is the smaller one, whatever the sources and the random
    suffixes; [pop] returns e1, and returns e1 again when called a second
    time, the queue being unchanged; once the caller has moved e1's file to
    Done, [pop] returns e2. *)
Theorem pop_fifo_after_move (env : Env) (suffix1 suffix2 source1 source2 : string)
    (e1 e2 : Event) (pause : Z) (w : World) :
  ev_source e1 = Some source1 -> ev_event_id e1 = None ->
  ev_source e2 = Some source2 -> ev_event_id e2 = None ->
  (forall n, is_Some (fs (store w) !! (Needs_Action, n)) -> ends_with ".json" n = false) ->
  0 <= pause ->
  (forall f, human env (clock (store w) + pause) f = f) ->
  let t1 := strftime env (clock (store w)) in
  let t2 := strftime env (clock (store w) + pause) in
  String.length t1 = String.length t2 -> str_le t1 t2 -> t1 <> t2 ->
  let id1 := t1 +:+ "_" +:+ source1 +:+ "_" +:+ suffix1 in
  let id2 := t2 +:+ "_" +:+ source2 +:+ "_" +:+ suffix2 in
  let queued1 := mkEvent (ev_id e1) (Some id1) (ev_source e1) (ev_type e1)
                         (ev_content e1) (ev_metadata e1) in
  let queued2 := mkEvent (ev_id e2) (Some id2) (ev_source e2) (ev_type e2)
                         (ev_content e2) (ev_metadata e2) in
  let f1 := (Needs_Action, id1 +:+ ".json") in
  let f2 := (Needs_Action, id2 +:+ ".json") in
  exists wq,
    (first ← push env suffix1 e1; sleep env pause;;
     second ← push env suffix2 e2; mret (first, second)) w
      = (Ok (id1, id2), wq)
    /\ str_le (id1 +:+ ".json") (id2 +:+ ".json")
    /\ id1 <> id2
    /\ pop_twice wq = (Ok (Some (JObject queued1, f1), Some (JObject queued1, f1)), wq)
    /\ exists w',
         (move_to_done f1;; gets pop) wq = (Ok (Some (JObject queued2, f2)), w')
         /\ fs (store w') !! (Done, id1 +:+ ".json")
            = Some (mkFile (EventJson queued1) (clock (store w)))
         /\ fs (store w') !! f1 = None.
Proof.
  intros Hs1 Hi1 Hs2 Hi2 Hempty Hpause Hquiet t1 t2 Hlen Hle Hne id1 id2 q1 q2 f1 f2.
  destruct (str_le_prefix t1 t2 ("_" +:+ source1 +:+ "_" +:+ suffix1 +:+ ".json")
              ("_" +:+ source2 +:+ "_" +:+ suffix2 +:+ ".json") Hlen Hle Hne)
    as [Hnle Hnne].
  assert (Hassoc : forall t src sfx : string,
             (t +:+ "_" +:+ src +:+ "_" +:+ sfx) +:+ ".json"
             = t +:+ ("_" +:+ src +:+ "_" +:+ sfx +:+ ".json")).
  { intros t src sfx. now rewrite !string_app_assoc. }
  assert (Hnames : str_le (id1 +:+ ".json") (id2 +:+ ".json")
                   /\ id1 +:+ ".json" <> id2 +:+ ".json").
  { subst id1 id2. rewrite !Hassoc. split; assumption. }
  destruct Hnames as [Hn12 Hd12].
  assert (Hid : id1 <> id2) by (intros E; apply Hd12; now rewrite E).
  rewrite (bind_ok _ _ _ _ _ (push_new env suffix1 source1 e1 w Hs1 Hi1)).
  fold t1 id1 q1.
  match goal with |- context [(sleep env pause ≫= _) ?w0] => set (w1 := w0) end.
  assert (Hsl : exists w2, sleep env pause w1 = (Ok tt, w2)
                           /\ fs (store w2) = fs (store w1)
                           /\ clock (store w2) = clock (store w) + pause).
  { unfold sleep.
    replace (pause <? 0) with false by (symmetry; apply Z.ltb_ge; lia).
    eexists. split; [reflexivity|]. subst w1. cbn. split; [apply Hquiet|reflexivity]. }
  destruct Hsl as (w2 & Hsl & Hfs2 & Hc2).
  rewrite (bind_ok _ _ _ _ _ Hsl).
  pose proof (push_new env suffix2 source2 e2 w2 Hs2 Hi2) as Hp2.
  cbv zeta in Hp2. rewrite Hc2 in Hp2. subst w1. cbn [store clock set_fs] in Hp2.
  fold t2 id2 q2 in Hp2.
  rewrite (bind_ok _ _ _ _ _ Hp2).
  eexists. split; [reflexivity|]. split; [exact Hn12|]. split; [exact Hid|].
  cbn [store fs set_fs] in Hfs2.
  match goal with |- context [pop_twice (mkWorld ?s ?t)] =>
    destruct (pop_two_queued s t (id1 +:+ ".json") (id2 +:+ ".json") q1 q2
                (clock (store w)) (clock (store w) + pause)) as [Htw Hmv] end.
  - cbn [fs set_fs]. rewrite Hfs2.
    rewrite lookup_insert_ne by congruence. apply lookup_insert_eq.
  - cbn [fs set_fs]. apply lookup_insert_eq.
  - apply ends_with_append.
  - apply ends_with_append.
  - exact Hn12.
  - exact Hd12.
  - cbn [fs set_fs]. rewrite Hfs2. intros n Hn En.
    destruct (decide (n = id2 +:+ ".json")) as [->|N2]; [now right|].
    rewrite lookup_insert_ne in Hn by congruence.
    destruct (decide (n = id1 +:+ ".json")) as [->|N1]; [now left|].
    rewrite lookup_insert_ne in Hn by congruence.
    rewrite (Hempty n Hn) in En. discriminate.
  - split; [exact Htw|].
    destruct Hmv as (w' & Hm & Hd & Hn). exists w'. split; [exact Hm|]. split; assumption.
Qed.

(** C6, amended, on two events pushed five seconds apart. *)
Lemma pop_fifo_after_move_witness :
  let e1 := mkEvent None None (Some "gmail") (Some "new_email") (Some (CText "first")) ∅ in
  let e2 := mkEvent None None (Some "gmail") (Some "new_email") (Some (CText "second")) ∅ in
  let queued1 := mkEvent None (Some "1000_gmail_ffffff") (Some "gmail") (Some "new_email")
                         (Some (CText "first")) ∅ in
  let queued2 := mkEvent None (Some "1005_gmail_000000") (Some "gmail") (Some "new_email")
                         (Some (CText "second")) ∅ in
  let f1 := (Needs_Action, "1000_gmail_ffffff.json") in
  let f2 := (Needs_Action, "1005_gmail_000000.json") in
  exists wq,
    (first ← push quiet_env "ffffff" e1; sleep quiet_env 5;;
     second ← push quiet_env "000000" e2; mret (first, second))
      (mkWorld (mkStore 1000 ∅ None []) [])
      = (Ok ("1000_gmail_ffffff", "1005_gmail_000000"), wq)
    /\ pop_twice wq = (Ok (Some (JObject queued1, f1), Some (JObject queued1, f1)), wq)
    /\ exists w',
         (move_to_done f1;; gets pop) wq = (Ok (Some (JObject queued2, f2)), w')
         /\ fs (store w') !! f1 = None.
Proof.
  cbv zeta.
  set (w := mkWorld (mkStore 1000 ∅ None []) []).
  assert (Hempty : forall n, is_Some (fs (store w) !! (Needs_Action, n)) ->
                             ends_with ".json" n = false).
  { intros n [f Hn]. cbn in Hn. rewrite lookup_empty in Hn. discriminate. }
  assert (Hpause : 0 <= 5) by lia.
  assert (Hquiet : forall f, human quiet_env (clock (store w) + 5) f = f) by reflexivity.
  assert (Hlen : String.length (strftime quiet_env (clock (store w)))
                 = String.length (strftime quiet_env (clock (store w) + 5)))
    by reflexivity.
  assert (Hle : str_le (strftime quiet_env (clock (store w)))
                       (strftime quiet_env (clock (store w) + 5))) by reflexivity.
  assert (Hne : strftime quiet_env (clock (store w))
                <> strftime quiet_env (clock (store w) + 5)) by discriminate.
  destruct (pop_fifo_after_move quiet_env "ffffff" "000000" "gmail" "gmail"
              (mkEvent None None (Some "gmail") (Some "new_email") (Some (CText "first")) ∅)
              (mkEvent None None (Some "gmail") (Some "new_email") (Some (CText "second")) ∅)
              5 w eq_refl eq_refl eq_refl eq_refl Hempty Hpause Hquiet Hlen Hle Hne)
    as (wq & Hrun & _ & _ & Htw & w' & Hm & _ & Hn).
  exists wq. split; [exact Hrun|]. split; [exact Htw|].
  exists w'. split; [exact Hm|exact Hn].
Defined.

End Queue.

(** ** The approval workflow *)

Section Approvals.
Import ApprovalWorkflowM.

Lemma exists_true (p : Path) (s : Store) (f : File) :
  fs s !! p = Some f -> exists_ p s = true.
Proof. intros H. unfold exists_. apply bool_decide_eq_true_2. eauto. Qed.

Lemma exists_false (p : Path) (s : Store) :
  fs s !! p = None -> exists_ p s = false.
Proof.
  intros H. unfold exists_. apply bool_decide_eq_false_2.
  rewrite H. intros [? ?]. discriminate.
Qed.

(** A request that sits in Rejected (and not in Approved) is reported
    rejected; the vault stays as it is. *)
Lemma check_rejected (self : ApprovalWorkflow) (action_id : string) (w : World) (f : File) :
  fs (store w) !! (Approved, action_id +:+ ".md") = None ->
  fs (store w) !! (Rejected, action_id +:+ ".md") = Some f ->
  exists w',
    check_approval_status self action_id w
      = (Ok (Approval.rejected, Some (Rejected, action_id +:+ ".md")), w')
    /\ fs (store w') = fs (store w)
    /\ clock (store w') = clock (store w)
    /\ trace w' = trace w.
Proof.
  intros Ha Hr. unfold check_approval_status, approved_dir, rejected_dir, pending_dir.
  unfold_m. cbn [store].
  rewrite (exists_false _ _ Ha), (exists_true _ _ _ Hr).
  eexists. split; [reflexivity|]. cbn. auto.
Qed.

(** An expired pending request is moved to Rejected and reported as a
    timeout. *)
Lemma check_expired (self : ApprovalWorkflow) (action_id : string) (w : World) (f : File) :
  fs (store w) !! (Approved, action_id +:+ ".md") = None ->
  fs (store w) !! (Rejected, action_id +:+ ".md") = None ->
  fs (store w) !! (Pending_Approval, action_id +:+ ".md") = Some f ->
  _is_expired self f (clock (store w)) = true ->
  exists w',
    check_approval_status self action_id w
      = (Ok (Approval.timeout, Some (Rejected, action_id +:+ ".md")), w')
    /\ fs (store w') = <[(Rejected, action_id +:+ ".md") := f]>
                         (delete (Pending_Approval, action_id +:+ ".md") (fs (store w)))
    /\ clock (store w') = clock (store w)
    /\ trace w' = trace w.
Proof.
  intros Ha Hr Hp He.
  unfold check_approval_status, approved_dir, rejected_dir, pending_dir.
  unfold_m. cbn [store].
  rewrite (exists_false _ _ Ha), (exists_false _ _ Hr), Hp, He.
  unfold rename. cbn [store]. rewrite Hp.
  eexists. split; [reflexivity|]. cbn. auto.
Qed.

Lemma check_repeatedly_rejected (self : ApprovalWorkflow) (action_id : string) (n : nat) :
  forall (w : World) (f : File),
    fs (store w) !! (Approved, action_id +:+ ".md") = None ->
    fs (store w) !! (Rejected, action_id +:+ ".md") = Some f ->
    exists w',
      check_repeatedly self action_id n w = (Ok (replicate n Approval.rejected), w')
      /\ fs (store w') = fs (store w).
Proof.
  induction n as [|n IH]; intros w f Ha Hr.
  - exists w. split; reflexivity.
  - destruct (check_rejected self action_id w f Ha Hr) as (w1 & Hc & Hfs & _ & _).
    destruct (IH w1 f) as (w2 & Hrest & Hfs2).
    { now rewrite Hfs. } { now rewrite Hfs. }
    exists w2. split; [|congruence].
    cbn [check_repeatedly].
    rewrite (bind_ok _ _ _ _ _ Hc). cbv beta iota.
    rewrite (bind_ok _ _ _ _ _ Hrest). reflexivity.
Qed.

(** C5. A request whose file is in Pending_Approval (and in neither
    Approved nor Rejected) with an embedded [expires_at] in the past: the
    check moves the file from Pending_Approval to Rejected and returns
    [timeout]; any number of further checks return [rejected] and leave
    the vault as it is; before the check, after it and after the further
    checks exactly one approval file exists for the action id. *)
Theorem expired_request_rejected_once (self : ApprovalWorkflow) (action_id : string)
    (w : World) (f : File) (aid atype : string) (level : RiskLevel)
    (created_at expires_at : Z) (n : nat) :
  fs (store w) !! (Pending_Approval, action_id +:+ ".md") = Some f ->
  fs (store w) !! (Approved, action_id +:+ ".md") = None ->
  fs (store w) !! (Rejected, action_id +:+ ".md") = None ->
  body f = ApprovalDoc aid atype level created_at (Some expires_at) ->
  expires_at < clock (store w) ->
  exists w1 wn,
    check_approval_status self action_id w
      = (Ok (Approval.timeout, Some (Rejected, action_id +:+ ".md")), w1)
    /\ fs (store w1) = <[(Rejected, action_id +:+ ".md") := f]>
                         (delete (Pending_Approval, action_id +:+ ".md") (fs (store w)))
    /\ check_repeatedly self action_id n w1 = (Ok (replicate n Approval.rejected), wn)
    /\ fs (store wn) = fs (store w1)
    /\ approval_files action_id (store w) = [(Pending_Approval, action_id +:+ ".md")]
    /\ approval_files action_id (store w1) = [(Rejected, action_id +:+ ".md")]
    /\ approval_files action_id (store wn) = [(Rejected, action_id +:+ ".md")].
Proof.
  intros Hp Ha Hr Hb Hlt.
  assert (He : _is_expired self f (clock (store w)) = true).
  { unfold _is_expired. rewrite Hb. now apply Z.ltb_lt. }
  destruct (check_expired self action_id w f Ha Hr Hp He) as (w1 & Hc & Hfs & _ & _).
  assert (Hp1 : fs (store w1) !! (Pending_Approval, action_id +:+ ".md") = None).
  { rewrite Hfs, lookup_insert_ne by congruence. apply lookup_delete_eq. }
  assert (Ha1 : fs (store w1) !! (Approved, action_id +:+ ".md") = None).
  { rewrite Hfs, lookup_insert_ne, lookup_delete_ne by congruence. exact Ha. }
  assert (Hr1 : fs (store w1) !! (Rejected, action_id +:+ ".md") = Some f).
  { rewrite Hfs. apply lookup_insert_eq. }
  destruct (check_repeatedly_rejected self action_id n w1 f Ha1 Hr1) as (wn & Hn & Hfsn).
  exists w1, wn. repeat split; try assumption.
  - unfold approval_files. cbn [List.filter].
    now rewrite (exists_true _ _ _ Hp), (exists_false _ _ Ha), (exists_false _ _ Hr).
  - unfold approval_files. cbn [List.filter].
    now rewrite (exists_false _ _ Hp1), (exists_false _ _ Ha1), (exists_true _ _ _ Hr1).
  - unfold approval_files. cbn [List.filter].
    rewrite <- Hfsn in Hp1, Ha1, Hr1.
    now rewrite (exists_false _ _ Hp1), (exists_false _ _ Ha1), (exists_true _ _ _ Hr1).
Qed.

(** C5 on a request created at 1000 with the default 24 hours, checked at
    90000 and three more times. *)
Lemma expired_request_rejected_once_witness :
  let f := mkFile (ApprovalDoc "email_send_1000" "email_send" medium 1000 (Some 87400)) 1000 in
  let w := mkWorld (mkStore 90000 (<[(Pending_Approval, "email_send_1000.md") := f]> ∅)
                            None []) [] in
  exists w1 wn,
    check_approval_status (mkApprovalWorkflow 24) "email_send_1000" w
      = (Ok (Approval.timeout, Some (Rejected, "email_send_1000.md")), w1)
    /\ fs (store w1) = <[(Rejected, "email_send_1000.md") := f]>
                         (delete (Pending_Approval, "email_send_1000.md") (fs (store w)))
    /\ check_repeatedly (mkApprovalWorkflow 24) "email_send_1000" 3 w1
         = (Ok (replicate 3 Approval.rejected), wn)
    /\ fs (store wn) = fs (store w1)
    /\ approval_files "email_send_1000" (store w) = [(Pending_Approval, "email_send_1000.md")]
    /\ approval_files "email_send_1000" (store w1) = [(Rejected, "email_send_1000.md")]
    /\ approval_files "email_send_1000" (store wn) = [(Rejected, "email_send_1000.md")].
Proof.
  cbv zeta.
  apply (expired_request_rejected_once (mkApprovalWorkflow 24) "email_send_1000" _ _
           "email_send_1000" "email_send" medium 1000 87400 3);
    reflexivity.
Defined.

End Approvals.

(** ** The step executor *)

Section Executor.
Import StepExecutorM.

Lemma calls_app (a b : list TraceItem) : calls (a ++ b) = (calls a ++ calls b)%list.
Proof. unfold calls. apply omap_app. Qed.

Lemma sleeps_app (a b : list TraceItem) : sleeps (a ++ b) = (sleeps a ++ sleeps b)%list.
Proof. unfold sleeps. apply omap_app. Qed.

Lemma marks_app sid (a b : list TraceItem) :
  marks sid (a ++ b) = (marks sid a ++ marks sid b)%list.
Proof. unfold marks. apply omap_app. Qed.

Lemma marks_self sid st notes : marks sid [TMark sid st notes] = [st].
Proof. unfold marks. simpl. now rewrite String.eqb_refl. Qed.

Lemma plan_status_set (sid : string) (st : Step.status) (steps : list (string * Step.status)) :
  existsb (fun x : string * Step.status => String.eqb x.1 sid) steps = true ->
  option_map snd
    (List.find (fun x : string * Step.status => String.eqb x.1 sid)
               (PlanGenerator.set_status sid st steps)) = Some st.
Proof.
  induction steps as [|[i s0] steps IH]; simpl; [discriminate|].
  destruct (String.eqb i sid) eqn:E; simpl.
  - rewrite E. reflexivity.
  - rewrite E. exact IH.
Qed.

Lemma plan_status_absent (sid : string) (steps : list (string * Step.status)) :
  existsb (fun x : string * Step.status => String.eqb x.1 sid) steps = false ->
  List.find (fun x : string * Step.status => String.eqb x.1 sid) steps = None.
Proof.
  induction steps as [|[i s0] steps IH]; simpl; [reflexivity|].
  destruct (String.eqb i sid); simpl; [discriminate|exact IH].
Qed.

(** [update_step_status] never raises; it leaves the vault and the clock
    alone, and a plan that lists the step shows the status written. *)
Lemma update_step_status_spec (sid : string) (st : Step.status) (notes : string) (w : World) :
  exists w',
    PlanGenerator.update_step_status sid st notes w = (Ok tt, w')
    /\ trace w' = (trace w ++ [TMark sid st notes])%list
    /\ fs (store w') = fs (store w)
    /\ clock (store w') = clock (store w)
    /\ (forall st', plan_status sid (store w') = Some st' -> st' = st).
Proof.
  unfold PlanGenerator.update_step_status. unfold_m. cbn [store trace].
  destruct (plan (store w)) as [p|] eqn:Hp.
  - destruct (existsb _ (plan_steps p)) eqn:Hx.
    + eexists. split; [reflexivity|]. cbn. repeat split.
      intros st'. unfold plan_status. cbn.
      pose proof (plan_status_set sid st _ Hx) as Hs.
      destruct (List.find _ _); simpl in Hs; congruence.
    + eexists. split; [reflexivity|]. cbn. repeat split.
      intros st'. unfold plan_status. cbn. rewrite Hp.
      now rewrite (plan_status_absent sid _ Hx).
  - eexists. split; [reflexivity|]. cbn. repeat split.
    intros st'. unfold plan_status. cbn. now rewrite Hp.
Qed.

Lemma sleep_spec (env : Env) (d : Z) (w : World) :
  0 <= d ->
  exists w',
    sleep env d w = (Ok tt, w')
    /\ trace w' = (trace w ++ [TSleep d])%list
    /\ clock (store w') = clock (store w) + d.
Proof.
  intros Hd. unfold sleep.
  assert (E : (d <? 0) = false) by now apply Z.ltb_ge.
  rewrite E. unfold_m. cbn. eexists. split; [reflexivity|]. split; reflexivity.
Qed.


Lemma call_raises (fn : StepFn) (w : World) :
  raises_always fn ->
  exists e w',
    call fn w = (Ok (Some e), w')
    /\ trace w' = (trace w ++ [TCall (Some e)])%list.
Proof.
  intros H. destruct (H (store w)) as (e & Hf).
  unfold call.
  destruct (fn (store w)) as [raised s'] eqn:E. simpl in Hf. subst raised.
  exists e. eexists. split; reflexivity.
Qed.

Lemma retry_loop_exhausts (env : Env) (self : StepExecutor) (sid : string)
    (fn : StepFn) (desc : string) (start : Z) :
  raises_always fn ->
  0 <= base_retry_delay self ->
  forall (r : nat) (attempt : Z) (w : World),
    1 <= attempt ->
    attempt + Z.of_nat r = max_retries self ->
    exists w' new e,
      retry_loop env self sid fn desc start (S r) attempt w
        = (Ok (false, Some (exc_msg e)), w')
      /\ trace w' = (trace w ++ new)%list
      /\ length (calls new) = S r
      /\ Forall (fun o => o <> None) (calls new)
      /\ last (calls new) = Some (Some e)
      /\ sleeps new = backoff self <$> seqZ attempt (Z.of_nat r)
      /\ marks sid new = (replicate r Step.in_progress ++ [Step.failed])%list
      /\ (forall st, plan_status sid (store w') = Some st -> st = Step.failed).
Proof.
  intros Hfn Hbase. induction r as [|r IH]; intros attempt w Hat Hsum.
  - destruct (call_raises fn w Hfn) as (e & w1 & Hcall & Ht1).
    cbn [retry_loop]. rewrite (bind_ok _ _ _ _ _ Hcall). rewrite bind_gets.
    assert (E : (attempt <? max_retries self) = false) by (apply Z.ltb_ge; lia).
    rewrite E. rewrite bind_modify.
    match goal with |- context [(PlanGenerator.update_step_status ?a ?b ?c ≫= _) ?w0] =>
      destruct (update_step_status_spec a b c w0) as (w2 & Hu & Ht2 & _ & _ & Hplan) end.
    rewrite (bind_ok _ _ _ _ _ Hu).
    exists w2, [TCall (Some e); TMark sid Step.failed
                 ("Failed after " +:+ str_of_Z attempt +:+ " attempts: "
                  +:+ py_prefix 200 (exc_msg e))], e.
    split; [reflexivity|]. split.
    { rewrite Ht2. cbn [trace]. rewrite Ht1, <- app_assoc. reflexivity. }
    split; [reflexivity|]. split; [repeat constructor; discriminate|].
    split; [reflexivity|]. split; [reflexivity|]. split.
    { unfold marks. simpl. now rewrite String.eqb_refl. }
    exact Hplan.
  - destruct (call_raises fn w Hfn) as (e1 & w1 & Hcall & Ht1).
    cbn [retry_loop]. rewrite (bind_ok _ _ _ _ _ Hcall). rewrite bind_gets.
    assert (E : (attempt <? max_retries self) = true) by (apply Z.ltb_lt; lia).
    rewrite E. rewrite bind_modify.
    match goal with |- context [(PlanGenerator.update_step_status ?a ?b ?c ≫= _) ?w0] =>
      destruct (update_step_status_spec a b c w0) as (w2 & Hu & Ht2 & _ & _ & _) end.
    rewrite (bind_ok _ _ _ _ _ Hu).
    assert (Hd : 0 <= base_retry_delay self * 3 ^ (attempt - 1)).
    { apply Z.mul_nonneg_nonneg; [exact Hbase|]. apply Z.pow_nonneg. lia. }
    destruct (sleep_spec env _ w2 Hd) as (w3 & Hs & Ht3 & _).
    rewrite (bind_ok _ _ _ _ _ Hs).
    destruct (IH (attempt + 1) w3) as (w' & new & e & Hr & Ht & Hc & Hall & Hlast & Hsl & Hm & Hplan);
      [lia | lia |].
    exists w', ([TCall (Some e1);
                 TMark sid Step.in_progress
                   ("Retry " +:+ str_of_Z attempt +:+ "/" +:+ str_of_Z (max_retries self)
                    +:+ " after error: " +:+ py_prefix 100 (exc_msg e1));
                 TSleep (base_retry_delay self * 3 ^ (attempt - 1))] ++ new)%list, e.
    split; [exact Hr|]. split.
    { rewrite Ht, Ht3, Ht2. cbn [trace]. rewrite Ht1, <- !app_assoc. reflexivity. }
    split. { rewrite calls_app, length_app, Hc. reflexivity. }
    split. { rewrite calls_app. apply Forall_app. split; [|exact Hall].
             repeat constructor; discriminate. }
    split. { rewrite calls_app. cbn [calls omap app].
             destruct (calls new) as [|c cs]; [discriminate Hc|]. exact Hlast. }
    split. { rewrite sleeps_app, Hsl. rewrite (seqZ_cons attempt) by lia.
             rewrite fmap_cons. cbn [sleeps omap app]. unfold backoff at 2.
             repeat f_equal; lia. }
    split. { rewrite marks_app, Hm. unfold marks at 1. simpl.
             now rewrite String.eqb_refl. }
    exact Hplan.
Qed.


Lemma begin_step_spec (sid desc : string) (w : World) :
  exists wb,
    begin_step sid desc w = (Ok tt, wb)
    /\ trace wb = (trace w ++ [TMark sid Step.in_progress ("Starting execution: " +:+ desc)])%list
    /\ fs (store wb) = fs (store w)
    /\ clock (store wb) = clock (store w)
    /\ exists entry,
         log (store wb)
         = (log (store w) ++
            [entry;
             mkLog (clock (store w)) "info" "reasoning" "step_started" "step_executor"
                   sid "success" [("description", VStr desc)]])%list
         /\ log_actor entry = "plan_generator".
Proof.
  unfold begin_step.
  destruct (update_step_status_spec sid Step.in_progress
              ("Starting execution: " +:+ desc) w) as (w1 & Hu & Ht & Hf & Hc & _).
  rewrite (bind_ok _ _ _ _ _ Hu).
  eexists. split; [reflexivity|]. cbn. repeat split; try assumption.
  revert Hu. unfold PlanGenerator.update_step_status. unfold_m. cbn [store trace].
  destruct (plan (store w)) as [p|].
  - destruct (existsb _ (plan_steps p)); intros Hu; inversion Hu; subst w1; cbn;
      rewrite <- app_assoc; eexists; (split; [reflexivity|reflexivity]).
  - intros Hu; inversion Hu; subst w1; cbn;
      rewrite <- app_assoc; eexists; (split; [reflexivity|reflexivity]).
Qed.


(** [check_approval_status] never raises, and touches neither the clock
    nor the executor's trace. *)
Lemma check_approval_status_total (self : ApprovalWorkflow) (action_id : string) (w : World) :
  exists st p w',
    ApprovalWorkflowM.check_approval_status self action_id w = (Ok (st, p), w')
    /\ trace w' = trace w
    /\ clock (store w') = clock (store w).
Proof.
  unfold ApprovalWorkflowM.check_approval_status. unfold_m. cbn [store].
  destruct (exists_ _ (store w)).
  { do 3 eexists. split; [reflexivity|]. split; reflexivity. }
  destruct (exists_ _ (store w)).
  { do 3 eexists. split; [reflexivity|]. split; reflexivity. }
  destruct (fs (store w) !! _) as [f|] eqn:Hp.
  - destruct (ApprovalWorkflowM._is_expired self f (clock (store w))).
    + unfold rename. cbn [store].
      unfold ApprovalWorkflowM.pending_dir in *. rewrite Hp.
      do 3 eexists. split; [reflexivity|]. split; reflexivity.
    + do 3 eexists. split; [reflexivity|]. split; reflexivity.
  - do 3 eexists. split; [reflexivity|]. split; reflexivity.
Qed.

(** The waiting loop ends, with a verdict, once its fuel covers the polls
    that fit in what is left of [max_wait]; all it leaves in the trace are
    its sleeps. *)
Lemma wait_loop_total (env : Env) (self : StepExecutor) (sid approval_id : string)
    (poll max_wait start : Z) :
  0 < poll ->
  forall (fuel : nat) (w : World),
    (1 <= fuel)%nat ->
    max_wait - (clock (store w) - start) <= (Z.of_nat fuel - 1) * poll ->
    exists b w' k,
      wait_loop env self sid approval_id poll max_wait start fuel w = (Ok b, w')
      /\ trace w' = (trace w ++ replicate k (TSleep poll))%list.
Proof.
  intros Hpoll. induction fuel as [|fuel IH]; intros w Hfuel Hbound; [lia|].
  cbn [wait_loop]. rewrite bind_gets.
  destruct (clock (store w) - start <? max_wait) eqn:Hlt.
  - apply Z.ltb_lt in Hlt.
    destruct (check_approval_status_total (approval_workflow self) approval_id w)
      as (st & p & w1 & Hc & Ht1 & Hc1).
    rewrite (bind_ok _ _ _ _ _ Hc). cbv beta iota.
    destruct st.
    + exists true. eexists. exists 0%nat. rewrite bind_modify. split; [reflexivity|].
      cbn. now rewrite Ht1, app_nil_r.
    + exists false. eexists. exists 0%nat. rewrite bind_modify. split; [reflexivity|].
      cbn. now rewrite Ht1, app_nil_r.
    + destruct (sleep_spec env poll w1) as (w2 & Hs & Ht2 & Hc2); [lia|].
      rewrite (bind_ok _ _ _ _ _ Hs).
      destruct (IH w2) as (b & w' & k & Hw & Ht); [nia | nia |].
      exists b, w', (S k). split; [exact Hw|].
      rewrite Ht, Ht2, Ht1, <- app_assoc. reflexivity.
    + exists false. eexists. exists 0%nat. rewrite bind_modify. split; [reflexivity|].
      cbn. now rewrite Ht1, app_nil_r.
    + destruct (sleep_spec env poll w1) as (w2 & Hs & Ht2 & Hc2); [lia|].
      rewrite (bind_ok _ _ _ _ _ Hs).
      destruct (IH w2) as (b & w' & k & Hw & Ht); [nia | nia |].
      exists b, w', (S k). split; [exact Hw|].
      rewrite Ht, Ht2, Ht1, <- app_assoc. reflexivity.
  - exists false. eexists. exists 0%nat. rewrite bind_modify. split; [reflexivity|].
    cbn. now rewrite app_nil_r.
Qed.

(** As [execute_step] calls it, the wait for approval always ends with a
    verdict: within 61 turns of the loop, never by an exception. *)
Lemma wait_for_approval_total (env : Env) (self : StepExecutor) (sid approval_id : string)
    (w : World) :
  exists b w' k,
    _wait_for_approval env self sid approval_id 60 3600 wait_fuel w = (Ok b, w')
    /\ trace w' = (trace w ++ replicate k (TSleep 60))%list.
Proof.
  unfold _wait_for_approval. rewrite bind_gets.
  apply wait_loop_total; unfold wait_fuel; lia.
Qed.

Lemma check_risk_needs_approval (env : Env) (self : StepExecutor)
    (sid action_type desc : string) (md : gmap string PyVal) (w : World)
    (level : RiskLevel) (reason : string) :
  RiskClassifier.classify action_type desc md = Ok (level, reason) ->
  level ∈ [medium; high] ->
  exists w',
    _check_risk_and_approval env self sid action_type desc md w
      = (Ok (true, Some (action_type +:+ "_" +:+ strftime env (clock (store w)))), w')
    /\ trace w' = (trace w ++ [TMark sid Step.in_progress
                                ("Waiting for approval (risk: " +:+ risk_name level +:+ ")")])%list.
Proof.
  intros Hc Hl. unfold _check_risk_and_approval. rewrite Hc.
  unfold lift_result at 1.
  rewrite (bind_ok _ _ (Ok (level, reason), w).2 (level, reason)
             (Ok (level, reason), w).2 eq_refl).
  cbv beta iota. cbn [snd]. rewrite bind_modify.
  rewrite (bool_decide_eq_true_2 _ Hl). rewrite bind_gets.
  unfold ApprovalWorkflowM.request_approval.
  match goal with |- context [PlanGenerator.update_step_status ?a ?b ?c] =>
    set (upd := PlanGenerator.update_step_status a b c) end.
  unfold_m. cbn [store trace clock fs plan log Logger.info Logger.entry add_log atomic_write set_fs].
  match goal with |- context [upd ?w0] =>
    destruct (update_step_status_spec sid Step.in_progress
                ("Waiting for approval (risk: " +:+ risk_name level +:+ ")") w0)
      as (w1 & Hu & Ht & _) end.
  subst upd. rewrite Hu. eexists. split; [reflexivity|]. exact Ht.
Qed.


Lemma risk_gate_skipped (env : Env) (self : StepExecutor) (sid desc : string)
    (rrc : bool) (action_type : option string) (md : gmap string PyVal) (start : Z)
    (w : World) :
  rrc && truthy_str action_type = false ->
  risk_gate env self sid desc rrc action_type md start w = (Ok None, w).
Proof. intros H. unfold risk_gate. rewrite H. reflexivity. Qed.

Lemma execute_step_unfold (env : Env) (self : StepExecutor) (sid : string) (fn : StepFn)
    (desc : string) (rrc : bool) (action_type : option string)
    (md : gmap string PyVal) (w wb wg : World) :
  begin_step sid desc w = (Ok tt, wb) ->
  risk_gate env self sid desc rrc action_type md (clock (store w)) wb = (Ok None, wg) ->
  execute_step env self sid fn desc rrc action_type md w
    = retry_loop env self sid fn desc (clock (store w)) (Z.to_nat (max_retries self)) 1 wg.
Proof.
  intros Hb Hg. unfold execute_step. rewrite bind_gets.
  rewrite (bind_ok _ _ _ _ _ Hb). rewrite (bind_ok _ _ _ _ _ Hg). reflexivity.
Qed.

(** C4, as stated, fails: with the defaults (three attempts, base delay
    5) an action that always raises is followed by two sleeps, of 5 and
    15 seconds; no sleep of 45 seconds takes place. And an executor
    configured with [max_retries = 0] makes no attempt, returns "Unknown
    error" and never marks the step failed. *)
Lemma default_retry_sleeps_5_15 :
  let w := mkWorld (mkStore 0 ∅ None []) [] in
  let r := execute_step quiet_env default_executor "step_1" (always_raises "boom")
                        "Publish the report" false None ∅ w in
  let r0 := execute_step quiet_env (mkStepExecutor 0 5 300 (mkApprovalWorkflow 24))
                         "step_1" (always_raises "boom") "Publish the report"
                         false None ∅ w in
  (r.1 = Ok (false, Some "boom")
   /\ length (calls (trace r.2)) = 3%nat
   /\ sleeps (trace r.2) = [5; 15]
   /\ ~ In 45 (sleeps (trace r.2)))
  /\ (r0.1 = Ok (false, Some "Unknown error")
      /\ calls (trace r0.2) = []
      /\ marks "step_1" (trace r0.2) = [Step.in_progress]).
Proof.
  cbv zeta. vm_compute. repeat split; try reflexivity.
  intros [H|[H|[]]]; discriminate.
Qed.

(** C4, amended. For [max_retries >= 1] and a non-negative base delay, a
    step that passes the risk gate and whose action raises at every call
    is attempted exactly [max_retries] times; after the failed attempt
    number [k < max_retries] the executor sleeps
    [base_retry_delay * 3^(k-1)] seconds (5 and 15 seconds with the
    defaults) and nothing is slept after the last attempt; the step is
    then marked failed, never completed, and the call returns failure
    with the message of the last error. *)
Theorem execute_step_retry_bound (env : Env) (self : StepExecutor) (sid : string)
    (fn : StepFn) (desc : string) (rrc : bool) (action_type : option string)
    (md : gmap string PyVal) (w wg : World) :
  raises_always fn ->
  1 <= max_retries self ->
  0 <= base_retry_delay self ->
  (begin_step sid desc;;
   risk_gate env self sid desc rrc action_type md (clock (store w))) w = (Ok None, wg) ->
  exists w' new e,
    execute_step env self sid fn desc rrc action_type md w
      = (Ok (false, Some (exc_msg e)), w')
    /\ trace w' = (trace wg ++ new)%list
    /\ length (calls new) = Z.to_nat (max_retries self)
    /\ Forall (fun raised => raised <> None) (calls new)
    /\ last (calls new) = Some (Some e)
    /\ sleeps new = backoff self <$> seqZ 1 (max_retries self - 1)
    /\ marks sid new
       = (replicate (Z.to_nat (max_retries self) - 1) Step.in_progress ++ [Step.failed])%list
    /\ (forall st, plan_status sid (store w') = Some st -> st = Step.failed).
Proof.
  intros Hfn Hmax Hbase Hgate.
  destruct (begin_step_spec sid desc w) as (wb & Hb & _).
  rewrite (bind_ok _ _ _ _ _ Hb) in Hgate.
  rewrite (execute_step_unfold _ _ _ _ _ _ _ _ _ _ _ Hb Hgate).
  destruct (Z.to_nat (max_retries self)) as [|r] eqn:Hn; [lia|].
  destruct (retry_loop_exhausts env self sid fn desc (clock (store w)) Hfn Hbase r 1 wg)
    as (w' & new & e & Hr & Ht & Hc & Hall & Hlast & Hsl & Hm & Hplan); [lia | lia |].
  exists w', new, e. repeat split; try assumption.
  - rewrite Hsl. f_equal. f_equal. lia.
  - rewrite Hm. f_equal. f_equal. lia.
Qed.

(** C4, amended, with the defaults: three calls, sleeps of 5 and 15. *)
Lemma execute_step_retry_bound_witness :
  let w := mkWorld (mkStore 0 ∅ (Some (mkPlan Active None [("step_1", Step.pending)])) []) [] in
  exists wg w' new e,
    (begin_step "step_1" "Publish the report";;
     risk_gate quiet_env default_executor "step_1" "Publish the report" false None ∅ 0) w
      = (Ok None, wg)
    /\ execute_step quiet_env default_executor "step_1" (always_raises "boom")
                    "Publish the report" false None ∅ w
       = (Ok (false, Some (exc_msg e)), w')
    /\ trace w' = (trace wg ++ new)%list
    /\ length (calls new) = 3%nat
    /\ sleeps new = [5; 15]
    /\ marks "step_1" new = [Step.in_progress; Step.in_progress; Step.failed]
    /\ plan_status "step_1" (store w') = Some Step.failed.
Proof.
  cbv zeta. eexists.
  destruct (execute_step_retry_bound quiet_env default_executor "step_1"
              (always_raises "boom") "Publish the report" false None ∅
              (mkWorld (mkStore 0 ∅ (Some (mkPlan Active None [("step_1", Step.pending)])) []) [])
              _ (fun s => ex_intro _ (mkExc "RuntimeError" "boom") eq_refl)
              ltac:(vm_compute; discriminate) ltac:(vm_compute; discriminate) eq_refl)
    as (w' & new & e & Hr & Ht & Hc & _ & _ & Hs & Hm & Hp).
  exists w', new, e. split; [reflexivity|]. repeat split; try assumption.
  vm_compute in Hr. inversion Hr; subst w'. reflexivity.
Defined.


(** C1. A step with [requires_risk_check] and a non-empty action type
    that is classified medium or high: when the wait for approval that
    follows the approval request does not end in approved, [execute_step]
    returns failure with "Approval rejected or timeout" and marks the step
    failed; the action is not invoked (the trace gains no call, and the
    outcome is the same whatever the action). *)
Theorem execute_step_blocked_without_approval (env : Env) (self : StepExecutor)
    (sid : string) (fn : StepFn) (desc action_type : string) (md : gmap string PyVal)
    (w : World) (level : RiskLevel) (reason : string) :
  action_type <> "" ->
  RiskClassifier.classify action_type desc md = Ok (level, reason) ->
  level ∈ [medium; high] ->
  let w1 := ((begin_step sid desc;;
              _check_risk_and_approval env self sid action_type desc md) w).2 in
  let approval_id := action_type +:+ "_" +:+ strftime env (clock (store w)) in
  (_wait_for_approval env self sid approval_id 60 3600 wait_fuel w1).1 <> Ok true ->
  exists w' new,
    execute_step env self sid fn desc true (Some action_type) md w
      = (Ok (false, Some "Approval rejected or timeout"), w')
    /\ trace w' = (trace w ++ new)%list
    /\ calls new = []
    /\ last (marks sid new) = Some Step.failed
    /\ (Step.completed ∉ marks sid new)
    /\ (forall st, plan_status sid (store w') = Some st -> st = Step.failed)
    /\ (forall fn' : StepFn,
          execute_step env self sid fn' desc true (Some action_type) md w
            = (Ok (false, Some "Approval rejected or timeout"), w')).
Proof.
  intros Hne Hc Hl w1 approval_id Hwait.
  destruct (begin_step_spec sid desc w) as (wb & Hb & Htb & _ & Hcb & _).
  destruct (check_risk_needs_approval env self sid action_type desc md wb level reason Hc Hl)
    as (w1' & Hk & Ht1).
  rewrite Hcb in Hk. fold approval_id in Hk.
  assert (Hw1 : w1 = w1').
  { subst w1. rewrite (bind_ok _ _ _ _ _ Hb). now rewrite Hk. }
  rewrite Hw1 in Hwait. clear w1 Hw1.
  destruct (wait_for_approval_total env self sid approval_id w1') as (b & w2 & k & Hw & Ht2).
  rewrite Hw in Hwait. destruct b; [now destruct Hwait|]. clear Hwait.
  assert (Htruthy : truthy_str (Some action_type) = true).
  { unfold truthy_str. destruct (String.eqb_spec action_type ""); [contradiction|reflexivity]. }
  match type of Hb with _ = (_, ?wb0) =>
    destruct (update_step_status_spec sid Step.failed
                "Approval rejected or timeout - step not executed"
                (mkWorld
                   (Logger.warning "reasoning" "step_blocked" "step_executor" sid
                      [ ("reason", VStr "Approval rejected or timeout");
                        ("duration_ms", VInt ((clock (store w2) - clock (store w)) * 1000)) ]
                      (store w2)) (trace w2)))
      as (w3 & Hu & Ht3 & _ & _ & Hplan) end.
  assert (Hrun : forall fn' : StepFn,
             execute_step env self sid fn' desc true (Some action_type) md w
             = (Ok (false, Some "Approval rejected or timeout"), w3)).
  { intros fn'. unfold execute_step. rewrite bind_gets.
    rewrite (bind_ok _ _ _ _ _ Hb).
    unfold risk_gate. rewrite Htruthy. cbn [andb default].
    rewrite <- !bind_assoc_run.
    rewrite (bind_ok _ _ _ _ _ Hk). cbv beta iota.
    rewrite <- !bind_assoc_run.
    rewrite (bind_ok _ _ _ _ _ Hw). cbn [negb].
    rewrite <- !bind_assoc_run. rewrite bind_gets.
    rewrite <- !bind_assoc_run. rewrite bind_modify.
    rewrite <- !bind_assoc_run.
    rewrite (bind_ok _ _ _ _ _ Hu). reflexivity. }
  exists w3, ([TMark sid Step.in_progress ("Starting execution: " +:+ desc);
               TMark sid Step.in_progress
                 ("Waiting for approval (risk: " +:+ risk_name level +:+ ")")]
              ++ replicate k (TSleep 60)
              ++ [TMark sid Step.failed "Approval rejected or timeout - step not executed"])%list.
  split; [apply Hrun|]. split.
  { rewrite Ht3. cbn [trace]. rewrite Ht2, Ht1, Htb, <- !app_assoc. reflexivity. }
  assert (Hcalls : calls (replicate k (TSleep 60)) = []).
  { clear. induction k; [reflexivity|exact IHk]. }
  assert (Hmarks : marks sid (replicate k (TSleep 60)) = []).
  { clear. induction k; [reflexivity|exact IHk]. }
  split. { rewrite !calls_app, Hcalls. reflexivity. }
  split. { rewrite !marks_app, Hmarks. unfold marks. simpl.
           rewrite String.eqb_refl. reflexivity. }
  split. { rewrite !marks_app, Hmarks. unfold marks. simpl.
           rewrite String.eqb_refl. simpl.
           intros H. repeat (apply elem_of_cons in H as [H|H]; [discriminate|]).
           inversion H. }
  split; [exact Hplan | exact Hrun].
Qed.


(** C1 on an email step that nobody approves within the hour. *)
Lemma execute_step_blocked_without_approval_witness :
  let w := mkWorld (mkStore 1000 ∅ (Some (mkPlan Active None [("step_1", Step.pending)])) []) [] in
  exists w' new,
    execute_step quiet_env default_executor "step_1" (always_raises "boom")
                 "Send the quarterly email" true (Some "email_send") ∅ w
      = (Ok (false, Some "Approval rejected or timeout"), w')
    /\ trace w' = (trace w ++ new)%list
    /\ calls new = []
    /\ last (marks "step_1" new) = Some Step.failed
    /\ plan_status "step_1" (store w') = Some Step.failed.
Proof.
  cbv zeta.
  destruct (execute_step_blocked_without_approval quiet_env default_executor "step_1"
              (always_raises "boom") "Send the quarterly email" "email_send" ∅
              (mkWorld (mkStore 1000 ∅ (Some (mkPlan Active None [("step_1", Step.pending)])) []) [])
              medium "Contains medium-risk keyword: email"
              ltac:(discriminate) eq_refl ltac:(left)
              ltac:(vm_compute; discriminate))
    as (w' & new & Hr & Ht & Hc & Hm & _ & _ & _).
  exists w', new. repeat split; try assumption.
  vm_compute in Hr. inversion Hr; subst w'. reflexivity.
Defined.

Lemma retry_loop_extends (env : Env) (self : StepExecutor) (sid : string) (fn : StepFn)
    (desc : string) (start : Z) (n : nat) :
  forall (attempt : Z) (w : World) r w',
    retry_loop env self sid fn desc start n attempt w = (r, w') ->
    exists new, trace w' = (trace w ++ new)%list.
Proof.
  induction n as [|n IH]; intros attempt w r w' H.
  - inversion H. exists []. now rewrite app_nil_r.
  - cbn [retry_loop] in H.
    assert (Hcall : call fn w
                    = (Ok (fn (store w)).1,
                       mkWorld (fn (store w)).2 (trace w ++ [TCall (fn (store w)).1]))).
    { unfold call. now destruct (fn (store w)). }
    rewrite (bind_ok _ _ _ _ _ Hcall) in H. rewrite bind_gets in H.
    destruct ((fn (store w)).1) as [e|].
    + destruct (attempt <? max_retries self).
      * rewrite bind_modify in H.
        match type of H with context [(PlanGenerator.update_step_status ?a ?b ?c ≫= _) ?w0] =>
          destruct (update_step_status_spec a b c w0) as (w2 & Hu & Ht2 & _) end.
        rewrite (bind_ok _ _ _ _ _ Hu) in H.
        unfold sleep at 1 in H.
        destruct (_ <? 0).
        { inversion H; subst. eexists. rewrite Ht2. cbn [trace].
          rewrite <- app_assoc. reflexivity. }
        rewrite <- bind_assoc_run in H.
        change (record ?t ≫= ?k) with (fun w0 => k tt (mkWorld (store w0) (trace w0 ++ [t]))) in H.
        cbv beta in H. rewrite bind_modify in H.
        apply IH in H as [new Hn]. eexists. rewrite Hn. cbn [trace]. rewrite Ht2.
        cbn [trace]. rewrite <- !app_assoc. reflexivity.
      * rewrite bind_modify in H.
        match type of H with context [(PlanGenerator.update_step_status ?a ?b ?c ≫= _) ?w0] =>
          destruct (update_step_status_spec a b c w0) as (w2 & Hu & Ht2 & _) end.
        rewrite (bind_ok _ _ _ _ _ Hu) in H. inversion H; subst.
        eexists. rewrite Ht2. cbn [trace]. rewrite <- app_assoc. reflexivity.
    + rewrite bind_modify in H.
      match type of H with context [(PlanGenerator.update_step_status ?a ?b ?c ≫= _) ?w0] =>
        destruct (update_step_status_spec a b c w0) as (w2 & Hu & Ht2 & _) end.
      rewrite (bind_ok _ _ _ _ _ Hu) in H. inversion H; subst.
      eexists. rewrite Ht2. cbn [trace]. rewrite <- app_assoc. reflexivity.
Qed.


(** C10, as stated, fails: "the action is executed" needs an attempt to
    be configured. An executor with [max_retries = 0], called with
    [requires_risk_check] true and no action type, skips the gate, makes no
    call of the action, returns "Unknown error" and leaves the step in
    progress. *)
Lemma execute_step_without_attempts :
  let self := mkStepExecutor 0 5 300 (mkApprovalWorkflow 24) in
  let w := mkWorld (mkStore 1000 ∅ (Some (mkPlan Active None [("step_1", Step.pending)])) [])
                   [] in
  let r := execute_step quiet_env self "step_1" (fun s => (None, s))
                        "Delete the customer archive" true None ∅ w in
  r.1 = Ok (false, Some "Unknown error")
  /\ calls (trace r.2) = []
  /\ fs (store r.2) = ∅
  /\ plan_status "step_1" (store r.2) = Some Step.in_progress.
Proof. cbv zeta. repeat split; vm_compute; reflexivity. Qed.

(** C10, amended. With [requires_risk_check] true but the action type
    absent ([None] or the empty string) the risk gate is skipped whole: the
    call behaves as the same call without risk check; between the opening
    bookkeeping (which leaves the vault and the clock alone and logs no
    risk assessment) and the retry loop nothing happens. When at least one
    attempt is configured ([max_retries >= 1]) the first thing after the
    opening is the call of the action, on the store as the opening left it,
    whose vault holds no new approval request; what the action does to the
    store stays, and when that call returns the step is completed at once,
    without any sleep. *)
Theorem execute_step_without_action_type (env : Env) (self : StepExecutor)
    (sid : string) (fn : StepFn) (desc : string) (action_type : option string)
    (md : gmap string PyVal) (w : World) :
  action_type = None \/ action_type = Some "" ->
  execute_step env self sid fn desc true action_type md w
    = execute_step env self sid fn desc false action_type md w
  /\ exists wb,
       begin_step sid desc w = (Ok tt, wb)
       /\ fs (store wb) = fs (store w)
       /\ clock (store wb) = clock (store w)
       /\ (exists entry,
             log (store wb)
             = (log (store w) ++
                [entry;
                 mkLog (clock (store w)) "info" "reasoning" "step_started" "step_executor"
                       sid "success" [("description", VStr desc)]])%list
             /\ log_actor entry = "plan_generator")
       /\ execute_step env self sid fn desc true action_type md w
          = retry_loop env self sid fn desc (clock (store w))
                       (Z.to_nat (max_retries self)) 1 wb
       /\ (1 <= max_retries self ->
           exists r w' rest,
             execute_step env self sid fn desc true action_type md w = (r, w')
             /\ trace w'
                = (trace w ++
                   [TMark sid Step.in_progress ("Starting execution: " +:+ desc);
                    TCall (fn (store wb)).1] ++ rest)%list)
       /\ (1 <= max_retries self ->
           (fn (store wb)).1 = None ->
           exists w' notes,
             execute_step env self sid fn desc true action_type md w
               = (Ok (true, None), w')
             /\ fs (store w') = fs (fn (store wb)).2
             /\ clock (store w') = clock (fn (store wb)).2
             /\ trace w'
                = (trace w ++
                   [TMark sid Step.in_progress ("Starting execution: " +:+ desc);
                    TCall None;
                    TMark sid Step.completed notes])%list).
Proof.
  intros Hat.
  assert (Hskip : forall rrc, rrc && truthy_str action_type = false).
  { intros rrc. destruct Hat as [-> | ->]; destruct rrc; reflexivity. }
  destruct (begin_step_spec sid desc w) as (wb & Hb & Htb & Hfs & Hcl & Hlog).
  pose proof (execute_step_unfold env self sid fn desc true action_type md w wb wb Hb
                (risk_gate_skipped _ _ _ _ _ _ _ _ _ (Hskip true))) as Ht.
  pose proof (execute_step_unfold env self sid fn desc false action_type md w wb wb Hb
                (risk_gate_skipped _ _ _ _ _ _ _ _ _ (Hskip false))) as Hf.
  split; [congruence|].
  assert (Hcall : call fn wb
                  = (Ok (fn (store wb)).1,
                     mkWorld (fn (store wb)).2 (trace wb ++ [TCall (fn (store wb)).1]))).
  { unfold call. now destruct (fn (store wb)). }
  exists wb. repeat split; try assumption.
  - intros Hmax. rewrite Ht.
    destruct (Z.to_nat (max_retries self)) as [|n] eqn:Hn; [lia|].
    destruct (retry_loop env self sid fn desc (clock (store w)) (S n) 1 wb) as [r w'] eqn:Hr.
    exists r, w'.
    cbn [retry_loop] in Hr.
    assert (Hext : exists rest,
               trace w' = ((trace wb ++ [TCall (fn (store wb)).1]) ++ rest)%list).
    { rewrite (bind_ok _ _ _ _ _ Hcall) in Hr. rewrite bind_gets in Hr.
      destruct ((fn (store wb)).1) as [e|].
      - destruct (1 <? max_retries self).
        + rewrite bind_modify in Hr.
          match type of Hr with context [(PlanGenerator.update_step_status ?a ?b ?c ≫= _) ?w0] =>
            destruct (update_step_status_spec a b c w0) as (w2 & Hu & Ht2 & _) end.
          rewrite (bind_ok _ _ _ _ _ Hu) in Hr.
          unfold sleep at 1 in Hr.
          destruct (_ <? 0).
          { inversion Hr; subst. eexists. rewrite Ht2. reflexivity. }
          rewrite <- bind_assoc_run in Hr.
          change (record ?t ≫= ?k)
            with (fun w0 => k tt (mkWorld (store w0) (trace w0 ++ [t]))) in Hr.
          cbv beta in Hr. rewrite bind_modify in Hr.
          apply retry_loop_extends in Hr as [new Hnew]. eexists. rewrite Hnew.
          cbn [trace]. rewrite Ht2. cbn [trace]. rewrite <- !app_assoc. reflexivity.
        + rewrite bind_modify in Hr.
          match type of Hr with context [(PlanGenerator.update_step_status ?a ?b ?c ≫= _) ?w0] =>
            destruct (update_step_status_spec a b c w0) as (w2 & Hu & Ht2 & _) end.
          rewrite (bind_ok _ _ _ _ _ Hu) in Hr. inversion Hr; subst.
          eexists. rewrite Ht2. reflexivity.
      - rewrite bind_modify in Hr.
        match type of Hr with context [(PlanGenerator.update_step_status ?a ?b ?c ≫= _) ?w0] =>
          destruct (update_step_status_spec a b c w0) as (w2 & Hu & Ht2 & _) end.
        rewrite (bind_ok _ _ _ _ _ Hu) in Hr. inversion Hr; subst.
        eexists. rewrite Ht2. reflexivity. }
    destruct Hext as [rest Hrest]. exists rest. split; [reflexivity|].
    rewrite Hrest, Htb, <- !app_assoc. reflexivity.
  - intros Hmax Hnone. rewrite Ht.
    destruct (Z.to_nat (max_retries self)) as [|n] eqn:Hn; [lia|].
    cbn [retry_loop]. rewrite (bind_ok _ _ _ _ _ Hcall), bind_gets.
    rewrite Hnone. rewrite bind_modify.
    match goal with |- context [(PlanGenerator.update_step_status ?a ?b ?c ≫= _) ?w0] =>
      destruct (update_step_status_spec a b c w0) as (w2 & Hu & Ht2 & Hf2 & Hc2 & _);
      rewrite (bind_ok _ _ _ _ _ Hu) end.
    exists w2. eexists. split; [reflexivity|].
    split; [rewrite Hf2; reflexivity|]. split; [rewrite Hc2; reflexivity|].
    rewrite Ht2. cbn [trace]. rewrite Htb, <- !app_assoc. reflexivity.
Qed.

(** C10 on a step whose description names a deletion and a payment, with
    no action type given; the action files a receipt in Done. *)
Lemma execute_step_without_action_type_witness :
  let w := mkWorld (mkStore 1000 ∅ None []) [] in
  let files_receipt : StepFn :=
    fun s => (None, set_fs (<[(Done, "receipt.md") := mkFile Unreadable (clock s)]> (fs s)) s) in
  execute_step quiet_env default_executor "step_1" files_receipt
               "Delete the customer archive and pay the invoice" true None ∅ w
    = execute_step quiet_env default_executor "step_1" files_receipt
                   "Delete the customer archive and pay the invoice" false None ∅ w
  /\ exists w' notes,
       execute_step quiet_env default_executor "step_1" files_receipt
                    "Delete the customer archive and pay the invoice" true None ∅ w
         = (Ok (true, None), w')
       /\ fs (store w') !! (Done, "receipt.md") = Some (mkFile Unreadable 1000)
       /\ trace w'
          = (trace w ++
             [TMark "step_1" Step.in_progress
                    "Starting execution: Delete the customer archive and pay the invoice";
              TCall None;
              TMark "step_1" Step.completed notes])%list.
Proof.
  intros w fn.
  destruct (execute_step_without_action_type quiet_env default_executor "step_1"
              fn "Delete the customer archive and pay the invoice"
              None ∅ w (or_introl eq_refl))
    as (Heq & wb & Hb & Hfs & Hcl & _ & _ & _ & Hdone).
  split; [exact Heq|].
  destruct (Hdone ltac:(vm_compute; discriminate) eq_refl) as (w' & notes & Hr & Hf & _ & Ht).
  exists w', notes. split; [exact Hr|]. split; [|exact Ht].
  rewrite Hf. subst fn. cbn [snd fs set_fs]. rewrite Hcl. apply lookup_insert_eq.
Defined.

End Executor.

(** ** The orchestrator *)

Section Cycle.
Import OrchestratorM.

(** [create_escalation_task] itself writes one artifact into the active
    directory, quoting the event id and the error. *)
Lemma create_escalation_task_writes_one (env : Env) (self : StepExecutor)
    (sid desc error : string) (event_id : option string) (w : World) :
  exists w',
    StepExecutorPlan.create_escalation_task env self sid desc error event_id w
      = (Ok (Needs_Action, "escalation_" +:+ strftime env (clock (store w)) +:+ ".md"), w')
    /\ fs (store w')
       = <[(Needs_Action, "escalation_" +:+ strftime env (clock (store w)) +:+ ".md")
             := mkFile (EscalationDoc (default "Unknown" event_id) sid desc error)
                       (clock (store w))]> (fs (store w)).
Proof.
  unfold StepExecutorPlan.create_escalation_task. rewrite bind_gets, bind_modify, bind_modify.
  eexists. split; reflexivity.
Qed.

(** C2 on the code: a standalone step that exhausts its three attempts
    ends as a logged failure and leaves no escalation artifact; so does an
    event whose direct (non-plan) handling fails in the orchestrator, which
    is logged and moved to Done. Nothing calls [create_escalation_task]. *)
Lemma exhausted_retries_leave_no_escalation :
  let w := mkWorld (mkStore 1000 ∅ None []) [] in
  let r := StepExecutorM.execute_step quiet_env default_executor "step_1"
             (always_raises "boom") "Publish the report" false None ∅ w in
  let name := "20240101_100000_gmail_abc123.json" in
  let event := mkEvent (Some "20240101_100000_gmail_abc123")
                       (Some "20240101_100000_gmail_abc123") (Some "gmail")
                       (Some "new_email") (Some (CText "hello there")) ∅ in
  let q := mkWorld (mkStore 1000 (<[(Needs_Action, name) := mkFile (EventJson event) 900]> ∅)
                            None []) [] in
  let c := _process_event_queue quiet_env (mkOrchestrator true default_executor) 20 q in
  (r.1 = Ok (false, Some "boom")
   /\ length (calls (trace r.2)) = 3%nat
   /\ escalations (store r.2) = []
   /\ fs (store r.2) = ∅)
  /\ (c.1 = Ok 0
      /\ In "task_failed" (List.map log_action (log (store c.2)))
      /\ escalations (store c.2) = []
      /\ dom (fs (store c.2)) = {[ (Done, name) ]}).
Proof.
  cbv zeta. split.
  - vm_compute. repeat split.
  - split; [vm_compute; reflexivity|].
    split; [vm_compute; tauto|].
    split; [vm_compute; reflexivity|].
    apply set_eq. intros k. rewrite elem_of_dom, elem_of_singleton.
    split.
    + intros [f Hf]. apply elem_of_map_to_list in Hf.
      revert Hf. vm_compute. intros Hf. apply list_elem_of_In in Hf.
      destruct Hf as [Hf|[]]. now inversion Hf.
    + intros ->. vm_compute. eauto.
Qed.

(** C3 on the code: an event that is popped and processed can stay in
    Needs_Action. Here a sales enquiry without the key [id] is planned and
    completed, and one with the key is blocked waiting for approval; each
    is popped and processed ten times in the cycle and its file is still in
    the active queue at the end, in neither Done nor Pending_Approval. An
    event whose analysis raises is moved to Done by the handler. *)
Lemma processed_event_stays_in_queue :
  let name := "20240101_100000_gmail_abc123.json" in
  let queue_of event :=
    mkWorld (mkStore 1000 (<[(Needs_Action, name) := mkFile (EventJson event) 900]> ∅)
                     None []) [] in
  let cycle event :=
    _process_event_queue quiet_env (mkOrchestrator true default_executor) 20
                         (queue_of event) in
  let completed_event :=
    mkEvent None (Some "20240101_100000_gmail_abc123") (Some "gmail")
            (Some "new_email") (Some (CText "Could you share your pricing?")) ∅ in
  let blocked_event :=
    mkEvent (Some "20240101_100000_gmail_abc123") (Some "20240101_100000_gmail_abc123")
            (Some "gmail") (Some "new_message")
            (Some (CText "Could you share your pricing?")) ∅ in
  let raising_event :=
    mkEvent None (Some "20240101_100000_gmail_abc123") (Some "gmail")
            (Some "new_email") (Some (CFields "Hi" "pricing?" "a@b.c" "me")) ∅ in
  ((cycle completed_event).1 = Ok 10
   /\ fs (store (cycle completed_event).2) !! (Needs_Action, name)
      = Some (mkFile (EventJson completed_event) 900)
   /\ fs (store (cycle completed_event).2) !! (Done, name) = None
   /\ fs (store (cycle completed_event).2) !! (Pending_Approval, name) = None)
  /\ ((cycle blocked_event).1 = Ok 10
      /\ fs (store (cycle blocked_event).2) !! (Needs_Action, name)
         = Some (mkFile (EventJson blocked_event) 900)
      /\ fs (store (cycle blocked_event).2) !! (Done, name) = None
      /\ fs (store (cycle blocked_event).2) !! (Pending_Approval, name) = None)
  /\ ((cycle raising_event).1 = Ok 0
      /\ fs (store (cycle raising_event).2) !! (Needs_Action, name) = None
      /\ fs (store (cycle raising_event).2) !! (Done, name)
         = Some (mkFile (EventJson raising_event) 900)).
Proof.
  cbv zeta. repeat split; vm_compute; reflexivity.
Qed.

End Cycle.

(** ** More on the risk classifier *)

Section ClassifierMore.
Import RiskClassifier.

Lemma filter_nil_existsb {A} (f : A -> bool) (l : list A) :
  List.filter f l = [] <-> existsb f l = false.
Proof.
  induction l as [|x l IH]; simpl; [tauto|].
  destruct (f x); simpl; [split; discriminate|exact IH].
Qed.

(** The payment rules on a number: a level, or nothing; never an
    exception. *)
Lemma payment_rules_number (metadata : gmap string PyVal) :
  match default (VInt 0) (metadata !! "amount") with
  | VInt _ | VBool _ | VFloat _ _ => True
  | VNone | VStr _ | VOther _ _ _ => False
  end ->
  exists r, payment_rules metadata = Ok r.
Proof.
  unfold payment_rules.
  destruct (default (VInt 0) (metadata !! "amount")) as [|b|z|f r|s|tn t r];
    cbn [py_gt]; intros H; try contradiction;
    repeat match goal with
           | |- context [if ?c then _ else _] => destruct c
           end; eauto.
Qed.

(** [classify] raises exactly for a payment without high-risk keyword
    whose [amount] is not a number: the comparison of [None], of a string,
    of a list or of a dictionary with the threshold is a TypeError, while an
    integer, a boolean and a float are compared. In every other case it
    returns a level. *)
Theorem classify_raises_iff (action_type content : string)
    (metadata : gmap string PyVal) :
  ((exists e, classify action_type content metadata = Raise e)
   <-> action_type = "payment"
       /\ contains_any HIGH_RISK_KEYWORDS (lower content) = false
       /\ match default (VInt 0) (metadata !! "amount") with
          | VInt _ | VBool _ | VFloat _ _ => False
          | VNone | VStr _ | VOther _ _ _ => True
          end)
  /\ (forall e, classify action_type content metadata = Raise e ->
                exc_type e = "TypeError")
  /\ ((exists e, classify action_type content metadata = Raise e)
      \/ exists level reason, classify action_type content metadata = Ok (level, reason)).
Proof.
  unfold classify.
  destruct (first_keyword HIGH_RISK_KEYWORDS (lower content)) as [k|] eqn:E.
  - apply first_keyword_Some in E. split; [|split].
    + split; [intros [e He]; discriminate | intros (_ & Hh & _); congruence].
    + intros e He. discriminate.
    + right. eauto.
  - apply first_keyword_None in E.
    destruct (String.eqb_spec action_type "payment") as [->|Hne].
    + destruct (default (VInt 0) (metadata !! "amount")) as [|b|z|f r|s|tn t r] eqn:Ha.
      1,5,6: (unfold payment_rules; rewrite Ha; cbn [py_gt];
              split; [split; [auto | eauto]
                     | split; [intros e [= <-]; reflexivity | left; eauto]]).
      all: (destruct (payment_rules_number metadata) as [[[l reason]|] Hr];
            [rewrite Ha; exact I | |];
            rewrite Hr;
            (split; [split; [intros [e He]; discriminate | intros (_ & _ & [])]
                    | split; [intros e He; discriminate | right]]);
            [eauto | destruct (later_rules "payment" (lower content) metadata); eauto]).
    + split; [|split].
      * split; [intros [e He]; discriminate | intros (Hp & _); contradiction].
      * intros e He. discriminate.
      * right. destruct (later_rules _ _ _); eauto.
Qed.

(** A social-media post is never classified low, whatever its content and
    metadata: it always requires approval. *)
Theorem social_media_never_low (action_type content : string)
    (metadata : gmap string PyVal) :
  action_type ∈ ["linkedin_post"; "twitter_post"; "facebook_post"] ->
  exists level reason,
    classify action_type content metadata = Ok (level, reason)
    /\ requires_approval level = true.
Proof.
  intros Hat.
  assert (Hnp : String.eqb action_type "payment" = false).
  { repeat (apply elem_of_cons in Hat as [->|Hat]; [reflexivity|]). inversion Hat. }
  unfold classify. rewrite Hnp.
  destruct (first_keyword HIGH_RISK_KEYWORDS (lower content)); [eauto|].
  unfold later_rules.
  destruct (first_keyword MEDIUM_RISK_KEYWORDS (lower content)); [eauto|].
  destruct (first_keyword SENSITIVE_CONTEXTS (lower content)); [eauto|].
  rewrite (bool_decide_eq_true_2 _ Hat). eauto.
Qed.

Lemma social_media_never_low_witness :
  exists level reason,
    classify "twitter_post" "Good morning" ∅ = Ok (level, reason)
    /\ requires_approval level = true.
Proof.
  apply (social_media_never_low "twitter_post" "Good morning" ∅).
  apply list_elem_of_In. simpl. tauto.
Defined.

(** An action classified low shows no risk factor: [get_risk_factors] of
    its content is empty, the lower-cased content holding none of the
    configured keywords. *)
Theorem low_risk_has_no_risk_factors (action_type content reason : string)
    (metadata : gmap string PyVal) :
  classify action_type content metadata = Ok (low, reason) ->
  get_risk_factors content = []
  /\ contains_any HIGH_RISK_KEYWORDS (lower content) = false
  /\ contains_any MEDIUM_RISK_KEYWORDS (lower content) = false
  /\ contains_any SENSITIVE_CONTEXTS (lower content) = false.
Proof.
  intros H.
  assert (Hk : contains_any HIGH_RISK_KEYWORDS (lower content) = false
               /\ contains_any MEDIUM_RISK_KEYWORDS (lower content) = false
               /\ contains_any SENSITIVE_CONTEXTS (lower content) = false).
  { unfold classify in H.
    destruct (first_keyword HIGH_RISK_KEYWORDS (lower content)) eqn:Eh; [discriminate|].
    apply first_keyword_None in Eh. split; [exact Eh|].
    assert (Hl : forall r, later_rules action_type (lower content) metadata = (low, r) ->
                 contains_any MEDIUM_RISK_KEYWORDS (lower content) = false
                 /\ contains_any SENSITIVE_CONTEXTS (lower content) = false).
    { intros r. unfold later_rules.
      destruct (first_keyword MEDIUM_RISK_KEYWORDS (lower content)) eqn:Em; [discriminate|].
      destruct (first_keyword SENSITIVE_CONTEXTS (lower content)) eqn:Es; [discriminate|].
      intros _. split; now apply first_keyword_None. }
    destruct (String.eqb action_type "payment").
    - destruct (payment_rules metadata) as [[[l r]|]|e|] eqn:Ep; try discriminate.
      + unfold payment_rules in Ep.
        destruct (py_gt _ PAYMENT_THRESHOLD_HIGH) as [[|]|?|]; try discriminate.
        * inversion Ep; subst. inversion H.
        * destruct (truthy _); [inversion Ep; subst; inversion H|].
          destruct (py_gt _ PAYMENT_THRESHOLD_MEDIUM) as [[|]|?|]; try discriminate.
          inversion Ep; subst. inversion H.
      + inversion H as [Hr]. eapply Hl. exact Hr.
    - inversion H as [Hr]. eapply Hl. exact Hr. }
  split; [|exact Hk]. destruct Hk as (Hh & Hm & Hs).
  unfold get_risk_factors. unfold contains_any in *.
  apply filter_nil_existsb in Hh, Hm, Hs. now rewrite Hh, Hm, Hs.
Qed.

Lemma low_risk_has_no_risk_factors_witness :
  get_risk_factors "Tidy the desk" = []
  /\ contains_any HIGH_RISK_KEYWORDS (lower "Tidy the desk") = false
  /\ contains_any MEDIUM_RISK_KEYWORDS (lower "Tidy the desk") = false
  /\ contains_any SENSITIVE_CONTEXTS (lower "Tidy the desk") = false.
Proof.
  apply (low_risk_has_no_risk_factors "other" "Tidy the desk"
           "No risk indicators detected" ∅).
  reflexivity.
Defined.

End ClassifierMore.

(** ** More on the task analyzer *)

Section AnalyzerMore.
Import TaskAnalyzer.

(** What [analyze_event] returns on textual (or absent) content, and what
    it does to the world: one log entry. *)
Lemma analyze_event_text (event : Event) (w : World) (text : string) :
  content_lower event = Ok text ->
  exists analysis entry,
    analyze_event event w
      = (Ok analysis, mkWorld (add_log entry (store w)) (trace w))
    /\ category analysis = _classify_category text (ev_metadata event)
    /\ priority analysis
       = _classify_priority text (ev_metadata event) (category analysis)
    /\ complexity analysis
       = _classify_complexity text (ev_metadata event) (category analysis)
                              (priority analysis)
    /\ requires_plan analysis
       = bool_decide (complexity analysis ∈ [Complexity.complex; Complexity.critical])
    /\ suggested_actions analysis
       = _generate_suggested_actions (default "unknown" (ev_source event))
           (default "unknown" (ev_type event)) (category analysis)
           (complexity analysis) (ev_metadata event)
    /\ estimated_steps analysis
       = _estimate_steps (complexity analysis) (category analysis)
                         (Z.of_nat (length (suggested_actions analysis))).
Proof.
  intros Hc. unfold analyze_event. rewrite Hc.
  eexists. eexists. split; [reflexivity|]. cbn. repeat split.
Qed.

Lemma analyze_event_ok_text (event : Event) (w w' : World) (analysis : Analysis) :
  analyze_event event w = (Ok analysis, w') ->
  exists text, content_lower event = Ok text.
Proof.
  unfold analyze_event. destruct (content_lower event) as [text|e|] eqn:Hc.
  - eauto.
  - discriminate.
  - discriminate.
Qed.

(** An urgent keyword overrides the category: whatever else the text
    holds, the priority is urgent, the complexity critical and a plan is
    required. *)
Theorem urgent_keyword_overrides_category (event : Event) (text : string) (w : World) :
  ev_content event = Some (CText text) ->
  contains_any urgent_keywords (lower text) = true ->
  exists analysis w',
    analyze_event event w = (Ok analysis, w')
    /\ priority analysis = Priority.urgent
    /\ complexity analysis = Complexity.critical
    /\ requires_plan analysis = true.
Proof.
  intros Hc Hu.
  destruct (analyze_event_text event w (lower text)) as (a & entry & Hr & Hcat & Hp & Hx & Hq & _).
  { unfold content_lower. now rewrite Hc. }
  exists a. eexists. split; [exact Hr|].
  assert (Hp' : priority a = Priority.urgent).
  { rewrite Hp. unfold _classify_priority. now rewrite Hu. }
  assert (Hx' : complexity a = Complexity.critical).
  { rewrite Hx, Hp'. reflexivity. }
  split; [exact Hp'|]. split; [exact Hx'|]. rewrite Hq, Hx'. reflexivity.
Qed.

Lemma urgent_keyword_overrides_category_witness :
  exists analysis w',
    analyze_event
      (mkEvent None None (Some "gmail") (Some "new_message")
               (Some (CText "Weekly report, needed ASAP")) ∅)
      (mkWorld (mkStore 0 ∅ None []) []) = (Ok analysis, w')
    /\ priority analysis = Priority.urgent
    /\ complexity analysis = Complexity.critical
    /\ requires_plan analysis = true.
Proof.
  apply (urgent_keyword_overrides_category _ "Weekly report, needed ASAP");
    reflexivity.
Defined.

Lemma suggested_actions_length (src ety : string) (c : Category.t) (x : Complexity.t)
    (md : gmap string PyVal) :
  (4 <= length (_generate_suggested_actions src ety c x md) <= 6)%nat.
Proof.
  unfold _generate_suggested_actions.
  destruct (_ && _); [destruct c; simpl; lia|].
  destruct (_ && _); [destruct c; simpl; lia|].
  destruct (_ && _); destruct c; simpl; lia.
Qed.

(** Every analysis that [analyze_event] returns suggests between four
    and six actions (so the first one, which the direct path executes,
    always exists), estimates at least as many steps as it suggests
    actions, asks for a plan exactly when the complexity is complex or
    critical, and has touched nothing but the log, which gained one entry. *)
Theorem analysis_is_well_formed (event : Event) (w w' : World) (analysis : Analysis) :
  analyze_event event w = (Ok analysis, w') ->
  (4 <= length (suggested_actions analysis) <= 6)%nat
  /\ Z.of_nat (length (suggested_actions analysis)) <= estimated_steps analysis
  /\ (requires_plan analysis = true
      <-> complexity analysis = Complexity.complex
          \/ complexity analysis = Complexity.critical)
  /\ (priority analysis = Priority.urgent <-> complexity analysis = Complexity.critical)
  /\ fs (store w') = fs (store w)
  /\ plan (store w') = plan (store w)
  /\ clock (store w') = clock (store w)
  /\ trace w' = trace w
  /\ exists entry, log (store w') = (log (store w) ++ [entry])%list.
Proof.
  intros H. destruct (analyze_event_ok_text _ _ _ _ H) as [text Ht].
  destruct (analyze_event_text event w text Ht)
    as (a & entry & Hr & Hcat & Hp & Hx & Hq & Hs & He).
  rewrite Hr in H. inversion H; subst a w'. clear H.
  split. { rewrite Hs. apply suggested_actions_length. }
  split. { rewrite He. unfold _estimate_steps. cbv zeta. apply Z.le_max_r. }
  split.
  { rewrite Hq. destruct (complexity analysis); cbn; split; intros Hh;
      try discriminate; auto; destruct Hh; discriminate. }
  split.
  { rewrite Hx. unfold _classify_complexity.
    destruct (priority analysis);
      [rewrite bool_decide_eq_false_2 by discriminate
      |rewrite bool_decide_eq_false_2 by discriminate
      |rewrite bool_decide_eq_false_2 by discriminate
      |rewrite bool_decide_eq_true_2 by reflexivity];
      destruct (category analysis);
      repeat match goal with |- context [if ?b then _ else _] => destruct b end;
      split; intros Hh; try discriminate; reflexivity. }
  cbn. repeat split. eauto.
Qed.

Lemma analysis_is_well_formed_witness :
  let event := mkEvent None None (Some "linkedin") (Some "connection_request")
                       (Some (CText "I need help with my account")) ∅ in
  let w := mkWorld (mkStore 0 ∅ None []) [] in
  exists analysis w',
    analyze_event event w = (Ok analysis, w')
    /\ length (suggested_actions analysis) = 6%nat
    /\ (4 <= length (suggested_actions analysis) <= 6)%nat
    /\ Z.of_nat (length (suggested_actions analysis)) <= estimated_steps analysis
    /\ fs (store w') = fs (store w).
Proof.
  cbv zeta.
  match goal with |- context [analyze_event ?e ?w0] =>
    assert (H : exists a w', analyze_event e w0 = (Ok a, w')) by (vm_compute; eauto) end.
  destruct H as (a & w' & H). exists a, w'.
  pose proof (analysis_is_well_formed _ _ _ _ H) as (Hl & He & _ & _ & Hf & _).
  split; [exact H|]. split; [|split; [exact Hl|split; [exact He|exact Hf]]].
  vm_compute in H. inversion H. reflexivity.
Defined.

(** [should_create_plan] answers no only for a general, simple event
    without a source-specific first action (four suggested actions);
    whenever [analyze_event] asks for a plan it answers yes, and it also
    answers yes for every short support or routine event, for which
    [requires_plan] is false. *)
Theorem should_create_plan_false_iff (event : Event) (text : string) (w : World) :
  content_lower event = Ok text ->
  exists analysis w' answer reason,
    analyze_event event w = (Ok analysis, w')
    /\ should_create_plan event w = (Ok (answer, reason), w')
    /\ (answer = false
        <-> category analysis = Category.general
            /\ complexity analysis = Complexity.simple
            /\ length (suggested_actions analysis) = 4%nat)
    /\ (requires_plan analysis = true -> answer = true)
    /\ (category analysis = Category.support \/ category analysis = Category.routine ->
        answer = true).
Proof.
  intros Ht.
  destruct (analyze_event_text event w text Ht)
    as (a & entry & Hr & Hcat & Hp & Hx & Hq & Hs & He).
  exists a. eexists.
  unfold should_create_plan. rewrite (bind_ok _ _ _ _ _ Hr).
  pose proof (suggested_actions_length (default "unknown" (ev_source event))
                (default "unknown" (ev_type event)) (category a) (complexity a)
                (ev_metadata event)) as Hlen.
  rewrite <- Hs in Hlen.
  assert (Hsx : category a = Category.sales \/ category a = Category.complaint ->
                complexity a = Complexity.complex \/ complexity a = Complexity.critical).
  { rewrite Hx. unfold _classify_complexity.
    destruct (bool_decide (priority a = Priority.urgent)); [auto|].
    intros [Hc | Hc]; rewrite Hc; left; reflexivity. }
  assert (Hsup : category a = Category.support \/ category a = Category.routine ->
                 5 <= estimated_steps a).
  { intros Hc. rewrite He. unfold _estimate_steps.
    assert (5 <= length (suggested_actions a))%nat;
      [|cbv zeta; apply Z.max_le_iff; right; lia].
    rewrite Hs. unfold _generate_suggested_actions.
    destruct Hc as [-> | ->];
      repeat match goal with |- context [if ?b then _ else _] => destruct b end;
      simpl; lia. }
  assert (Hgen : category a = Category.general -> complexity a = Complexity.simple ->
                 estimated_steps a = Z.of_nat (length (suggested_actions a))).
  { intros Hc Hsimple. rewrite He, Hc, Hsimple. unfold _estimate_steps.
    rewrite bool_decide_eq_false_2
      by (intros Hin; repeat (apply elem_of_cons in Hin as [?|Hin]; [discriminate|]);
          inversion Hin).
    cbv zeta. lia. }
  rewrite Hq.
  destruct (complexity a) eqn:Ecx; cbn [bool_decide decide_rel].
  - (* simple *)
    rewrite !bool_decide_eq_false_2 by discriminate.
    destruct (category a) eqn:Ecat.
    + destruct (Hsx (or_introl eq_refl)); discriminate.
    + rewrite bool_decide_eq_false_2
        by (intros Hin; repeat (apply elem_of_cons in Hin as [?|Hin]; [discriminate|]);
            inversion Hin).
      assert (E : (4 <? estimated_steps a) = true) by (apply Z.ltb_lt; specialize (Hsup (or_introl eq_refl)); lia).
      rewrite E. do 2 eexists. split; [exact Hr|]. split; [reflexivity|].
      split; [split; [discriminate | intros (Hc & _); congruence]|].
      split; [|reflexivity]. intros Hrp.
      apply bool_decide_eq_true in Hrp.
      repeat (apply elem_of_cons in Hrp as [?|Hrp]; [discriminate|]). inversion Hrp.
    + destruct (Hsx (or_intror eq_refl)); discriminate.
    + rewrite bool_decide_eq_false_2
        by (intros Hin; repeat (apply elem_of_cons in Hin as [?|Hin]; [discriminate|]);
            inversion Hin).
      rewrite (Hgen eq_refl eq_refl).
      destruct (4 <? Z.of_nat (length (suggested_actions a))) eqn:E.
      * apply Z.ltb_lt in E. do 2 eexists. split; [exact Hr|]. split; [reflexivity|].
        split; [split; [discriminate | intros (_ & _ & Hl); lia]|].
        split; [|intros [?|?]; discriminate]. auto.
      * apply Z.ltb_ge in E. do 2 eexists. split; [exact Hr|]. split; [reflexivity|].
        split; [split; [intros _; repeat split; lia | reflexivity]|].
        split; [|intros [?|?]; discriminate]. intros Hrp.
        apply bool_decide_eq_true in Hrp.
        repeat (apply elem_of_cons in Hrp as [?|Hrp]; [discriminate|]). inversion Hrp.
    + rewrite bool_decide_eq_false_2
        by (intros Hin; repeat (apply elem_of_cons in Hin as [?|Hin]; [discriminate|]);
            inversion Hin).
      assert (E : (4 <? estimated_steps a) = true) by (apply Z.ltb_lt; specialize (Hsup (or_intror eq_refl)); lia).
      rewrite E. do 2 eexists. split; [exact Hr|]. split; [reflexivity|].
      split; [split; [discriminate | intros (Hc & _); congruence]|].
      split; [|reflexivity]. intros Hrp.
      apply bool_decide_eq_true in Hrp.
      repeat (apply elem_of_cons in Hrp as [?|Hrp]; [discriminate|]). inversion Hrp.
  - (* complex *)
    rewrite bool_decide_eq_false_2 by discriminate.
    rewrite bool_decide_eq_true_2 by reflexivity.
    do 2 eexists. split; [exact Hr|]. split; [reflexivity|].
    split; [split; [discriminate | intros (_ & Hc & _); congruence]|]. auto.
  - (* routine *)
    rewrite !bool_decide_eq_false_2 by discriminate.
    assert (Hcat' : category a = Category.routine).
    { unfold _classify_complexity in Hx.
      destruct (bool_decide (priority a = Priority.urgent)); [discriminate|].
      destruct (category a); try discriminate; try reflexivity;
        match type of Hx with context [if ?b then _ else _] => destruct b end;
        discriminate. }
    rewrite Hcat'.
    rewrite bool_decide_eq_false_2
      by (intros Hin; repeat (apply elem_of_cons in Hin as [?|Hin]; [discriminate|]);
          inversion Hin).
    assert (E : (4 <? estimated_steps a) = true) by (apply Z.ltb_lt; specialize (Hsup (or_intror Hcat')); lia).
    rewrite E. do 2 eexists. split; [exact Hr|]. split; [reflexivity|].
    split; [split; [discriminate | intros (Hc & _); congruence]|].
    split; [|reflexivity]. intros Hrp.
    apply bool_decide_eq_true in Hrp.
    repeat (apply elem_of_cons in Hrp as [?|Hrp]; [discriminate|]). inversion Hrp.
  - (* critical *)
    rewrite bool_decide_eq_true_2 by reflexivity.
    do 2 eexists. split; [exact Hr|]. split; [reflexivity|].
    split; [split; [discriminate | intros (_ & Hc & _); congruence]|]. auto.
Qed.

Lemma should_create_plan_false_iff_witness :
  let event := mkEvent None None (Some "gmail") (Some "new_email")
                       (Some (CText "I need help with my account")) ∅ in
  let w := mkWorld (mkStore 0 ∅ None []) [] in
  exists analysis w' reason,
    analyze_event event w = (Ok analysis, w')
    /\ requires_plan analysis = false
    /\ should_create_plan event w = (Ok (true, reason), w').
Proof.
  cbv zeta.
  destruct (should_create_plan_false_iff
              (mkEvent None None (Some "gmail") (Some "new_email")
                       (Some (CText "I need help with my account")) ∅)
              (lower "I need help with my account")
              (mkWorld (mkStore 0 ∅ None []) []) eq_refl)
    as (a & w' & answer & reason & Ha & Hs & _ & _ & Hsup).
  exists a, w', reason. split; [exact Ha|].
  vm_compute in Ha. inversion Ha; subst a w'.
  split; [reflexivity|]. rewrite Hs. rewrite (Hsup (or_introl eq_refl)). reflexivity.
Defined.

End AnalyzerMore.

(** ** More on the event queue *)

Section QueueMore.
Import EventQueue.

Lemma NoDup_list_filter {A} (f : A -> bool) (l : list A) :
  NoDup l -> NoDup (List.filter f l).
Proof.
  induction 1 as [|x l Hx Hl IH]; simpl; [constructor|].
  destruct (f x); [|exact IH].
  constructor; [|exact IH].
  intros Hin. apply Hx. apply list_elem_of_In in Hin. apply filter_In in Hin as [Hin _].
  now apply list_elem_of_In.
Qed.

Lemma NoDup_glob (d : Dir) (suffix : string) (f : gmap (Dir * string) File) :
  NoDup (glob d suffix f).
Proof.
  unfold glob. apply NoDup_list_filter.
  pose proof (NoDup_fst_map_to_list f) as Hnd.
  induction (map_to_list f) as [|[[d' n] file] l IH]; cbn; [constructor|].
  apply NoDup_cons in Hnd as [Hnotin Hnd].
  destruct (bool_decide (d' = d)) eqn:Hd; [|now apply IH].
  apply bool_decide_eq_true in Hd. subst d'.
  apply NoDup_cons. split; [|now apply IH].
  intros Hin. apply list_elem_of_omap in Hin as ([[d2 n2] file2] & Hin & Hg).
  simpl in Hg. destruct (bool_decide (d2 = d)) eqn:Hd2; [|discriminate].
  apply bool_decide_eq_true in Hd2. inversion Hg; subst.
  apply Hnotin. apply list_elem_of_fmap. exists ((d, n), file2). auto.
Qed.

(** Taking one name out of the listing shortens it by one. *)
Lemma glob_remove_one (d : Dir) (suffix name : string)
    (f f' : gmap (Dir * string) File) :
  name ∈ glob d suffix f ->
  (forall n, n ∈ glob d suffix f' <-> n ∈ glob d suffix f /\ n <> name) ->
  length (glob d suffix f) = S (length (glob d suffix f')).
Proof.
  intros Hin Hiff.
  assert (Hperm : glob d suffix f ≡ₚ name :: glob d suffix f').
  { apply NoDup_Permutation.
    - apply NoDup_glob.
    - apply NoDup_cons. split; [|apply NoDup_glob].
      intros H. apply Hiff in H as [_ H]. now apply H.
    - intros n. rewrite elem_of_cons, Hiff.
      destruct (decide (n = name)) as [->|Hne]; [tauto|]. tauto. }
  now rewrite Hperm.
Qed.

(** A file under the least [.json] name that does not hold an event
    stalls the queue. When it is not valid JSON, [pop] and [peek] return
    nothing although readable events wait behind it, and the orchestrator's
    cycle processes no event and leaves the world as it found it. When it
    is valid JSON but not an object, [pop] returns the value, and the cycle
    ends with the AttributeError that the exception handler itself runs
    into, before anything is logged or moved: the world is again as it was
    found. *)
Theorem unreadable_head_stalls_queue (env : Env) (self : Orchestrator) (fuel : nat)
    (s : Store) (t : list TraceItem) (name : string) (f : File) :
  fs s !! (Needs_Action, name) = Some f ->
  ends_with ".json" name = true ->
  (forall n, is_Some (fs s !! (Needs_Action, n)) -> ends_with ".json" n = true ->
             str_le name n) ->
  ((forall event, body f <> EventJson event) ->
   (forall type, body f <> OtherJson type) ->
   pop s = None
   /\ peek s = None
   /\ OrchestratorM._process_event_queue env self (S fuel) (mkWorld s t)
      = (Ok 0, mkWorld s t))
  /\ (forall type,
        body f = OtherJson type ->
        pop s = Some (JOther type, (Needs_Action, name))
        /\ peek s = Some (JOther type)
        /\ OrchestratorM._process_event_queue env self (S fuel) (mkWorld s t)
           = (Raise (mkExc "AttributeError"
                       ("'" +:+ JsonType.name type +:+ "' object has no attribute 'get'")),
              mkWorld s t)).
Proof.
  intros Hf He Hmin.
  assert (Hpop : pop s = match json_load f with
                         | Some event => Some (event, (Needs_Action, name))
                         | None => None
                         end).
  { unfold pop, queue_dir.
    destruct (sorted_head (glob Needs_Action ".json" (fs s)) name) as [rest Hs].
    - apply elem_of_glob. eauto.
    - intros n Hn. apply elem_of_glob in Hn as [? ?]. eauto.
    - rewrite Hs, Hf. reflexivity. }
  split.
  - intros Hev Hother.
    assert (Hload : json_load f = None).
    { unfold json_load. destruct (body f) as [ev|ty| | |] eqn:Hb; try reflexivity.
      - now destruct (Hev ev).
      - now destruct (Hother ty). }
    rewrite Hload in Hpop.
    split; [exact Hpop|]. split; [unfold peek; now rewrite Hpop|].
    unfold OrchestratorM._process_event_queue. cbn [OrchestratorM.process_loop].
    change (0 <? OrchestratorM.max_events_per_cycle) with true. cbv iota.
    rewrite bind_gets. cbn [store]. now rewrite Hpop.
  - intros type Hb.
    assert (Hload : json_load f = Some (JOther type)).
    { unfold json_load. now rewrite Hb. }
    rewrite Hload in Hpop.
    split; [exact Hpop|]. split; [unfold peek; now rewrite Hpop|].
    unfold OrchestratorM._process_event_queue. cbn [OrchestratorM.process_loop].
    change (0 <? OrchestratorM.max_events_per_cycle) with true. cbv iota.
    rewrite bind_gets. cbn [store]. rewrite Hpop. reflexivity.
Qed.

Lemma unreadable_head_stalls_queue_witness :
  let good := mkEvent None (Some "20240101_100005_gmail_bbbbbb") (Some "gmail")
                      (Some "new_email") (Some (CText "hello")) ∅ in
  let queue (head : FileBody) :=
    mkStore 0 (<[(Needs_Action, "20240101_100000_gmail_aaaaaa.json") := mkFile head 0]>
                 (<[(Needs_Action, "20240101_100005_gmail_bbbbbb.json")
                      := mkFile (EventJson good) 5]> ∅)) None [] in
  (pop (queue Unreadable) = None
   /\ peek (queue Unreadable) = None
   /\ OrchestratorM._process_event_queue quiet_env (mkOrchestrator true default_executor)
        20 (mkWorld (queue Unreadable) []) = (Ok 0, mkWorld (queue Unreadable) []))
  /\ (pop (queue (OtherJson JsonType.list))
      = Some (JOther JsonType.list, (Needs_Action, "20240101_100000_gmail_aaaaaa.json"))
      /\ OrchestratorM._process_event_queue quiet_env (mkOrchestrator true default_executor)
           20 (mkWorld (queue (OtherJson JsonType.list)) [])
         = (Raise (mkExc "AttributeError" "'list' object has no attribute 'get'"),
            mkWorld (queue (OtherJson JsonType.list)) [])).
Proof.
  intros good queue.
  assert (Hleast : forall head n,
             is_Some (fs (queue head) !! (Needs_Action, n)) -> ends_with ".json" n = true ->
             str_le "20240101_100000_gmail_aaaaaa.json" n).
  { intros head n [file Hn] _. subst queue. cbn [fs] in Hn.
    destruct (decide (n = "20240101_100000_gmail_aaaaaa.json")) as [->|N1]; [reflexivity|].
    destruct (decide (n = "20240101_100005_gmail_bbbbbb.json")) as [->|N2]; [reflexivity|].
    rewrite lookup_insert_ne in Hn by congruence.
    rewrite lookup_insert_ne in Hn by congruence.
    rewrite lookup_empty in Hn. discriminate. }
  assert (Hhead : forall head,
             fs (queue head) !! (Needs_Action, "20240101_100000_gmail_aaaaaa.json")
             = Some (mkFile head 0)).
  { intros head. subst queue. cbn [fs]. apply lookup_insert_eq. }
  split.
  - apply (proj1 (unreadable_head_stalls_queue quiet_env
                    (mkOrchestrator true default_executor) 19 (queue Unreadable) []
                    "20240101_100000_gmail_aaaaaa.json" (mkFile Unreadable 0)
                    (Hhead Unreadable) eq_refl (Hleast Unreadable)));
      intros x; discriminate.
  - destruct (proj2 (unreadable_head_stalls_queue quiet_env
                       (mkOrchestrator true default_executor) 19
                       (queue (OtherJson JsonType.list)) []
                       "20240101_100000_gmail_aaaaaa.json"
                       (mkFile (OtherJson JsonType.list) 0)
                       (Hhead _) eq_refl (Hleast _)) JsonType.list eq_refl)
      as (Hp & _ & Hrun).
    split; [exact Hp|exact Hrun].
Defined.

(** [delete_event] removes exactly the named event: it answers True when
    the file was there, after which [get_event] finds nothing, the queue is
    one file shorter and every other file is untouched; it answers False,
    changing nothing, when there was no such file. *)
Theorem delete_event_removes_one (event_id : string) (w : World) :
  (forall f, fs (store w) !! (Needs_Action, event_id +:+ ".json") = Some f ->
     exists w',
       delete_event event_id w = (Ok true, w')
       /\ get_event event_id (store w') = None
       /\ S (get_queue_size (store w')) = get_queue_size (store w)
       /\ (forall p, p <> (Needs_Action, event_id +:+ ".json") ->
                     fs (store w') !! p = fs (store w) !! p))
  /\ (fs (store w) !! (Needs_Action, event_id +:+ ".json") = None ->
      delete_event event_id w = (Ok false, w)).
Proof.
  split.
  - intros f Hf. unfold delete_event, queue_dir. rewrite bind_gets.
    rewrite (exists_true _ _ _ Hf). rewrite bind_modify.
    eexists. split; [reflexivity|]. cbn [store fs set_fs].
    assert (Hdel : forall p, p <> (Needs_Action, event_id +:+ ".json") ->
              delete (Needs_Action, event_id +:+ ".json") (fs (store w)) !! p
              = fs (store w) !! p).
    { intros p Hp. now apply lookup_delete_ne. }
    split; [|split; [|exact Hdel]].
    + unfold get_event, queue_dir. cbn [fs set_fs store atomic_write]. now rewrite lookup_delete_eq.
    + unfold get_queue_size, queue_dir. cbn [fs set_fs store atomic_write]. symmetry.
      apply (glob_remove_one _ _ (event_id +:+ ".json")).
      * apply elem_of_glob. split; [eauto|apply ends_with_append].
      * intros n. rewrite !elem_of_glob.
        destruct (decide (n = event_id +:+ ".json")) as [->|Hne].
        { rewrite lookup_delete_eq. split; [intros [[? ?] _]; discriminate|tauto]. }
        rewrite lookup_delete_ne by congruence. tauto.
  - intros Hf. unfold delete_event, queue_dir. rewrite bind_gets.
    now rewrite (exists_false _ _ Hf).
Qed.

(** [move_to_done] takes exactly the given file out of the queue and puts
    it, content and modification time unchanged, under the same name in
    Done; when the file is not there it raises FileNotFoundError and changes
    nothing. *)
Theorem move_to_done_relocates (name : string) (w : World) :
  (forall f, fs (store w) !! (Needs_Action, name) = Some f ->
     exists w',
       move_to_done (Needs_Action, name) w = (Ok tt, w')
       /\ fs (store w') !! (Done, name) = Some f
       /\ fs (store w') !! (Needs_Action, name) = None
       /\ (forall n, n ∈ glob Needs_Action ".json" (fs (store w'))
                     <-> n ∈ glob Needs_Action ".json" (fs (store w)) /\ n <> name)
       /\ (ends_with ".json" name = true ->
           S (get_queue_size (store w')) = get_queue_size (store w))
       /\ log (store w') = log (store w))
  /\ (fs (store w) !! (Needs_Action, name) = None ->
      exists msg,
        move_to_done (Needs_Action, name) w = (Raise (mkExc "FileNotFoundError" msg), w)).
Proof.
  split.
  - intros f Hf. destruct w as [s t]. rewrite (move_to_done_spec s t name f Hf).
    eexists. split; [reflexivity|]. cbn [store fs set_fs log] in *.
    assert (Hiff : forall n,
              n ∈ glob Needs_Action ".json"
                    (<[(Done, name) := f]> (delete (Needs_Action, name) (fs s)))
              <-> n ∈ glob Needs_Action ".json" (fs s) /\ n <> name).
    { intros n. rewrite !elem_of_glob.
      rewrite lookup_insert_ne by congruence.
      destruct (decide (n = name)) as [->|Hne].
      - rewrite lookup_delete_eq. split; [intros [[? ?] _]; discriminate|tauto].
      - rewrite lookup_delete_ne by congruence. tauto. }
    split; [apply lookup_insert_eq|].
    split; [rewrite lookup_insert_ne by congruence; apply lookup_delete_eq|].
    split; [exact Hiff|]. split; [|reflexivity].
    intros He. unfold get_queue_size, queue_dir. cbn [fs set_fs store atomic_write]. symmetry.
    apply (glob_remove_one _ _ name); [|exact Hiff].
    apply elem_of_glob. eauto.
  - intros Hf. unfold move_to_done, rename. cbn [fst snd]. rewrite Hf. eauto.
Qed.

(** [push] refuses an event without [source] with a ValueError and writes
    nothing. Otherwise it writes one file [<event_id>.json] holding the
    event with its id, which [get_event] reads back; an id that the event
    carries is kept, a missing one is built from the timestamp, the source
    and the random suffix; every other file is untouched; and on a queue
    without other [.json] files [pop] returns the pushed event. *)
Theorem push_then_get_event (env : Env) (suffix : string) (event : Event) (w : World) :
  (ev_source event = None ->
   push env suffix event w
     = (Raise (mkExc "ValueError" "Event must contain 'source' field"), w))
  /\ (forall source, ev_source event = Some source ->
      exists event_id w',
        push env suffix event w = (Ok event_id, w')
        /\ event_id
           = default (strftime env (clock (store w)) +:+ "_" +:+ source +:+ "_" +:+ suffix)
                     (ev_event_id event)
        /\ get_event event_id (store w')
           = Some (JObject (mkEvent (ev_id event) (Some event_id) (ev_source event)
                                    (ev_type event) (ev_content event)
                                    (ev_metadata event)))
        /\ (forall p, p <> (Needs_Action, event_id +:+ ".json") ->
                      fs (store w') !! p = fs (store w) !! p)
        /\ ((forall n, is_Some (fs (store w) !! (Needs_Action, n)) ->
                       ends_with ".json" n = true -> n = event_id +:+ ".json") ->
            pop (store w')
            = Some (JObject (mkEvent (ev_id event) (Some event_id) (ev_source event)
                                     (ev_type event) (ev_content event)
                                     (ev_metadata event)),
                    (Needs_Action, event_id +:+ ".json")))).
Proof.
  split.
  - intros Hs. unfold push. now rewrite Hs.
  - intros source Hs. unfold push, queue_dir. rewrite Hs. rewrite bind_gets, bind_modify.
    eexists. eexists. split; [reflexivity|]. split; [reflexivity|].
    cbn [store fs atomic_write set_fs].
    set (event_id := default _ (ev_event_id event)).
    split; [|split].
    + unfold get_event, queue_dir. cbn [fs set_fs store atomic_write]. now rewrite lookup_insert_eq.
    + intros p Hp. now rewrite lookup_insert_ne by congruence.
    + intros Honly.
      eapply pop_least.
      * cbn [fs set_fs store atomic_write]. apply lookup_insert_eq.
      * apply ends_with_append.
      * cbn [fs set_fs store atomic_write]. intros n Hn En.
        assert (n = event_id +:+ ".json") as ->.
        { destruct (decide (n = event_id +:+ ".json")) as [->|Hne]; [reflexivity|].
          rewrite lookup_insert_ne in Hn by congruence. now apply Honly. }
        destruct (total str_le (event_id +:+ ".json") (event_id +:+ ".json")); assumption.
Qed.

Lemma push_then_get_event_witness :
  let event := mkEvent None None (Some "gmail") (Some "new_email")
                       (Some (CText "hello")) ∅ in
  let w := mkWorld (mkStore 1000 ∅ None []) [] in
  exists event_id w',
    push quiet_env "a1b2c3" event w = (Ok event_id, w')
    /\ event_id = "1000_gmail_a1b2c3"
    /\ get_event event_id (store w')
       = Some (JObject (mkEvent None (Some event_id) (Some "gmail") (Some "new_email")
                                (Some (CText "hello")) ∅))
    /\ pop (store w')
       = Some (JObject (mkEvent None (Some event_id) (Some "gmail") (Some "new_email")
                                (Some (CText "hello")) ∅),
               (Needs_Action, event_id +:+ ".json")).
Proof.
  cbv zeta.
  destruct (proj2 (push_then_get_event quiet_env "a1b2c3"
                     (mkEvent None None (Some "gmail") (Some "new_email")
                              (Some (CText "hello")) ∅)
                     (mkWorld (mkStore 1000 ∅ None []) [])) "gmail" eq_refl)
    as (event_id & w' & Hp & Hid & Hg & _ & Hpop).
  exists event_id, w'. split; [exact Hp|]. split; [rewrite Hid; reflexivity|].
  split; [exact Hg|]. apply Hpop.
  intros n [f Hn]. cbn in Hn. rewrite lookup_empty in Hn. discriminate.
Defined.

End QueueMore.

(** ** More on the approval workflow *)

Section ApprovalsMore.
Import ApprovalWorkflowM.

(** A fresh request is pending until it expires. For texts that hold
    no json fence of their own, [request_approval] writes the request into
    Pending_Approval with expiry [timeout_hours] after now, touching no
    other file; and while no file of that id sits in Approved or Rejected,
    every check made on that vault before the expiry, at the time of
    the request or later, answers pending and changes nothing. *)
Theorem request_then_check_is_pending (self : ApprovalWorkflow)
    (action_id action_type description : string) (level : RiskLevel)
    (action_data : gmap string PyVal) (w : World) :
  fence_ahead action_id action_type description action_data = false ->
  fs (store w) !! (Approved, action_id +:+ ".md") = None ->
  fs (store w) !! (Rejected, action_id +:+ ".md") = None ->
  exists w1,
    request_approval self action_id action_type description level action_data w
      = (Ok (Pending_Approval, action_id +:+ ".md"), w1)
    /\ fs (store w1) !! (Pending_Approval, action_id +:+ ".md")
       = Some (mkFile (ApprovalDoc action_id action_type level (clock (store w))
                                   (Some (clock (store w) + 3600 * timeout_hours self)))
                      (clock (store w)))
    /\ (forall p, p <> (Pending_Approval, action_id +:+ ".md") ->
                  fs (store w1) !! p = fs (store w) !! p)
    /\ clock (store w1) = clock (store w)
    /\ approval_files action_id (store w1) = [(Pending_Approval, action_id +:+ ".md")]
    /\ (forall later : World,
          fs (store later) = fs (store w1) ->
          clock (store w) <= clock (store later) ->
          clock (store later) < clock (store w) + 3600 * timeout_hours self ->
          check_approval_status self action_id later
          = (Ok (Approval.pending, Some (Pending_Approval, action_id +:+ ".md")), later)).
Proof.
  intros _ Ha Hr.
  set (file := mkFile (ApprovalDoc action_id action_type level (clock (store w))
                                   (Some (clock (store w) + 3600 * timeout_hours self)))
                      (clock (store w))).
  destruct (request_approval self action_id action_type description level action_data w)
    as [r w1] eqn:Hreq.
  unfold request_approval, pending_dir in Hreq.
  rewrite bind_gets, bind_modify, bind_modify in Hreq.
  injection Hreq as <- <-.
  cbn [store fs atomic_write set_fs Logger.info Logger.entry add_log clock] in *.
  fold file.
  match goal with |- context [mkWorld ?s (trace w)] => set (w1 := mkWorld s (trace w)) end.
  assert (Hc1 : clock (store w1) = clock (store w)) by reflexivity.
  assert (Hf1 : fs (store w1)
                = <[(Pending_Approval, action_id +:+ ".md") := file]> (fs (store w)))
    by reflexivity.
  clearbody w1.
  assert (Hp1 : fs (store w1) !! (Pending_Approval, action_id +:+ ".md") = Some file).
  { rewrite Hf1. apply lookup_insert_eq. }
  assert (Ha1 : fs (store w1) !! (Approved, action_id +:+ ".md") = None).
  { rewrite Hf1. now rewrite lookup_insert_ne by congruence. }
  assert (Hr1 : fs (store w1) !! (Rejected, action_id +:+ ".md") = None).
  { rewrite Hf1. now rewrite lookup_insert_ne by congruence. }
  exists w1. split; [reflexivity|].
  split; [exact Hp1|].
  split; [intros p Hp; rewrite Hf1; now rewrite lookup_insert_ne by congruence|].
  split; [exact Hc1|]. split.
  - unfold approval_files. cbn [List.filter].
    now rewrite (exists_true _ _ _ Hp1), (exists_false _ _ Ha1), (exists_false _ _ Hr1).
  - intros later Hfl Hfrom Hbefore.
    rewrite <- Hfl in Hp1, Ha1, Hr1.
    unfold check_approval_status, approved_dir, rejected_dir, pending_dir.
    rewrite bind_gets, (exists_false _ _ Ha1).
    rewrite bind_gets, (exists_false _ _ Hr1).
    rewrite bind_gets, Hp1. rewrite bind_gets.
    assert (He : _is_expired self file (clock (store later)) = false).
    { subst file. unfold _is_expired. cbn. apply Z.ltb_ge. lia. }
    rewrite He. reflexivity.
Qed.

Lemma request_then_check_is_pending_witness :
  let w := mkWorld (mkStore 1000 ∅ None []) [] in
  exists w1,
    request_approval (mkApprovalWorkflow 24) "email_send_1000" "email_send"
                     "Send the offer" medium ∅ w
      = (Ok (Pending_Approval, "email_send_1000.md"), w1)
    /\ fs (store w1) !! (Pending_Approval, "email_send_1000.md")
       = Some (mkFile (ApprovalDoc "email_send_1000" "email_send" medium 1000
                                   (Some 87400)) 1000)
    /\ check_approval_status (mkApprovalWorkflow 24) "email_send_1000" w1
       = (Ok (Approval.pending, Some (Pending_Approval, "email_send_1000.md")), w1)
    /\ check_approval_status (mkApprovalWorkflow 24) "email_send_1000"
         (mkWorld (set_clock 87399 (store w1)) (trace w1))
       = (Ok (Approval.pending, Some (Pending_Approval, "email_send_1000.md")),
          mkWorld (set_clock 87399 (store w1)) (trace w1)).
Proof.
  intros w.
  assert (Hfence : fence_ahead "email_send_1000" "email_send" "Send the offer" ∅ = false)
    by (vm_compute; reflexivity).
  assert (Ha : fs (store w) !! (Approved, "email_send_1000" +:+ ".md") = None)
    by (vm_compute; reflexivity).
  assert (Hr : fs (store w) !! (Rejected, "email_send_1000" +:+ ".md") = None)
    by (vm_compute; reflexivity).
  destruct (request_then_check_is_pending (mkApprovalWorkflow 24) "email_send_1000"
              "email_send" "Send the offer" medium ∅ w Hfence Ha Hr)
    as (w1 & H1 & H2 & _ & Hc & _ & Hcheck).
  exists w1. split; [exact H1|]. split; [exact H2|]. split.
  - apply Hcheck; [reflexivity | rewrite Hc; reflexivity | rewrite Hc; reflexivity].
  - apply Hcheck; [reflexivity | cbn; discriminate | cbn; reflexivity].
Defined.

(** [check_approval_status] reads the three directories in the order
    Approved, Rejected, Pending_Approval: a file in Approved wins over
    everything, not_found means no file anywhere, and the vault changes
    only when the answer is timeout (the pending file moves to Rejected);
    the check never raises. *)
Theorem check_status_reads_directories (self : ApprovalWorkflow) (action_id : string)
    (w : World) :
  exists st p w',
    check_approval_status self action_id w = (Ok (st, p), w')
    /\ (st = Approval.approved
        <-> is_Some (fs (store w) !! (Approved, action_id +:+ ".md")))
    /\ (st = Approval.rejected
        <-> fs (store w) !! (Approved, action_id +:+ ".md") = None
            /\ is_Some (fs (store w) !! (Rejected, action_id +:+ ".md")))
    /\ (st = Approval.not_found <-> approval_files action_id (store w) = [])
    /\ (st <> Approval.timeout -> fs (store w') = fs (store w))
    /\ (st = Approval.timeout ->
        exists f,
          fs (store w) !! (Pending_Approval, action_id +:+ ".md") = Some f
          /\ fs (store w')
             = <[(Rejected, action_id +:+ ".md") := f]>
                 (delete (Pending_Approval, action_id +:+ ".md") (fs (store w))))
    /\ clock (store w') = clock (store w)
    /\ plan (store w') = plan (store w).
Proof.
  unfold approval_files. cbn [List.filter].
  destruct (fs (store w) !! (Approved, action_id +:+ ".md")) as [fa|] eqn:Ha.
  { unfold check_approval_status, approved_dir.
    rewrite bind_gets, (exists_true _ _ _ Ha), bind_modify.
    do 3 eexists. split; [reflexivity|]. cbn.
    split; [split; eauto|].
    split; [split; [discriminate|intros [? _]; discriminate]|].
    split; [split; [discriminate|]|].
    { destruct (exists_ (Pending_Approval, _) _); discriminate. }
    split; [reflexivity|]. split; [discriminate|]. split; reflexivity. }
  rewrite (exists_false _ _ Ha).
  destruct (fs (store w) !! (Rejected, action_id +:+ ".md")) as [fr|] eqn:Hr.
  { destruct (check_rejected self action_id w fr Ha Hr) as (w' & Hc & Hfs & Hck & _).
    do 3 eexists. split; [exact Hc|].
    split; [split; [discriminate|intros [? ?]; discriminate]|].
    split; [split; eauto|].
    rewrite (exists_true _ _ _ Hr).
    split; [split; [discriminate|]|].
    { destruct (exists_ (Pending_Approval, _) _); discriminate. }
    split; [intros _; exact Hfs|]. split; [discriminate|]. split; [exact Hck|].
    revert Hc. unfold check_approval_status, approved_dir, rejected_dir.
    rewrite bind_gets, (exists_false _ _ Ha), bind_gets, (exists_true _ _ _ Hr), bind_modify.
    intros [= <-]. reflexivity. }
  rewrite (exists_false _ _ Hr).
  destruct (fs (store w) !! (Pending_Approval, action_id +:+ ".md")) as [fp|] eqn:Hp.
  - rewrite (exists_true _ _ _ Hp).
    destruct (_is_expired self fp (clock (store w))) eqn:He.
    + destruct (check_expired self action_id w fp Ha Hr Hp He) as (w' & Hc & Hfs & Hck & _).
      do 3 eexists. split; [exact Hc|].
      split; [split; [discriminate|intros [? ?]; discriminate]|].
      split; [split; [discriminate|intros [_ [? ?]]; discriminate]|].
      split; [split; discriminate|].
      split; [intros H; now destruct H|]. split; [eauto|]. split; [exact Hck|].
      revert Hc. unfold check_approval_status, approved_dir, rejected_dir, pending_dir.
      unfold_m. cbn [store].
      rewrite (exists_false _ _ Ha), (exists_false _ _ Hr), Hp, He.
      unfold rename. cbn [store]. rewrite Hp.
      intros [= <-]. reflexivity.
    + unfold check_approval_status, approved_dir, rejected_dir, pending_dir.
      rewrite bind_gets, (exists_false _ _ Ha), bind_gets, (exists_false _ _ Hr).
      rewrite bind_gets, Hp, bind_gets, He.
      do 3 eexists. split; [reflexivity|].
      split; [split; [discriminate|intros [? ?]; discriminate]|].
      split; [split; [discriminate|intros [_ [? ?]]; discriminate]|].
      split; [split; discriminate|].
      split; [reflexivity|]. split; [discriminate|]. split; reflexivity.
  - rewrite (exists_false _ _ Hp).
    unfold check_approval_status, approved_dir, rejected_dir, pending_dir.
    rewrite bind_gets, (exists_false _ _ Ha), bind_gets, (exists_false _ _ Hr).
    rewrite bind_gets, Hp.
    do 3 eexists. split; [reflexivity|].
    split; [split; [discriminate|intros [? ?]; discriminate]|].
    split; [split; [discriminate|intros [_ [? ?]]; discriminate]|].
    split; [split; reflexivity|].
    split; [reflexivity|]. split; [discriminate|]. split; reflexivity.
Qed.

(** When the expiry cannot be read from the file, its age decides: the
    request counts as expired exactly when it was last modified more than
    [timeout_hours] ago; then the check moves it to Rejected and answers
    timeout, otherwise it answers pending and changes nothing. *)
Theorem unreadable_expiry_falls_back_to_age (self : ApprovalWorkflow) (action_id : string)
    (w : World) (f : File) :
  fs (store w) !! (Pending_Approval, action_id +:+ ".md") = Some f ->
  fs (store w) !! (Approved, action_id +:+ ".md") = None ->
  fs (store w) !! (Rejected, action_id +:+ ".md") = None ->
  (forall aid atype level created expires,
      body f <> ApprovalDoc aid atype level created (Some expires)) ->
  exists p w',
    check_approval_status self action_id w
      = (Ok (if 3600 * timeout_hours self <? clock (store w) - mtime f
             then Approval.timeout else Approval.pending, p), w')
    /\ fs (store w')
       = if 3600 * timeout_hours self <? clock (store w) - mtime f
         then <[(Rejected, action_id +:+ ".md") := f]>
                (delete (Pending_Approval, action_id +:+ ".md") (fs (store w)))
         else fs (store w).
Proof.
  intros Hp Ha Hr Hbody.
  assert (He : _is_expired self f (clock (store w))
               = (3600 * timeout_hours self <? clock (store w) - mtime f)).
  { unfold _is_expired.
    destruct (body f) as [| | aid atype level created [e|] | |] eqn:Hb; try reflexivity.
    now destruct (Hbody aid atype level created e). }
  rewrite <- He.
  destruct (_is_expired self f (clock (store w))) eqn:Hx.
  - destruct (check_expired self action_id w f Ha Hr Hp Hx) as (w' & Hc & Hfs & _).
    do 2 eexists. split; [exact Hc|exact Hfs].
  - unfold check_approval_status, approved_dir, rejected_dir, pending_dir.
    rewrite bind_gets, (exists_false _ _ Ha), bind_gets, (exists_false _ _ Hr).
    rewrite bind_gets, Hp, bind_gets, Hx.
    do 2 eexists. split; reflexivity.
Qed.

Lemma unreadable_expiry_falls_back_to_age_witness :
  let w := mkWorld (mkStore 90000 (<[(Pending_Approval, "pay_1.md") := mkFile Unreadable 1000]> ∅)
                            None []) [] in
  exists p w',
    check_approval_status (mkApprovalWorkflow 24) "pay_1" w = (Ok (Approval.timeout, p), w')
    /\ fs (store w') !! (Rejected, "pay_1.md") = Some (mkFile Unreadable 1000).
Proof.
  intros w.
  assert (Hp : fs (store w) !! (Pending_Approval, "pay_1" +:+ ".md")
               = Some (mkFile Unreadable 1000)) by (vm_compute; reflexivity).
  assert (Ha : fs (store w) !! (Approved, "pay_1" +:+ ".md") = None)
    by (vm_compute; reflexivity).
  assert (Hr : fs (store w) !! (Rejected, "pay_1" +:+ ".md") = None)
    by (vm_compute; reflexivity).
  destruct (unreadable_expiry_falls_back_to_age (mkApprovalWorkflow 24) "pay_1" w
              (mkFile Unreadable 1000) Hp Ha Hr ltac:(intros; discriminate))
    as (p & w' & Hc & Hf).
  exists p, w'. split; [exact Hc|]. rewrite Hf. vm_compute. reflexivity.
Defined.

End ApprovalsMore.

(** ** Waiting for a decision ([ApprovalWorkflow.wait_for_approval]) *)

Section WaitForApproval.
Import ApprovalWorkflowM.

Lemma wait_for_approval_loop_ends (env : Env) (self : ApprovalWorkflow)
    (action_id : string) (poll m start : Z) :
  0 < poll -> 0 < m ->
  forall (fuel : nat) (w : World),
    (1 <= fuel)%nat ->
    m - (clock (store w) - start) < (Z.of_nat fuel - 1) * poll ->
    exists st w' k,
      wait_for_approval_loop env self action_id poll (Some m) start fuel w = (Ok st, w')
      /\ trace w' = (trace w ++ replicate k (TSleep poll))%list
      /\ clock (store w') = clock (store w) + Z.of_nat k * poll
      /\ (k = 0%nat \/ clock (store w') - start <= m + poll)
      /\ (st = Approval.pending -> m < clock (store w') - start).
Proof.
  intros Hpoll Hm. induction fuel as [|fuel IH]; intros w Hfuel Hbound; [lia|].
  cbn [wait_for_approval_loop].
  destruct (check_approval_status_total self action_id w) as (st & p & w1 & Hc & Ht1 & Hc1).
  rewrite (bind_ok _ _ _ _ _ Hc). cbv beta iota.
  assert (Hdone : st <> Approval.pending ->
                  bool_decide (st ∈ [Approval.approved; Approval.rejected;
                                     Approval.timeout; Approval.not_found]) = true).
  { intros Hne. apply bool_decide_eq_true_2. apply list_elem_of_In.
    destruct st; simpl; tauto. }
  destruct (decide (st = Approval.pending)) as [->|Hne].
  - rewrite bool_decide_eq_false_2
      by (intros H; apply list_elem_of_In in H; simpl in H;
          repeat (destruct H as [H|H]; try discriminate); exact H).
    rewrite bind_gets. change (default 0 (Some m)) with m. cbn [truthy_int].
    replace (m =? 0) with false by (symmetry; apply Z.eqb_neq; lia).
    cbn [negb andb].
    destruct (m <? clock (store w1) - start) eqn:Hlt.
    + apply Z.ltb_lt in Hlt.
      exists Approval.pending, w1, 0%nat.
      split; [reflexivity|]. rewrite app_nil_r.
      repeat split; auto; lia.
    + apply Z.ltb_ge in Hlt.
      destruct (sleep_spec env poll w1) as (w2 & Hs & Ht2 & Hc2); [lia|].
      rewrite (bind_ok _ _ _ _ _ Hs).
      destruct (IH w2) as (st' & w' & k & Hw & Ht & Hck & Hk & Hp); [nia | nia |].
      exists st', w', (S k). split; [exact Hw|].
      split; [rewrite Ht, Ht2, Ht1, <- app_assoc; reflexivity|].
      split; [lia|]. split; [|exact Hp].
      right. destruct Hk as [->|Hk]; lia.
  - rewrite (Hdone Hne).
    exists st, w1, 0%nat. split; [reflexivity|]. rewrite app_nil_r.
    repeat split; auto; try lia. intros ->. now destruct Hne.
Qed.

(** With a positive poll interval and a positive ceiling
    [max_wait_seconds], [wait_for_approval] always returns a status: it
    never raises, it sleeps [poll_interval] at most
    [max_wait_seconds / poll_interval + 1] times, and it answers pending only
    once more than [max_wait_seconds] have passed since the call. *)
Theorem wait_for_approval_ends (env : Env) (self : ApprovalWorkflow) (action_id : string)
    (poll m : Z) (fuel : nat) (w : World) :
  0 < poll -> 0 < m -> m / poll + 2 <= Z.of_nat fuel ->
  exists st w' k,
    wait_for_approval env self action_id poll (Some m) fuel w = (Ok st, w')
    /\ trace w' = (trace w ++ replicate k (TSleep poll))%list
    /\ Z.of_nat k <= m / poll + 1
    /\ clock (store w') = clock (store w) + Z.of_nat k * poll
    /\ (st = Approval.pending -> m < Z.of_nat k * poll).
Proof.
  intros Hpoll Hm Hfuel.
  assert (Hdiv : 0 <= m / poll) by (apply Z.div_pos; lia).
  assert (Hmod : m < (m / poll + 1) * poll).
  { pose proof (Z.mul_succ_div_gt m poll Hpoll). lia. }
  unfold wait_for_approval. rewrite bind_gets.
  destruct (wait_for_approval_loop_ends env self action_id poll m (clock (store w))
              Hpoll Hm fuel w) as (st & w' & k & Hw & Ht & Hck & Hk & Hp); [lia | nia |].
  exists st, w', k. split; [exact Hw|]. split; [exact Ht|].
  split; [|split; [exact Hck|intros H; specialize (Hp H); lia]].
  destruct Hk as [->|Hk]; [lia|].
  assert (Hle : (Z.of_nat k - 1) * poll <= m) by lia.
  assert (Z.of_nat k - 1 <= m / poll); [|lia].
  apply Z.div_le_lower_bound; lia.
Qed.

Lemma wait_for_approval_ends_witness :
  exists st w' k,
    wait_for_approval quiet_env (mkApprovalWorkflow 24) "pay_1" 60 (Some 100) 3
      (mkWorld (mkStore 0 (<[(Pending_Approval, "pay_1.md")
                              := mkFile (ApprovalDoc "pay_1" "payment" high 0 (Some 86400)) 0]> ∅)
                        None []) [])
      = (Ok st, w')
    /\ trace w' = replicate k (TSleep 60)
    /\ Z.of_nat k <= 2.
Proof.
  destruct (wait_for_approval_ends quiet_env (mkApprovalWorkflow 24) "pay_1" 60 100 3
              (mkWorld (mkStore 0 (<[(Pending_Approval, "pay_1.md")
                              := mkFile (ApprovalDoc "pay_1" "payment" high 0 (Some 86400)) 0]> ∅)
                        None []) []))
    as (st & w' & k & Hw & Ht & Hk & _); [lia | lia | vm_compute; discriminate |].
  exists st, w', k. split; [exact Hw|]. split; [exact Ht|]. exact Hk.
Defined.

Lemma wait_for_approval_loop_zero (env : Env) (self : ApprovalWorkflow)
    (action_id : string) (poll start : Z) (fuel : nat) :
  forall w : World,
    wait_for_approval_loop env self action_id poll (Some 0) start fuel w
    = wait_for_approval_loop env self action_id poll None start fuel w.
Proof.
  induction fuel as [|fuel IH]; intros w; [reflexivity|].
  cbn [wait_for_approval_loop].
  destruct (check_approval_status_total self action_id w) as (st & p & w1 & Hc & _).
  rewrite !(bind_ok _ _ _ _ _ Hc). cbv beta iota.
  destruct (bool_decide _); [reflexivity|].
  rewrite !bind_gets. cbn [truthy_int Z.eqb negb andb].
  unfold mbind, M_bind, bind.
  destruct (sleep env poll w1) as [[[]|e|] w2]; [apply IH|reflexivity|reflexivity].
Qed.

Lemma wait_for_approval_loop_unbounded (env : Env) (self : ApprovalWorkflow)
    (action_id : string) (poll start : Z) (fuel : nat) :
  forall (w w' : World) (st : Approval.status),
    wait_for_approval_loop env self action_id poll None start fuel w = (Ok st, w') ->
    st <> Approval.pending.
Proof.
  induction fuel as [|fuel IH]; intros w w' st; [discriminate|].
  cbn [wait_for_approval_loop].
  destruct (check_approval_status_total self action_id w) as (st1 & p & w1 & Hc & _).
  rewrite (bind_ok _ _ _ _ _ Hc). cbv beta iota.
  destruct (bool_decide _) eqn:Hd.
  - intros [= <- <-]. apply bool_decide_eq_true_1 in Hd.
    intros ->. apply list_elem_of_In in Hd. simpl in Hd.
    repeat (destruct Hd as [Hd|Hd]; try discriminate). exact Hd.
  - rewrite bind_gets. cbn [truthy_int andb].
    unfold mbind, M_bind, bind.
    destruct (sleep env poll w1) as [[[]|e|] w2]; [apply IH|discriminate|discriminate].
Qed.

(** A ceiling of zero seconds is no ceiling: [max_wait_seconds = 0] is
    falsy, so the call behaves exactly as with [None], and then it returns
    only on a decision (approved, rejected, timeout, not_found), never with
    pending. *)
Theorem zero_ceiling_means_no_ceiling (env : Env) (self : ApprovalWorkflow)
    (action_id : string) (poll : Z) (fuel : nat) (w : World) :
  wait_for_approval env self action_id poll (Some 0) fuel w
  = wait_for_approval env self action_id poll None fuel w
  /\ forall (st : Approval.status) (w' : World),
       wait_for_approval env self action_id poll (Some 0) fuel w = (Ok st, w') ->
       st <> Approval.pending.
Proof.
  assert (E : wait_for_approval env self action_id poll (Some 0) fuel w
              = wait_for_approval env self action_id poll None fuel w).
  { unfold wait_for_approval. rewrite !bind_gets. apply wait_for_approval_loop_zero. }
  split; [exact E|].
  intros st w'. rewrite E. unfold wait_for_approval. rewrite bind_gets.
  apply wait_for_approval_loop_unbounded.
Qed.

End WaitForApproval.

(** ** The plan document *)

Section PlanMore.
Import PlanGenerator.

Lemma find_set_status_other (sid other : string) (st : Step.status)
    (steps : list (string * Step.status)) :
  other <> sid ->
  option_map snd (List.find (fun x : string * Step.status => String.eqb x.1 other)
                            (set_status sid st steps))
  = option_map snd (List.find (fun x : string * Step.status => String.eqb x.1 other) steps).
Proof.
  intros Hne. induction steps as [|[i s0] steps IH]; [reflexivity|].
  cbn [set_status List.map fst]. fold (set_status sid st steps).
  destruct (String.eqb_spec i sid) as [->|Hi].
  - cbn [List.find fst]. destruct (String.eqb_spec sid other) as [E|_].
    + now destruct Hne.
    + exact IH.
  - cbn [List.find fst]. destruct (String.eqb i other); [reflexivity|exact IH].
Qed.

Lemma map_fst_set_status (sid : string) (st : Step.status)
    (steps : list (string * Step.status)) :
  List.map fst (set_status sid st steps) = List.map fst steps.
Proof.
  induction steps as [|[i s0] steps IH]; [reflexivity|].
  cbn [set_status List.map fst]. fold (set_status sid st steps).
  rewrite IH. now destruct (String.eqb i sid).
Qed.

Lemma plan_status_find (sid : string) (s : Store) :
  plan_status sid s
  = match plan s with
    | None => None
    | Some p => option_map snd
                  (List.find (fun x : string * Step.status => String.eqb x.1 sid)
                             (plan_steps p))
    end.
Proof.
  unfold plan_status. destruct (plan s) as [p|]; [|reflexivity].
  now destruct (List.find _ _).
Qed.

(** [update_step_status] changes one step and nothing else: the status
    of every other step, the list of step ids, the status line of the plan,
    the vault and the clock stay as they were. A step that the plan lists
    shows the new status afterwards; without a plan, or for a step the plan
    does not list, the plan is left untouched (the call only logs a
    warning) and nothing is raised. *)
Theorem update_step_status_touches_one_step (sid : string) (st : Step.status)
    (notes : string) (w : World) :
  exists w',
    update_step_status sid st notes w = (Ok tt, w')
    /\ (forall other, other <> sid ->
                      plan_status other (store w') = plan_status other (store w))
    /\ (is_Some (plan_status sid (store w)) -> plan_status sid (store w') = Some st)
    /\ (plan_status sid (store w) = None -> plan (store w') = plan (store w))
    /\ option_map plan_state (plan (store w')) = option_map plan_state (plan (store w))
    /\ option_map (fun p => List.map fst (plan_steps p)) (plan (store w'))
       = option_map (fun p => List.map fst (plan_steps p)) (plan (store w))
    /\ fs (store w') = fs (store w)
    /\ clock (store w') = clock (store w).
Proof.
  unfold update_step_status. unfold_m. cbn [store trace].
  destruct (plan (store w)) as [p|] eqn:Hp.
  - destruct (existsb _ (plan_steps p)) eqn:Hx.
    + eexists. split; [reflexivity|].
      split.
      { intros other Hne. rewrite !plan_status_find, Hp. cbn.
        now apply find_set_status_other. }
      split.
      { intros _. rewrite plan_status_find. cbn. now apply plan_status_set. }
      split.
      { rewrite plan_status_find, Hp. intros Hnone.
        exfalso. clear -Hx Hnone.
        induction (plan_steps p) as [|[i s0] l IH]; [discriminate|].
        simpl in *. destruct (String.eqb i sid); [discriminate|auto]. }
      cbn. rewrite ?Hp. cbn. rewrite map_fst_set_status. repeat split.
    + eexists. split; [reflexivity|]. cbn. rewrite ?Hp.
      split; [reflexivity|].
      split.
      { rewrite plan_status_find, Hp, (plan_status_absent sid _ Hx).
        intros [? ?]; discriminate. }
      repeat split.
  - eexists. split; [reflexivity|]. cbn. rewrite ?Hp.
    split; [reflexivity|].
    split. { rewrite plan_status_find, Hp. intros [? ?]; discriminate. }
    repeat split.
Qed.

(** The first outcome sticks: [mark_plan_complete] rewrites the status
    line only while it reads Active, so a second call, whatever outcome it
    is given, leaves the recorded outcome and the steps as the first call
    left them. *)
Theorem completed_plan_keeps_first_outcome (first second : string) (w : World) (p : Plan) :
  plan (store w) = Some p ->
  plan_state p = Active ->
  exists w1 w2,
    mark_plan_complete first w = (Ok tt, w1)
    /\ mark_plan_complete second w1 = (Ok tt, w2)
    /\ plan (store w1) = Some (mkPlan (Completed first) (plan_event p) (plan_steps p))
    /\ plan (store w2) = plan (store w1)
    /\ fs (store w2) = fs (store w)
    /\ trace w2 = trace w.
Proof.
  intros Hp Ha. unfold mark_plan_complete.
  rewrite bind_gets, Hp, bind_modify. rewrite Ha.
  eexists. eexists. split; [reflexivity|].
  rewrite bind_gets. cbn [store plan set_plan Logger.info Logger.entry add_log].
  rewrite bind_modify. split; [reflexivity|]. cbn. repeat split.
Qed.

Lemma completed_plan_keeps_first_outcome_witness :
  let p := mkPlan Active (Some "evt_1") [("step_1", Step.completed)] in
  let w := mkWorld (mkStore 0 ∅ (Some p) []) [] in
  exists w1 w2,
    mark_plan_complete "success" w = (Ok tt, w1)
    /\ mark_plan_complete "failed" w1 = (Ok tt, w2)
    /\ option_map plan_state (plan (store w2)) = Some (Completed "success").
Proof.
  intros p w.
  destruct (completed_plan_keeps_first_outcome "success" "failed" w p eq_refl eq_refl)
    as (w1 & w2 & H1 & H2 & Hp1 & Hp2 & _).
  exists w1, w2. split; [exact H1|]. split; [exact H2|].
  rewrite Hp2, Hp1. reflexivity.
Defined.

End PlanMore.

(** ** More on the step executor *)

Section ExecutorMore.
Import StepExecutorM.

Lemma call_spec (fn : StepFn) (w : World) :
  exists raised w',
    call fn w = (Ok raised, w')
    /\ trace w' = (trace w ++ [TCall raised])%list.
Proof.
  unfold call. destruct (fn (store w)) as [raised s'].
  exists raised. eexists. split; reflexivity.
Qed.

Lemma classify_never_out_of_fuel (action_type content : string) (md : gmap string PyVal) :
  RiskClassifier.classify action_type content md <> OutOfFuel.
Proof.
  unfold RiskClassifier.classify.
  destruct (first_keyword _ _); [discriminate|].
  destruct (String.eqb action_type "payment"); [|discriminate].
  unfold RiskClassifier.payment_rules.
  destruct (default (VInt 0) (md !! "amount")) as [|b|z|f r|s|tn t r]; cbn [py_gt];
    try discriminate;
    repeat match goal with
           | |- context [if ?c then _ else _] => destruct c
           | |- context [match ?c with Some _ => _ | None => _ end] => destruct c
           end; discriminate.
Qed.

(** The retry loop for an arbitrary action: it ends, every call but the
    last one raised, and it reports success exactly when the last call
    returned. *)
Lemma retry_loop_stops (env : Env) (self : StepExecutor) (sid : string)
    (fn : StepFn) (desc : string) (start : Z) :
  0 <= base_retry_delay self ->
  forall (remaining : nat) (attempt : Z) (w : World),
    1 <= attempt ->
    exists b e w' new errs,
      retry_loop env self sid fn desc start remaining attempt w = (Ok (b, e), w')
      /\ trace w' = (trace w ++ new)%list
      /\ calls new = ((Some <$> errs) ++ (if b then [None] else []))%list
      /\ (length (calls new) <= remaining)%nat
      /\ (remaining <> 0%nat -> calls new <> [])
      /\ (b = true ->
          e = None /\ last (marks sid new) = Some Step.completed
          /\ length (sleeps new) = length errs)
      /\ (b = false -> is_Some e /\ Step.completed ∉ marks sid new).
Proof.
  intros Hbase. induction remaining as [|r IH]; intros attempt w Hat.
  { exists false, (Some "Unknown error"), w, [], [].
    split; [reflexivity|]. rewrite app_nil_r.
    split; [reflexivity|]. split; [reflexivity|]. split; [cbn; lia|].
    split; [intros Hn; now destruct Hn|]. split; [discriminate|].
    intros _. split; [eauto|]. cbn. intros Hin. inversion Hin. }
  destruct (call_spec fn w) as (raised & w1 & Hcall & Ht1).
  cbn [retry_loop]. rewrite (bind_ok _ _ _ _ _ Hcall). rewrite bind_gets.
  destruct raised as [exc|].
  - destruct (attempt <? max_retries self) eqn:Hlt.
    + rewrite bind_modify.
      match goal with |- context [(PlanGenerator.update_step_status ?a ?b ?c ≫= _) ?w0] =>
        destruct (update_step_status_spec a b c w0) as (w2 & Hu & Ht2 & _);
        rewrite (bind_ok _ _ _ _ _ Hu) end.
      assert (Hd : 0 <= base_retry_delay self * 3 ^ (attempt - 1)).
      { apply Z.mul_nonneg_nonneg; [exact Hbase|]. apply Z.pow_nonneg. lia. }
      destruct (sleep_spec env _ w2 Hd) as (w3 & Hs & Ht3 & _).
      rewrite (bind_ok _ _ _ _ _ Hs).
      destruct (IH (attempt + 1) w3) as (b & e & w' & new & errs & Hr & Ht & Hc & Hl & _ & Hb & Hf);
        [lia|].
      exists b, e, w'. eexists. exists (exc :: errs).
      split; [exact Hr|].
      split.
      { rewrite Ht, Ht3, Ht2. cbn [trace]. rewrite Ht1, <- !app_assoc. reflexivity. }
      rewrite !calls_app, !marks_app, !sleeps_app, marks_self, Hc.
      split; [reflexivity|].
      split. { cbn. rewrite <- Hc. lia. }
      split; [discriminate|].
      split.
      * intros Hbt. destruct (Hb Hbt) as (He & Hm & Hsl).
        split; [exact He|]. split.
        { cbn. rewrite last_cons, Hm. reflexivity. }
        cbn. now rewrite Hsl.
      * intros Hbf. destruct (Hf Hbf) as (He & Hm).
        split; [exact He|]. cbn.
        intros H. apply elem_of_cons in H as [H|H]; [discriminate|contradiction].
    + rewrite bind_modify.
      match goal with |- context [(PlanGenerator.update_step_status ?a ?b ?c ≫= _) ?w0] =>
        destruct (update_step_status_spec a b c w0) as (w2 & Hu & Ht2 & _);
        rewrite (bind_ok _ _ _ _ _ Hu) end.
      exists false. eexists. exists w2. eexists. exists [exc].
      split; [reflexivity|].
      split. { rewrite Ht2. cbn [trace]. rewrite Ht1, <- !app_assoc. reflexivity. }
      rewrite !calls_app, !marks_app, marks_self.
      split; [reflexivity|]. split; [cbn; lia|]. split; [discriminate|].
      split; [discriminate|]. intros _. split; [eauto|].
      cbn. intros H. apply elem_of_cons in H as [H|H]; [discriminate|inversion H].
  - rewrite bind_modify.
    match goal with |- context [(PlanGenerator.update_step_status ?a ?b ?c ≫= _) ?w0] =>
      destruct (update_step_status_spec a b c w0) as (w2 & Hu & Ht2 & _);
      rewrite (bind_ok _ _ _ _ _ Hu) end.
    exists true, None, w2. eexists. exists [].
    split; [reflexivity|].
    split. { rewrite Ht2. cbn [trace]. rewrite Ht1, <- !app_assoc. reflexivity. }
    rewrite !calls_app, !marks_app, !sleeps_app, marks_self.
    split; [reflexivity|]. split; [cbn; lia|]. split; [discriminate|].
    split; [|discriminate]. intros _. repeat split.
Qed.

(** A step classified low passes the gate: the assessment is logged and
    no approval is requested. *)
Lemma check_risk_low (env : Env) (self : StepExecutor)
    (sid action_type desc : string) (md : gmap string PyVal) (w : World)
    (level : RiskLevel) (reason : string) :
  RiskClassifier.classify action_type desc md = Ok (level, reason) ->
  level ∉ [medium; high] ->
  exists w',
    _check_risk_and_approval env self sid action_type desc md w = (Ok (false, None), w')
    /\ trace w' = trace w
    /\ fs (store w') = fs (store w)
    /\ clock (store w') = clock (store w)
    /\ plan (store w') = plan (store w)
    /\ exists entry, log (store w') = (log (store w) ++ [entry])%list
                     /\ log_action entry = "risk_assessed".
Proof.
  intros Hc Hl. unfold _check_risk_and_approval. rewrite Hc.
  unfold_m. cbn [store trace]. rewrite (bool_decide_eq_false_2 _ Hl).
  eexists. split; [reflexivity|]. cbn. repeat split. eexists. split; reflexivity.
Qed.

Lemma replicate_sleep_calls (k : nat) (d : Z) : calls (replicate k (TSleep d)) = [].
Proof. induction k; [reflexivity|exact IHk]. Qed.

Lemma replicate_sleep_marks (sid : string) (k : nat) (d : Z) :
  marks sid (replicate k (TSleep d)) = [].
Proof. induction k; [reflexivity|exact IHk]. Qed.

(** The risk gate never invokes the action and never runs out of turns;
    when it stops the step, it is with the approval message. *)
Lemma risk_gate_no_call (env : Env) (self : StepExecutor) (sid desc : string)
    (rrc : bool) (action_type : option string) (md : gmap string PyVal) (start : Z)
    (w : World) :
  exists r wg t,
    risk_gate env self sid desc rrc action_type md start w = (r, wg)
    /\ r <> OutOfFuel
    /\ trace wg = (trace w ++ t)%list
    /\ calls t = []
    /\ (Step.completed ∉ marks sid t)
    /\ (forall res, r = Ok (Some res) -> res = (false, Some "Approval rejected or timeout")).
Proof.
  unfold risk_gate. destruct (rrc && truthy_str action_type).
  2:{ exists (Ok None), w, []. split; [reflexivity|]. rewrite app_nil_r.
      repeat split; try discriminate. cbn. intros H; inversion H. }
  set (at_ := default "" action_type).
  destruct (RiskClassifier.classify at_ desc md) as [[level reason]|exc|] eqn:Hc.
  - destruct (decide (level ∈ [medium; high])) as [Hl|Hl].
    + destruct (check_risk_needs_approval env self sid at_ desc md w level reason Hc Hl)
        as (w1 & Hk & Ht1).
      rewrite (bind_ok _ _ _ _ _ Hk). cbv beta iota. cbn [default].
      destruct (wait_for_approval_total env self sid
                  (at_ +:+ "_" +:+ strftime env (clock (store w))) w1)
        as (b & w2 & k & Hw & Ht2).
      rewrite (bind_ok _ _ _ _ _ Hw).
      destruct b; cbn [negb].
      * exists (Ok None), w2. eexists. split; [reflexivity|].
        split; [discriminate|].
        split. { rewrite Ht2, Ht1, <- app_assoc. reflexivity. }
        rewrite calls_app, marks_app, marks_self, replicate_sleep_calls,
                replicate_sleep_marks.
        split; [reflexivity|]. split; [|discriminate].
        cbn. intros H. apply elem_of_cons in H as [H|H]; [discriminate|inversion H].
      * rewrite bind_gets, bind_modify.
        match goal with |- context [(PlanGenerator.update_step_status ?a ?b ?c ≫= _) ?w0] =>
          destruct (update_step_status_spec a b c w0) as (w3 & Hu & Ht3 & _);
          rewrite (bind_ok _ _ _ _ _ Hu) end.
        eexists. exists w3. eexists. split; [reflexivity|].
        split; [discriminate|].
        split. { rewrite Ht3. cbn [trace]. rewrite Ht2, Ht1, <- !app_assoc. reflexivity. }
        rewrite !calls_app, !marks_app, !marks_self, replicate_sleep_calls,
                replicate_sleep_marks.
        split; [reflexivity|]. split.
        { cbn. intros H. repeat (apply elem_of_cons in H as [H|H]; [discriminate|]).
          inversion H. }
        intros res [= <-]. reflexivity.
    + destruct (check_risk_low env self sid at_ desc md w level reason Hc Hl)
        as (w1 & Hk & Ht1 & _).
      rewrite (bind_ok _ _ _ _ _ Hk). cbv beta iota. rewrite <- Ht1.
      exists (Ok None), w1, []. split; [reflexivity|].
      split; [discriminate|]. rewrite app_nil_r.
      repeat split; try discriminate. cbn. intros H; inversion H.
  - unfold _check_risk_and_approval. rewrite Hc.
    exists (Raise exc), w, []. split; [reflexivity|]. rewrite app_nil_r.
    repeat split; try discriminate. cbn. intros H; inversion H.
  - now destruct (classify_never_out_of_fuel at_ desc md).
Qed.

(** Whatever the action does and whatever the risk gate decides,
    [execute_step] stops at the first attempt that returns: every call of
    the action but the last one raised, the action is called at most
    [max_retries] times, and success is reported exactly when the last call
    returned, in which case the step is marked completed. When the step
    fails or is blocked, it is never marked completed. The call always ends
    (an exception can only come from the classifier). *)
Theorem execute_step_stops_at_first_success (env : Env) (self : StepExecutor)
    (sid : string) (fn : StepFn) (desc : string) (rrc : bool)
    (action_type : option string) (md : gmap string PyVal) (w : World) :
  0 <= base_retry_delay self ->
  exists r w' new errs,
    execute_step env self sid fn desc rrc action_type md w = (r, w')
    /\ r <> OutOfFuel
    /\ trace w' = (trace w ++ new)%list
    /\ calls new
       = ((Some <$> errs) ++ match r with Ok (true, _) => [None] | _ => [] end)%list
    /\ (length (calls new) <= Z.to_nat (max_retries self))%nat
    /\ (forall e, r = Ok (true, e) ->
                  e = None /\ last (marks sid new) = Some Step.completed)
    /\ ((forall e, r <> Ok (true, e)) -> Step.completed ∉ marks sid new).
Proof.
  intros Hbase. unfold execute_step. rewrite bind_gets.
  destruct (begin_step_spec sid desc w) as (wb & Hb & Htb & _).
  rewrite (bind_ok _ _ _ _ _ Hb).
  destruct (risk_gate_no_call env self sid desc rrc action_type md (clock (store w)) wb)
    as (r & wg & t & Hg & Hfuel & Htg & Hcg & Hmg & Hres).
  assert (Hbegin : Step.completed ∉ marks sid
                     ([TMark sid Step.in_progress ("Starting execution: " +:+ desc)] ++ t)).
  { rewrite marks_app, marks_self. cbn.
    intros H. apply elem_of_cons in H as [H|H]; [discriminate|contradiction]. }
  destruct r as [[res|]|exc|].
  - rewrite (bind_ok _ _ _ _ _ Hg). rewrite (Hres res eq_refl).
    eexists. exists wg. eexists. exists [].
    split; [reflexivity|]. split; [discriminate|].
    split. { rewrite Htg, Htb, <- app_assoc. reflexivity. }
    rewrite calls_app, Hcg.
    split; [reflexivity|]. split; [cbn; lia|]. split; [discriminate|].
    intros _. exact Hbegin.
  - rewrite (bind_ok _ _ _ _ _ Hg).
    destruct (retry_loop_stops env self sid fn desc (clock (store w)) Hbase
                (Z.to_nat (max_retries self)) 1 wg)
      as (b & e & w' & new & errs & Hr & Ht & Hc & Hl & _ & Hbt & Hbf); [lia|].
    exists (Ok (b, e)), w'. eexists. exists errs.
    split; [exact Hr|]. split; [discriminate|].
    split. { rewrite Ht, Htg, Htb, <- !app_assoc. reflexivity. }
    rewrite !calls_app, Hcg, Hc.
    split. { cbn. now destruct b. }
    split. { cbn. rewrite <- Hc. exact Hl. }
    split.
    + intros e' [= -> <-]. destruct (Hbt eq_refl) as (He & Hm & _).
      split; [exact He|]. rewrite app_assoc, marks_app, last_app, Hm. reflexivity.
    + intros Hne. destruct b; [now destruct (Hne e)|].
      destruct (Hbf eq_refl) as (_ & Hm).
      rewrite app_assoc, marks_app. intros H. apply elem_of_app in H as [H|H]; auto.
  - rewrite (bind_raise _ _ _ _ _ Hg).
    eexists. exists wg. eexists. exists [].
    split; [reflexivity|]. split; [discriminate|].
    split. { rewrite Htg, Htb, <- app_assoc. reflexivity. }
    rewrite calls_app, Hcg.
    split; [reflexivity|]. split; [cbn; lia|]. split; [discriminate|].
    intros _. exact Hbegin.
  - now destruct Hfuel.
Qed.

Lemma execute_step_stops_at_first_success_witness :
  let busy_at_first : StepFn :=
    fun s => if clock s <? 5 then (Some (mkExc "TimeoutError" "busy"), s) else (None, s) in
  exists w' new,
    execute_step quiet_env default_executor "step_1" busy_at_first "Sync the calendar"
                 false None ∅ (mkWorld (mkStore 0 ∅ None []) [])
      = (Ok (true, None), w')
    /\ trace w' = new
    /\ calls new = [Some (mkExc "TimeoutError" "busy"); None]
    /\ last (marks "step_1" new) = Some Step.completed.
Proof.
  intros fn.
  destruct (execute_step_stops_at_first_success quiet_env default_executor "step_1" fn
              "Sync the calendar" false None ∅ (mkWorld (mkStore 0 ∅ None []) []))
    as (r & w' & new & errs & Hr & _ & Ht & _ & _ & Hok & _);
    [vm_compute; discriminate|].
  assert (Hv : r = Ok (true, None)
               /\ calls (trace w') = [Some (mkExc "TimeoutError" "busy"); None]).
  { vm_compute in Hr. injection Hr as <- <-. split; reflexivity. }
  destruct Hv as (-> & Hc). cbn in Ht.
  exists w', new. split; [exact Hr|].
  split; [exact Ht|]. split; [rewrite <- Ht; exact Hc|].
  exact (proj2 (Hok None eq_refl)).
Defined.

(** A step whose classification is low passes the risk gate at once:
    nothing is written to the vault (no approval request), nothing is slept,
    the clock stands, and [execute_step] goes on to attempt the action from
    that state. *)
Theorem low_risk_step_needs_no_approval (env : Env) (self : StepExecutor)
    (sid : string) (fn : StepFn) (desc action_type : string) (md : gmap string PyVal)
    (w : World) (reason : string) :
  RiskClassifier.classify action_type desc md = Ok (low, reason) ->
  exists wg,
    execute_step env self sid fn desc true (Some action_type) md w
      = retry_loop env self sid fn desc (clock (store w))
                   (Z.to_nat (max_retries self)) 1 wg
    /\ trace wg = (trace w ++ [TMark sid Step.in_progress
                                 ("Starting execution: " +:+ desc)])%list
    /\ fs (store wg) = fs (store w)
    /\ clock (store wg) = clock (store w).
Proof.
  intros Hc.
  destruct (begin_step_spec sid desc w) as (wb & Hb & Htb & Hfb & Hcb & _).
  destruct (truthy_str (Some action_type)) eqn:Htr.
  - assert (Hl : low ∉ [medium; high]).
    { intros H. repeat (apply elem_of_cons in H as [H|H]; [discriminate|]). inversion H. }
    destruct (check_risk_low env self sid action_type desc md wb low reason Hc Hl)
      as (wg & Hk & Htg & Hfg & Hcg & _).
    exists wg. split.
    + apply (execute_step_unfold _ _ _ _ _ _ _ _ _ wb wg Hb).
      unfold risk_gate. rewrite Htr. cbn [andb default].
      rewrite (bind_ok _ _ _ _ _ Hk). reflexivity.
    + rewrite Htg, Hfg, Hcg. auto.
  - exists wb. split.
    + apply (execute_step_unfold _ _ _ _ _ _ _ _ _ wb wb Hb).
      apply risk_gate_skipped. now rewrite Htr.
    + auto.
Qed.

Lemma low_risk_step_needs_no_approval_witness :
  exists wg,
    execute_step quiet_env default_executor "step_2" (always_raises "boom")
                 "Search knowledge base for solution" true (Some "other") ∅
                 (mkWorld (mkStore 0 ∅ None []) [])
      = retry_loop quiet_env default_executor "step_2" (always_raises "boom")
                   "Search knowledge base for solution" 0 3 1 wg
    /\ fs (store wg) = ∅.
Proof.
  destruct (low_risk_step_needs_no_approval quiet_env default_executor "step_2"
              (always_raises "boom") "Search knowledge base for solution" "other" ∅
              (mkWorld (mkStore 0 ∅ None []) []) "No risk indicators detected")
    as (wg & He & _ & Hf & _); [vm_compute; reflexivity|].
  exists wg. split; [exact He|exact Hf].
Defined.

(** The mirror of the blocked step: when the wait that follows the
    approval request ends in approved, [execute_step] goes on to the retry
    loop from the state the wait left, and with at least one attempt
    configured the action is invoked. *)
Theorem approved_step_is_attempted (env : Env) (self : StepExecutor)
    (sid : string) (fn : StepFn) (desc action_type : string) (md : gmap string PyVal)
    (w : World) (level : RiskLevel) (reason : string) :
  action_type <> "" ->
  RiskClassifier.classify action_type desc md = Ok (level, reason) ->
  level ∈ [medium; high] ->
  1 <= max_retries self ->
  0 <= base_retry_delay self ->
  let w1 := ((begin_step sid desc;;
              _check_risk_and_approval env self sid action_type desc md) w).2 in
  let approval_id := action_type +:+ "_" +:+ strftime env (clock (store w)) in
  (_wait_for_approval env self sid approval_id 60 3600 wait_fuel w1).1 = Ok true ->
  exists b e w' new,
    execute_step env self sid fn desc true (Some action_type) md w = (Ok (b, e), w')
    /\ execute_step env self sid fn desc true (Some action_type) md w
       = retry_loop env self sid fn desc (clock (store w)) (Z.to_nat (max_retries self)) 1
           (_wait_for_approval env self sid approval_id 60 3600 wait_fuel w1).2
    /\ trace w' = (trace w ++ new)%list
    /\ calls new <> []
    /\ (fs (store w1) !! (Pending_Approval, approval_id +:+ ".md")
        = Some (mkFile (ApprovalDoc approval_id action_type level (clock (store w))
                          (Some (clock (store w)
                                 + 3600 * timeout_hours (approval_workflow self))))
                       (clock (store w)))).
Proof.
  intros Hne Hc Hl Hmax Hbase w1 approval_id Hwait.
  destruct (begin_step_spec sid desc w) as (wb & Hb & Htb & Hfb & Hcb & _).
  destruct (check_risk_needs_approval env self sid action_type desc md wb level reason Hc Hl)
    as (w1' & Hk & Ht1).
  rewrite Hcb in Hk. fold approval_id in Hk.
  assert (Hw1 : w1 = w1').
  { subst w1. rewrite (bind_ok _ _ _ _ _ Hb). now rewrite Hk. }
  destruct (_wait_for_approval env self sid approval_id 60 3600 wait_fuel w1)
    as [rb w2] eqn:Hw.
  cbn [fst snd] in *. subst rb.
  destruct (wait_for_approval_total env self sid approval_id w1) as (b0 & w2' & k & Hw' & Ht2).
  rewrite Hw in Hw'. injection Hw' as <- <-.
  assert (Htruthy : truthy_str (Some action_type) = true).
  { unfold truthy_str. destruct (String.eqb_spec action_type ""); [contradiction|reflexivity]. }
  assert (Hrun : execute_step env self sid fn desc true (Some action_type) md w
                 = retry_loop env self sid fn desc (clock (store w))
                              (Z.to_nat (max_retries self)) 1 w2).
  { apply (execute_step_unfold _ _ _ _ _ _ _ _ _ wb w2 Hb).
    unfold risk_gate. rewrite Htruthy. cbn [andb default].
    rewrite (bind_ok _ _ _ _ _ Hk). cbv beta iota. cbn [default].
    rewrite <- Hw1. rewrite (bind_ok _ _ _ _ _ Hw). reflexivity. }
  destruct (retry_loop_stops env self sid fn desc (clock (store w)) Hbase
              (Z.to_nat (max_retries self)) 1 w2)
    as (b & e & w' & new & errs & Hr & Ht & Hcalls & _ & Hnz & _); [lia|].
  exists b, e, w'. eexists.
  split; [rewrite Hrun; exact Hr|]. split; [exact Hrun|].
  split. { rewrite Ht, Ht2, Hw1, Ht1, Htb, <- !app_assoc. reflexivity. }
  split.
  { rewrite !calls_app. intros H. apply app_eq_nil in H as (_ & H).
    apply app_eq_nil in H as (_ & H). apply app_eq_nil in H as (_ & H).
    revert H. apply Hnz. lia. }
  rewrite Hw1. clear -Hk Hc Hl Hcb.
  revert Hk. unfold _check_risk_and_approval. rewrite Hc.
  unfold lift_result at 1.
  rewrite (bind_ok _ _ (Ok (level, reason), wb).2 (level, reason)
             (Ok (level, reason), wb).2 eq_refl).
  cbv beta iota. cbn [snd]. rewrite bind_modify.
  rewrite (bool_decide_eq_true_2 _ Hl). rewrite bind_gets.
  unfold ApprovalWorkflowM.request_approval.
  match goal with |- context [PlanGenerator.update_step_status ?a ?b ?c] =>
    set (upd := PlanGenerator.update_step_status a b c) end.
  unfold_m. cbn [store trace clock fs plan log Logger.info Logger.entry add_log atomic_write set_fs].
  match goal with |- context [upd ?w0] =>
    destruct (update_step_status_spec sid Step.in_progress
                ("Waiting for approval (risk: " +:+ risk_name level +:+ ")") w0)
      as (wu & Hu & _ & Hfu & _) end.
  subst upd. rewrite Hu. intros [= _ <-]. rewrite Hfu.
  cbn [store fs Logger.info Logger.entry add_log atomic_write set_fs clock].
  rewrite Hcb. unfold approval_id, ApprovalWorkflowM.pending_dir.
  apply lookup_insert_eq.
Qed.

End ExecutorMore.

Section PlanExecution.
Import StepExecutorM StepExecutorPlan.

Lemma approved_step_is_attempted_witness :
  let approving : Env :=
    mkEnv str_of_Z
          (fun _ f => match f !! (Pending_Approval, "email_send_0.md") with
                      | Some request =>
                          <[(Approved, "email_send_0.md") := request]>
                            (delete (Pending_Approval, "email_send_0.md") f)
                      | None => f
                      end) in
  exists b e w' new,
    execute_step approving default_executor "step_4" (always_raises "smtp down")
                 "Review and send" true (Some "email_send") ∅
                 (mkWorld (mkStore 0 ∅ None []) [])
      = (Ok (b, e), w')
    /\ trace w' = new
    /\ calls new <> []
    /\ sleeps new = [60; 5; 15].
Proof.
  intros env.
  destruct (approved_step_is_attempted env default_executor "step_4"
              (always_raises "smtp down") "Review and send" "email_send" ∅
              (mkWorld (mkStore 0 ∅ None []) [])
              medium "Contains medium-risk keyword: send"
              ltac:(discriminate) eq_refl ltac:(left)
              ltac:(vm_compute; discriminate) ltac:(vm_compute; discriminate)
              ltac:(vm_compute; reflexivity))
    as (b & e & w' & new & Hr & _ & Ht & Hc & _).
  cbn in Ht.
  exists b, e, w', new. split; [exact Hr|]. split; [exact Ht|]. split; [exact Hc|].
  rewrite <- Ht. vm_compute in Hr. injection Hr as _ _ <-. reflexivity.
Defined.

Lemma execute_step_ends (env : Env) (self : StepExecutor)
    (sid : string) (fn : StepFn) (desc : string) (rrc : bool)
    (action_type : option string) (md : gmap string PyVal) (w : World) :
  0 <= base_retry_delay self ->
  exists r w',
    execute_step env self sid fn desc rrc action_type md w = (r, w') /\ r <> OutOfFuel.
Proof.
  intros Hbase. unfold execute_step. rewrite bind_gets.
  destruct (begin_step_spec sid desc w) as (wb & Hb & _).
  rewrite (bind_ok _ _ _ _ _ Hb).
  destruct (risk_gate_no_call env self sid desc rrc action_type md (clock (store w)) wb)
    as (r & wg & t & Hg & Hfuel & _).
  destruct r as [[res|]|exc|].
  - rewrite (bind_ok _ _ _ _ _ Hg). eexists. eexists. split; [reflexivity|discriminate].
  - rewrite (bind_ok _ _ _ _ _ Hg).
    destruct (retry_loop_stops env self sid fn desc (clock (store w)) Hbase
                (Z.to_nat (max_retries self)) 1 wg)
      as (b & e & w' & new & errs & Hr & _); [lia|].
    exists (Ok (b, e)), w'. split; [exact Hr|discriminate].
  - rewrite (bind_raise _ _ _ _ _ Hg). eexists. eexists. split; [reflexivity|discriminate].
  - now destruct Hfuel.
Qed.

(** The tallies of the step loop: every step visited counts once, as
    completed or as failed, and a blocking failure ends the loop. *)
Lemma run_steps_tally (env : Env) (self : StepExecutor) (event_id : option string) :
  0 <= base_retry_delay self ->
  forall (steps : list PlanStep) (c f : Z) (fl : list (string * string * string))
         (w : World),
  exists r w',
    run_steps env self event_id steps c f fl w = (r, w')
    /\ r <> OutOfFuel
    /\ forall c' f' fl',
         r = Ok (c', f', fl') ->
         c <= c' /\ f <= f'
         /\ (c' - c) + (f' - f) <= Z.of_nat (length steps)
         /\ Z.of_nat (length fl') = Z.of_nat (length fl) + (f' - f)
         /\ (f' = f -> c' - c = Z.of_nat (length steps))
         /\ (Forall (fun s => step_blocking s = true) steps -> f' - f <= 1).
Proof.
  intros Hbase. induction steps as [|step rest IH]; intros c f fl w.
  { eexists. eexists. split; [reflexivity|]. split; [discriminate|].
    intros c' f' fl' [= <- <- <-]. cbn. repeat split; lia. }
  cbn [run_steps].
  destruct (execute_step_ends env self (step_id step) (step_function step)
              (step_description step) (step_requires_risk_check step)
              (step_action_type step) (step_action_metadata step) w Hbase)
    as (r & w1 & Hr & Hfuel).
  destruct r as [[b e]|exc|].
  - rewrite (bind_ok _ _ _ _ _ Hr). cbv beta iota.
    destruct b.
    + destruct (IH (c + 1) f fl w1) as (r2 & w2 & Hr2 & Hf2 & Hall).
      exists r2, w2. split; [exact Hr2|]. split; [exact Hf2|].
      intros c' f' fl' E. destruct (Hall c' f' fl' E) as (H1 & H2 & H3 & H4 & H5 & H6).
      cbn [length]. repeat split; try lia.
      intros HF. apply H6. now apply Forall_inv_tail in HF.
    + cbv zeta. destruct (step_blocking step) eqn:Hblk.
      * rewrite bind_modify.
        eexists. eexists. split; [reflexivity|]. split; [discriminate|].
        intros c' f' fl' [= <- <- <-]. rewrite length_app. cbn [length].
        repeat split; lia.
      * destruct (IH c (f + 1)
                     (fl ++ [(step_id step, step_description step, default "None" e)])%list
                     w1) as (r2 & w2 & Hr2 & Hf2 & Hall).
        exists r2, w2. split; [exact Hr2|]. split; [exact Hf2|].
        intros c' f' fl' E. destruct (Hall c' f' fl' E) as (H1 & H2 & H3 & H4 & H5 & H6).
        rewrite length_app in H4. cbn [length] in *.
        repeat split; try lia.
        intros HF. apply Forall_inv in HF. congruence.
  - rewrite (bind_raise _ _ _ _ _ Hr). eexists. eexists.
    split; [reflexivity|]. split; [discriminate|]. intros c' f' fl' E. discriminate.
  - now destruct Hfuel.
Qed.

(** The summary of [execute_plan] adds up: completed and failed steps
    never exceed the number of steps, [failed_steps] has one entry per
    failure, success is reported exactly when nothing failed and then every
    step completed, a plan of blocking steps records at most one failure, and
    the plan document does not stay Active. The call always ends (an
    exception can only come from the classifier). *)
Theorem execute_plan_summary_adds_up (env : Env) (self : StepExecutor)
    (steps : list PlanStep) (event_id : option string) (w : World) :
  0 <= base_retry_delay self ->
  exists r w',
    execute_plan env self steps event_id w = (r, w')
    /\ r <> OutOfFuel
    /\ forall ok s,
         r = Ok (ok, s) ->
         total_steps s = Z.of_nat (length steps)
         /\ 0 <= completed s /\ 0 <= failed s
         /\ completed s + failed s <= total_steps s
         /\ Z.of_nat (length (failed_steps s)) = failed s
         /\ (ok = true <-> failed s = 0)
         /\ (ok = true -> completed s = total_steps s /\ outcome s = "success")
         /\ (Forall (fun st => step_blocking st = true) steps -> failed s <= 1)
         /\ (forall p, plan (store w') = Some p -> plan_state p <> Active).
Proof.
  intros Hbase. unfold execute_plan. rewrite bind_gets, bind_modify.
  match goal with |- context [(run_steps _ _ _ _ _ _ _ ≫= _) ?w0] =>
    destruct (run_steps_tally env self event_id Hbase steps 0 0 [] w0)
      as (r & w1 & Hr & Hfuel & Hall) end.
  destruct r as [[[c f] fl]|exc|].
  - rewrite (bind_ok _ _ _ _ _ Hr). cbv beta iota.
    rewrite bind_gets, bind_modify.
    destruct (Hall c f fl eq_refl) as (H1 & H2 & H3 & H4 & H5 & H6).
    unfold PlanGenerator.mark_plan_complete.
    rewrite <- bind_assoc_run, bind_gets.
    cbn [store plan Logger.info Logger.entry add_log].
    destruct (plan (store w1)) as [p|] eqn:Hp.
    + rewrite <- bind_assoc_run, bind_modify, bind_modify.
      eexists. eexists. split; [reflexivity|]. split; [discriminate|].
      intros ok s [= <- <-]. cbn.
      split; [reflexivity|]. split; [lia|]. split; [lia|]. split; [lia|].
      split; [cbn in H4; lia|].
      split. { rewrite Z.eqb_eq. reflexivity. }
      split. { intros E. apply Z.eqb_eq in E. subst f. rewrite Z.eqb_refl.
               split; [lia|reflexivity]. }
      split; [intros HF; specialize (H6 HF); lia|].
      intros p' [= <-]. cbn. destruct (plan_state p); discriminate.
    + rewrite bind_mret.
      eexists. eexists. split; [reflexivity|]. split; [discriminate|].
      intros ok s [= <- <-]. cbn.
      split; [reflexivity|]. split; [lia|]. split; [lia|]. split; [lia|].
      split; [cbn in H4; lia|].
      split. { rewrite Z.eqb_eq. reflexivity. }
      split. { intros E. apply Z.eqb_eq in E. subst f. rewrite Z.eqb_refl.
               split; [lia|reflexivity]. }
      split; [intros HF; specialize (H6 HF); lia|].
      rewrite Hp. discriminate.
  - rewrite (bind_raise _ _ _ _ _ Hr). eexists. eexists.
    split; [reflexivity|]. split; [discriminate|]. intros ok s E. discriminate.
  - now destruct Hfuel.
Qed.

Lemma execute_plan_summary_adds_up_witness :
  let steps :=
    [ mkPlanStep "step_1" "Understand the issue" (fun s => (None, s)) false None ∅ true;
      mkPlanStep "step_2" "Search knowledge base for solution" (always_raises "offline")
                 false None ∅ true;
      mkPlanStep "step_3" "Provide step-by-step guidance" (fun s => (None, s))
                 false None ∅ true ] in
  let w := mkWorld (mkStore 0 ∅ (Some (mkPlan Active None
                      [("step_1", Step.pending); ("step_2", Step.pending);
                       ("step_3", Step.pending)])) []) [] in
  exists s w',
    execute_plan quiet_env default_executor steps (Some "evt_1") w = (Ok (false, s), w')
    /\ completed s = 1 /\ failed s = 1 /\ outcome s = "partial"
    /\ completed s + failed s <= total_steps s
    /\ option_map plan_state (plan (store w')) = Some (Completed "partial").
Proof.
  intros steps w.
  destruct (execute_plan_summary_adds_up quiet_env default_executor steps (Some "evt_1") w)
    as (r & w' & Hr & _ & Hall); [vm_compute; discriminate|].
  assert (Hv : exists s, r = Ok (false, s) /\ completed s = 1 /\ failed s = 1
                         /\ outcome s = "partial"
                         /\ option_map plan_state (plan (store w'))
                            = Some (Completed "partial")).
  { vm_compute in Hr. injection Hr as <- <-. eexists. repeat split. }
  destruct Hv as (s & -> & Hc & Hf & Ho & Hp).
  destruct (Hall false s eq_refl) as (_ & _ & _ & Hsum & _).
  exists s, w'. repeat split; assumption.
Defined.

(** Escalation files are named by the second: a second escalation
    written in the same second gets the same path and replaces the first
    one, so only the later report is left in the vault. *)
Theorem escalations_in_same_second_overwrite (env : Env) (self : StepExecutor)
    (sid1 desc1 err1 sid2 desc2 err2 : string) (eid1 eid2 : option string) (w : World) :
  exists p w1 w2,
    create_escalation_task env self sid1 desc1 err1 eid1 w = (Ok p, w1)
    /\ create_escalation_task env self sid2 desc2 err2 eid2 w1 = (Ok p, w2)
    /\ fs (store w1) !! p
       = Some (mkFile (EscalationDoc (default "Unknown" eid1) sid1 desc1 err1)
                      (clock (store w)))
    /\ fs (store w2)
       = <[p := mkFile (EscalationDoc (default "Unknown" eid2) sid2 desc2 err2)
                       (clock (store w))]> (fs (store w))
    /\ (forall q, q <> p -> fs (store w2) !! q = fs (store w) !! q).
Proof.
  unfold create_escalation_task.
  rewrite bind_gets, bind_modify, bind_modify.
  eexists. eexists. eexists. split; [reflexivity|].
  rewrite bind_gets, bind_modify, bind_modify.
  split; [reflexivity|].
  cbn [store clock fs atomic_write set_fs Logger.warning Logger.entry add_log].
  split; [apply lookup_insert_eq|].
  split; [apply insert_insert_eq|].
  intros q Hq. now rewrite !lookup_insert_ne by congruence.
Qed.

End PlanExecution.

(** ** More on the orchestrator *)

Section OrchestratorMore.
Import OrchestratorM.

(** The action type that the orchestrator derives from a step
    description and the classification of that same description agree on
    caution: a step typed email_send, linkedin_post or file_delete is never
    classified low, whatever the metadata, and a step typed file_delete is
    always classified high (its description names the deletion, which is a
    high-risk keyword). *)
Theorem typed_steps_need_approval (description : string) (md : gmap string PyVal) :
  _determine_action_type description ∈ ["email_send"; "linkedin_post"; "file_delete"] ->
  exists level reason,
    RiskClassifier.classify (_determine_action_type description) description md
      = Ok (level, reason)
    /\ RiskClassifier.requires_approval level = true
    /\ (_determine_action_type description = "file_delete" -> level = high).
Proof.
  intros Hty.
  destruct (contains_any RiskClassifier.HIGH_RISK_KEYWORDS (lower description)) eqn:Hh.
  { destruct (classify_high_keyword (_determine_action_type description) description md Hh)
      as [r Hr].
    exists high, r. split; [exact Hr|]. split; reflexivity. }
  pose proof Hh as Hh'. apply first_keyword_None in Hh'.
  assert (Hno : forall k, In k RiskClassifier.HIGH_RISK_KEYWORDS ->
                          contains k (lower description) = false).
  { intros k Hk. destruct (contains k (lower description)) eqn:E; [|reflexivity].
    rewrite (contains_any_elem _ _ _ Hk E) in Hh. discriminate. }
  assert (Hdel : contains "delete" (lower description) = false)
    by (apply Hno; simpl; tauto).
  assert (Hrem : contains "remove" (lower description) = false)
    by (apply Hno; simpl; tauto).
  assert (Hpay : contains "payment" (lower description) = false)
    by (apply Hno; simpl; tauto).
  unfold RiskClassifier.classify. rewrite Hh'.
  revert Hty. unfold _determine_action_type. cbv zeta. rewrite Hdel, Hrem, Hpay.
  destruct (contains "email" (lower description) || contains "send" (lower description))
    eqn:He.
  - intros _. change (String.eqb "email_send" "payment") with false. cbv iota.
    assert (Hm : contains_any RiskClassifier.MEDIUM_RISK_KEYWORDS (lower description) = true).
    { apply orb_true_iff in He as [He|He];
        [apply (contains_any_elem _ _ "email") | apply (contains_any_elem _ _ "send")];
        try exact He; simpl; tauto. }
    unfold RiskClassifier.later_rules.
    destruct (first_keyword RiskClassifier.MEDIUM_RISK_KEYWORDS (lower description)) eqn:Hf.
    + do 2 eexists. split; [reflexivity|]. split; [reflexivity|discriminate].
    + apply first_keyword_None in Hf. congruence.
  - destruct (contains "linkedin" (lower description)
              || contains "post" (lower description)) eqn:Hl.
    + intros _. change (String.eqb "linkedin_post" "payment") with false. cbv iota.
      unfold RiskClassifier.later_rules.
      destruct (first_keyword RiskClassifier.MEDIUM_RISK_KEYWORDS (lower description)).
      { do 2 eexists. split; [reflexivity|]. split; [reflexivity|discriminate]. }
      destruct (first_keyword RiskClassifier.SENSITIVE_CONTEXTS (lower description)).
      { do 2 eexists. split; [reflexivity|]. split; [reflexivity|discriminate]. }
      rewrite bool_decide_eq_true_2 by (apply list_elem_of_In; simpl; tauto).
      do 2 eexists. split; [reflexivity|]. split; [reflexivity|discriminate].
    + cbn [orb].
      destruct (contains "pay" (lower description)); intros Hty;
        apply list_elem_of_In in Hty; simpl in Hty;
        repeat (destruct Hty as [Hty|Hty]; try discriminate); contradiction.
Qed.

Lemma typed_steps_need_approval_witness :
  exists level reason,
    RiskClassifier.classify (_determine_action_type "Remove the stale export")
                            "Remove the stale export" ∅
      = Ok (level, reason)
    /\ RiskClassifier.requires_approval level = true
    /\ level = high.
Proof.
  destruct (typed_steps_need_approval "Remove the stale export" ∅)
    as (level & reason & Hc & Hr & Hd).
  { apply list_elem_of_In. vm_compute. tauto. }
  exists level, reason. split; [exact Hc|]. split; [exact Hr|].
  apply Hd. reflexivity.
Defined.

End OrchestratorMore.

Section WatcherEvents.
Import OrchestratorM EventQueue.

Lemma sorted_nonempty (l : list string) (x : string) :
  x ∈ l -> exists name rest, sorted l = name :: rest /\ name ∈ l.
Proof.
  intros Hin. unfold sorted.
  pose proof (merge_sort_Permutation str_le l) as Hperm.
  destruct (merge_sort str_le l) as [|h t] eqn:E.
  - rewrite <- Hperm in Hin. inversion Hin.
  - exists h, t. split; [reflexivity|]. rewrite <- Hperm. left.
Qed.

Lemma discard_loop (env : Env) (self : Orchestrator) :
  forall (n : nat) (w : World),
    get_queue_size (store w) = n ->
    (forall name f,
        fs (store w) !! (Needs_Action, name) = Some f ->
        ends_with ".json" name = true ->
        exists event m subject body from to,
          f = mkFile (EventJson event) m
          /\ ev_content event = Some (CFields subject body from to)) ->
    exists w',
      process_loop env self 0 (S n) w = (Ok 0, w')
      /\ get_queue_size (store w') = 0%nat
      /\ (forall name,
             ends_with ".json" name = true ->
             is_Some (fs (store w) !! (Needs_Action, name)) ->
             fs (store w') !! (Needs_Action, name) = None
             /\ fs (store w') !! (Done, name) = fs (store w) !! (Needs_Action, name))
      /\ (forall p,
             (forall name, ends_with ".json" name = true ->
                           is_Some (fs (store w) !! (Needs_Action, name)) ->
                           p <> (Needs_Action, name) /\ p <> (Done, name)) ->
             fs (store w') !! p = fs (store w) !! p)
      /\ length (log (store w')) = (length (log (store w)) + n)%nat
      /\ trace w' = trace w
      /\ plan (store w') = plan (store w)
      /\ clock (store w') = clock (store w).
Proof.
  induction n as [|n IH]; intros w Hsize Hall.
  - unfold get_queue_size in Hsize. apply length_zero_iff_nil in Hsize.
    exists w. cbn [process_loop].
    change (0 <? max_events_per_cycle) with true. cbv iota.
    rewrite bind_gets. unfold pop, sorted. rewrite Hsize. cbn.
    split; [reflexivity|].
    split; [unfold get_queue_size; now rewrite Hsize|].
    split.
    { intros name He Hs. exfalso.
      assert (Hin : name ∈ glob queue_dir ".json" (fs (store w)))
        by (apply elem_of_glob; auto).
      rewrite Hsize in Hin. inversion Hin. }
    split; [reflexivity|]. split; [lia|]. auto.
  - assert (Hne : exists x, x ∈ glob queue_dir ".json" (fs (store w))).
    { unfold get_queue_size in Hsize.
      destruct (glob queue_dir ".json" (fs (store w))) as [|x l]; [discriminate|].
      exists x. left. }
    destruct Hne as [x Hx].
    destruct (sorted_nonempty _ x Hx) as (name & rest & Hsorted & Hin).
    apply elem_of_glob in Hin as [[f Hf] Hjson]. unfold queue_dir in Hf.
    destruct (Hall name f Hf Hjson) as (event & m & su & bo & fr & to & -> & Hcontent).
    assert (Hpop : pop (store w) = Some (JObject event, (Needs_Action, name))).
    { unfold pop. rewrite Hsorted. unfold queue_dir. now rewrite Hf. }
    cbn [process_loop].
    change (0 <? max_events_per_cycle) with true. cbv iota.
    rewrite bind_gets, Hpop. cbv beta iota.
    set (w1 := mkWorld
                 (set_fs (<[(Done, name) := mkFile (EventJson event) m]>
                            (delete (Needs_Action, name) (fs (store w))))
                         (Logger.error "orchestrator" "event_processing_failed" "orchestrator"
                            (default "unknown" (ev_id event))
                            [("error", VStr "'dict' object has no attribute 'lower'")]
                            (store w)))
                 (trace w)).
    match goal with |- context [(try_except ?m ?h ≫= _) w] =>
      assert (Htry : try_except m h w = (Ok 0, w1)) end.
    { unfold try_except.
      assert (Ha : TaskAnalyzer.analyze_event event w
                   = (Raise (mkExc "AttributeError" "'dict' object has no attribute 'lower'"),
                      w)).
      { unfold TaskAnalyzer.analyze_event, TaskAnalyzer.content_lower.
        rewrite Hcontent. reflexivity. }
      rewrite (bind_raise _ _ _ _ _ Ha). cbv beta iota.
      rewrite bind_modify. cbn [exc_msg].
      assert (Hf' : fs (Logger.error "orchestrator" "event_processing_failed" "orchestrator"
                          (default "unknown" (ev_id event))
                          [("error", VStr "'dict' object has no attribute 'lower'")]
                          (store w)) !! (Needs_Action, name)
                    = Some (mkFile (EventJson event) m)) by exact Hf.
      rewrite (bind_ok _ _ _ _ _ (move_to_done_spec _ (trace w) name _ Hf')).
      reflexivity. }
    rewrite (bind_ok _ _ _ _ _ Htry).
    assert (Hfs1 : fs (store w1)
                   = <[(Done, name) := mkFile (EventJson event) m]>
                       (delete (Needs_Action, name) (fs (store w)))) by reflexivity.
    assert (Hlog1 : length (log (store w1)) = S (length (log (store w)))).
    { subst w1. cbn. rewrite length_app. cbn. lia. }
    assert (Hrest1 : trace w1 = trace w /\ plan (store w1) = plan (store w)
                     /\ clock (store w1) = clock (store w)) by (repeat split).
    assert (Hna1 : forall n0, fs (store w1) !! (Needs_Action, n0)
                              = if decide (n0 = name) then None
                                else fs (store w) !! (Needs_Action, n0)).
    { intros n0. rewrite Hfs1, lookup_insert_ne by discriminate.
      destruct (decide (n0 = name)) as [->|Hn].
      - apply lookup_delete_eq.
      - apply lookup_delete_ne. congruence. }
    clearbody w1.
    assert (Hsize1 : get_queue_size (store w1) = n).
    { unfold get_queue_size in *.
      assert (E : length (glob queue_dir ".json" (fs (store w)))
                  = S (length (glob queue_dir ".json" (fs (store w1))))).
      { apply (glob_remove_one _ _ name).
        - apply elem_of_glob. eauto.
        - intros n0. rewrite !elem_of_glob. unfold queue_dir. rewrite Hna1.
          destruct (decide (n0 = name)) as [->|Hn].
          + split; [intros [[? ?] _]; discriminate|intros [_ ?]; contradiction].
          + tauto. }
      lia. }
    destruct (IH w1 Hsize1) as (w' & Hloop & Hq & Hmoved & Hframe & Hlog & Ht & Hp & Hc).
    { intros n0 f0 Hf0 He0. rewrite Hna1 in Hf0.
      destruct (decide (n0 = name)); [discriminate|]. eauto. }
    destruct Hrest1 as (Ht1 & Hp1 & Hc1).
    exists w'. split; [exact Hloop|]. split; [exact Hq|].
    split.
    { intros n0 He0 Hs0. destruct (decide (n0 = name)) as [->|Hn].
      - assert (Hfr : forall p, p = (Needs_Action, name) \/ p = (Done, name) ->
                                fs (store w') !! p = fs (store w1) !! p).
        { intros p Hp0. apply Hframe. intros n1 He1 Hs1. rewrite Hna1 in Hs1.
          destruct (decide (n1 = name)) as [->|Hn1]; [destruct Hs1; discriminate|].
          destruct Hp0 as [-> | ->]; split; congruence. }
        rewrite !Hfr by auto. rewrite Hna1.
        destruct (decide (name = name)); [|contradiction].
        split; [reflexivity|]. rewrite Hfs1, lookup_insert_eq. now rewrite Hf.
      - destruct (Hmoved n0 He0) as (Hm1 & Hm2).
        { rewrite Hna1. now destruct (decide (n0 = name)). }
        split; [exact Hm1|]. rewrite Hm2, Hna1. now destruct (decide (n0 = name)). }
    split.
    { intros p Hp0. rewrite Hframe.
      - destruct (Hp0 name Hjson ltac:(eauto)) as (Hp1' & Hp2').
        rewrite Hfs1. rewrite lookup_insert_ne by congruence.
        apply lookup_delete_ne. congruence.
      - intros n1 He1 Hs1. rewrite Hna1 in Hs1.
        destruct (decide (n1 = name)); [destruct Hs1; discriminate|]. auto. }
    split; [rewrite Hlog, Hlog1; lia|].
    split; [congruence|]. split; congruence.
Qed.

(** Events in the shape the watchers write them (the [content] is a
    dictionary) are never handled: the analyzer raises on each, and one
    cycle of the orchestrator moves every queued file to Done, whatever
    their number, counts no event as processed, calls no action, asks for no
    approval, and writes one error entry per event to the log. The limit of
    ten events per cycle does not apply, since only handled events are
    counted. *)
Theorem watcher_events_are_discarded (env : Env) (self : Orchestrator) (w : World) :
  (forall name f,
      fs (store w) !! (Needs_Action, name) = Some f ->
      ends_with ".json" name = true ->
      exists event m subject body from to,
        f = mkFile (EventJson event) m
        /\ ev_content event = Some (CFields subject body from to)) ->
  exists w',
    _process_event_queue env self (S (get_queue_size (store w))) w = (Ok 0, w')
    /\ get_queue_size (store w') = 0%nat
    /\ (forall name,
           ends_with ".json" name = true ->
           is_Some (fs (store w) !! (Needs_Action, name)) ->
           fs (store w') !! (Needs_Action, name) = None
           /\ fs (store w') !! (Done, name) = fs (store w) !! (Needs_Action, name))
    /\ length (log (store w')) = (length (log (store w)) + get_queue_size (store w))%nat
    /\ trace w' = trace w
    /\ plan (store w') = plan (store w).
Proof.
  intros Hall. unfold _process_event_queue.
  destruct (discard_loop env self (get_queue_size (store w)) w eq_refl Hall)
    as (w' & Hl & Hq & Hm & _ & Hlog & Ht & Hp & _).
  exists w'. repeat split; try assumption; apply Hm; assumption.
Qed.

Lemma watcher_events_are_discarded_witness :
  let e1 := mkEvent None (Some "20240101_100000_gmail_aaaaaa") (Some "gmail")
                    (Some "new_email")
                    (Some (CFields "Pricing" "Could you share your pricing?"
                                   "lead@example.com" "me@example.com")) ∅ in
  let e2 := mkEvent None (Some "20240101_100005_gmail_bbbbbb") (Some "gmail")
                    (Some "new_email")
                    (Some (CFields "Refund" "I want a refund"
                                   "client@example.com" "me@example.com")) ∅ in
  let w := mkWorld (mkStore 0
                      (<[(Needs_Action, "20240101_100000_gmail_aaaaaa.json")
                           := mkFile (EventJson e1) 0]>
                         (<[(Needs_Action, "20240101_100005_gmail_bbbbbb.json")
                              := mkFile (EventJson e2) 0]> ∅))
                      None []) [] in
  exists w',
    _process_event_queue quiet_env (mkOrchestrator false default_executor) 3 w = (Ok 0, w')
    /\ get_queue_size (store w') = 0%nat
    /\ fs (store w') !! (Done, "20240101_100000_gmail_aaaaaa.json")
       = Some (mkFile (EventJson e1) 0)
    /\ length (log (store w')) = 2%nat.
Proof.
  intros e1 e2 w.
  assert (Hsize : get_queue_size (store w) = 2%nat) by (vm_compute; reflexivity).
  destruct (watcher_events_are_discarded quiet_env (mkOrchestrator false default_executor) w)
    as (w' & Hrun & Hq & Hmoved & Hlog & _).
  { intros name f Hf He. subst w. cbn [store fs] in Hf.
    apply lookup_insert_Some in Hf as [[_ <-]|[_ Hf]].
    { exists e1, 0. do 4 eexists. split; reflexivity. }
    apply lookup_insert_Some in Hf as [[_ <-]|[_ Hf]].
    { exists e2, 0. do 4 eexists. split; reflexivity. }
    rewrite lookup_empty in Hf. discriminate. }
  rewrite Hsize in Hrun, Hlog.
  exists w'. split; [exact Hrun|]. split; [exact Hq|].
  split; [|exact Hlog].
  destruct (Hmoved "20240101_100000_gmail_aaaaaa.json" eq_refl) as (_ & Hd).
  { subst w. cbn [store fs]. rewrite lookup_insert_eq. eauto. }
  rewrite Hd. subst w. cbn [store fs]. apply lookup_insert_eq.
Defined.

End WatcherEvents.

Section DirectPath.
Import OrchestratorM.

(** The direct path never relocates the event: [_execute_simple] runs
    the first suggested action (a log line) and then either finds the file
    named by the event's [id] and fails on the call that should move it
    (TypeError, logged as task_failed), or does not find it and reports
    task_completed. In both cases the vault is as before, no approval is
    requested and nothing is slept. *)
Theorem execute_simple_never_moves_the_event (env : Env) (self : Orchestrator)
    (event : Event) (analysis : Analysis) (w : World) :
  suggested_actions analysis <> [] ->
  exists r w',
    _execute_simple env self event analysis w = (r, w')
    /\ fs (store w') = fs (store w)
    /\ trace w' = trace w
    /\ clock (store w') = clock (store w)
    /\ r = (if exists_ (event_file_of (ev_id event)) (store w)
            then Raise (mkExc "TypeError"
                   "EventQueue.move_to_done() got an unexpected keyword argument 'status'")
            else Ok tt)
    /\ List.map log_action (log (store w'))
       = (List.map log_action (log (store w))
          ++ [ "event_routed";
               if dry_run self then "step_simulated" else "step_executed";
               if exists_ (event_file_of (ev_id event)) (store w)
               then "task_failed" else "task_completed" ])%list.
Proof.
  intros Hne. unfold _execute_simple.
  destruct (suggested_actions analysis) as [|action rest] eqn:Hs; [now destruct Hne|].
  rewrite bind_modify. unfold analysis_requires_approval. cbv iota.
  match goal with |- context [try_except _ _ ?w0] => set (w1 := w0) end.
  assert (H1 : fs (store w1) = fs (store w) /\ trace w1 = trace w
               /\ clock (store w1) = clock (store w)
               /\ List.map log_action (log (store w1))
                  = (List.map log_action (log (store w)) ++ ["event_routed"])%list).
  { subst w1. cbn. rewrite map_app. repeat split. }
  clearbody w1. destruct H1 as (Hf1 & Ht1 & Hc1 & Hl1).
  assert (Hrun : exists w2,
             run_action (_execute_step_action self action event analysis) w1 = (Ok tt, w2)
             /\ fs (store w2) = fs (store w1) /\ trace w2 = trace w1
             /\ clock (store w2) = clock (store w1)
             /\ List.map log_action (log (store w2))
                = (List.map log_action (log (store w1))
                   ++ [if dry_run self then "step_simulated" else "step_executed"])%list).
  { unfold run_action, _execute_step_action.
    destruct (dry_run self); eexists; (split; [reflexivity|]); cbn;
      rewrite map_app; repeat split. }
  destruct Hrun as (w2 & Hrun & Hf2 & Ht2 & Hc2 & Hl2).
  assert (Hx : exists_ (event_file_of (ev_id event)) (store w2)
               = exists_ (event_file_of (ev_id event)) (store w)).
  { unfold exists_. now rewrite Hf2, Hf1. }
  unfold try_except.
  rewrite (bind_ok _ _ _ _ _ Hrun). rewrite bind_gets, Hx.
  destruct (exists_ (event_file_of (ev_id event)) (store w)).
  - unfold move_to_done_completed.
    match goal with |- context [(raise ?e ≫= ?k1) w2] =>
      assert (Hr : (raise e ≫= k1) w2 = (Raise e, w2)) by reflexivity;
      rewrite Hr end.
    rewrite bind_modify.
    eexists. eexists. split; [reflexivity|]. cbn.
    rewrite map_app, Hl2, Hl1, <- !app_assoc.
    repeat split; congruence.
  - match goal with |- context [(ret tt ≫= ?k1) w2] =>
      change ((ret tt ≫= k1) w2) with (k1 tt w2) end.
    cbv beta.
    match goal with |- context [modify ?f w2] =>
      change (modify f w2) with (Ok tt, mkWorld (f (store w2)) (trace w2)) end.
    eexists. eexists. split; [reflexivity|]. cbn.
    rewrite map_app, Hl2, Hl1, <- !app_assoc.
    repeat split; congruence.
Qed.

Lemma execute_simple_never_moves_the_event_witness :
  let event := mkEvent (Some "20240101_100000_gmail_abc123") None (Some "gmail")
                       (Some "new_email") (Some (CText "hello there")) ∅ in
  let analysis := mkAnalysis Complexity.simple Category.general Priority.low false
                    ["Analyze request intent"; "Determine appropriate response";
                     "Draft response"; "Review and send"] 4 "gmail" "new_email" in
  let w := mkWorld (mkStore 0 (<[(Needs_Action, "20240101_100000_gmail_abc123.json")
                                   := mkFile (EventJson event) 0]> ∅) None []) [] in
  exists e w',
    _execute_simple quiet_env (mkOrchestrator false default_executor) event analysis w
      = (Raise e, w')
    /\ fs (store w') = fs (store w)
    /\ List.map log_action (log (store w'))
       = ["event_routed"; "step_executed"; "task_failed"].
Proof.
  intros event analysis w.
  destruct (execute_simple_never_moves_the_event quiet_env
              (mkOrchestrator false default_executor) event analysis w)
    as (r & w' & Hr & Hf & _ & _ & Hres & Hlog); [discriminate|].
  assert (Hx : exists_ (event_file_of (ev_id event)) (store w) = true)
    by (vm_compute; reflexivity).
  rewrite Hx in Hres, Hlog. subst r.
  eexists. exists w'. split; [exact Hr|]. split; [exact Hf|exact Hlog].
Defined.

End DirectPath.
